(* ===== verification/_CoqProject ===== *)
-Q . S2P
Prelude.v
PyValue.v
Http.v
Session.v
Fetcher.v
Enricher.v
MutualSnoop.v
DualMutualSnoop.v
Database.v
Dedupe.v
Autolabel.v
Reporter.v
ReportBot.v
