(* ===== verification/Prelude.v ===== *)
(** * A verification development of ozone-scripts

    ozone-scripts is a set of Python scripts around a Bluesky / Ozone
    moderation service.  Two of them are the algorithmic core:

    - [src/mutualsnoop.py] logs in ([get_access_token]), walks two
      paginated relationship lists of one account ([fetch_follows],
      [fetch_followers]: a [while True] loop following an opaque
      [cursor]), intersects them ([follows & followers]) and enriches
      every surviving identifier with its profile
      ([fetch_account_details]), in [find_mutual_connections];
    - [src/dualmutualsnoop.py] repeats lines 1-113 of the former word
      for word and intersects the mutual sets of two accounts in
      [find_common_accounts].

    Two more scripts work on the moderation queue kept in PostgreSQL:
    [src/dedupe.py] closes the open reviews whose account already
    carries a label, and [src/autolabel.py] labels the accounts of open
    reviews whose handle matches a keyword and closes those reviews.
    [src/reporter.py] walks a moderation list with the atproto client
    and files one report per listed account; [src/reportbot.py] relays
    the open reviews to a Discord channel.

    ** Layout of the library (in dependency order)

    - [Prelude] (this file): the Python runtime the scripts run on.
      Exceptions are the inductive [exn] ([SystemExit] is the only
      non-[Exception], so [except Exception] does not catch [exit(1)]);
      a statement is a state-and-exception monad [M S A := S -> outcome
      A * S] whose outcome is a value, a raised exception or
      [OutOfFuel] (the fuel of a [while True] loop ran out); [try_except]
      is [try: ... except Exception as e: ...] and [try_bind_finally]
      adds a [finally] clause that sees a local only if its assignment
      ran.  The monad is an instance of stdpp's [MRet]/[MBind], so code
      reads [x ← m ; k]; the run lemmas are in the hint database
      [pyrun], the invariant combinators [preserves] and [triple] come
      with their composition lemmas.
    - [PyValue]: the values a decoded JSON body holds ([json]), Python
      truthiness, [d.get(k)], [d[k]], iteration, and hashing into
      [pykey] so that a Python [set] is a stdpp [gset pykey].
    - [Http]: the [requests] library against a deterministic server
      [srv : request -> reply], the request trace and the log, as a
      [Runtime] typeclass over the script's state.
    - [Session]: [get_access_token] of the snoop scripts, which sets the
      module-global [access_token] (state [snoop]).
    - [Fetcher]: [fetch_follows] / [fetch_followers] (one generic
      [fetch_relation]), with the served-walk relation [walk] as the
      abstract page producer of the spec and its refinement theorem.
    - [Enricher]: [fetch_account_details] and the enrichment loop.
    - [MutualSnoop], [DualMutualSnoop]: the two orchestrators (the
      latter in [Module dualmutualsnoop]).

    The definitions of each script whose names recur in other scripts
    ([main], [LABEL], [process_reviews], [fetch_follows], ...) live in
    a Module named after the Python module, so [dedupe.main] and
    [autolabel.main] are both the [main] of their script; the
    [mutualsnoop] modules of [Session], [Fetcher], [Enricher] and
    [MutualSnoop] are exported, and src/dualmutualsnoop.py's textual
    copy of lines 1-113 is modelled again in [dualmutualsnoop] and
    proved equal to them.
    - [Database]: the tables [moderation_subject_status] and [label]
      behind psycopg2 (state [mod_state]: tables, fault schedule, clock,
      trace and log), the SQL statements of the scripts, the review
      guard [if not record_id or not did], and the lemmas on passes that
      close rows ([closed_by], [py_for_closes]).
    - [Dedupe]: src/dedupe.py, in [Module dedupe].
    - [Autolabel]: src/autolabel.py, in [Module autolabel]; its
      verbatim copy of [fetch_open_reviews] is shown equal to
      [dedupe.fetch_open_reviews].
    - [Reporter]: src/reporter.py, in [Module reporter], over its own
      interface to the atproto client ([xrpc_call] answered by a service
      [api]).
    - [ReportBot]: src/reportbot.py, in [Module reportbot]; its state
      [bot] holds the database
      side ([mod_state], reached through the lens combinator [zoom]),
      the Discord channel and the embeds sent; [run_ticks n] is the
      first [n] runs of the periodic task.

    ** What the theorems show

    - Fetcher (C1-C4, C10): refinement of the walk (the returned set is
      the identifiers of the served pages, one request per page), the
      degraded-walk policy, divergence on a server that never stops
      sending a cursor, no exception out of the loop, and the
      [TypeError] of an unhashable identifier, and, whatever the server
      answers, at most one page request per unit of fuel (C38).
    - Session (C5, C11, C13, C36): the login, its fatal failures (also
      through the dual-target script's copy), and the missing-token
      case that the code does not treat as fatal.
    - Enricher and orchestrators (C6-C9, C12): the loop of
      [enrich_accounts] drops exactly the identifiers whose profile
      fails, with no placeholder record; the single- and dual-target
      results are the intersections, without duplicates; swapping the
      two accounts of the dual-target mode gives the same records up to
      order (a permutation: CPython may order them differently).
    - Dedupe (C14, C15): under any database faults only labelled open
      reviews are closed and no label changes; without faults exactly
      those are closed.
    - Autolabel (C16-C19): under any faults only reviews whose handle
      matches are closed and only their dids labelled; without faults
      exactly those are closed and labelled; a failing [conn.cursor()]
      in [apply_label_to_did] abandons the batch through an
      [UnboundLocalError]; a failed label insert still closes the
      review.  Labelling is idempotent (C32), and what autolabel writes
      dedupe reads back (C31).  A failed login exits before any
      database round trip (C33); after a login, only profile requests
      are sent, with the bearer the login returned, [None] when the
      answer lacks [accessJwt] (C34).  A truthy handle that is not a
      string raises [TypeError] and abandons the rest of the batch
      (C37).
    - Reporter (C20-C24): on a served list walk the script makes one
      request per page and one report per listed did, in order; a page
      failure or a login failure is fatal before any report; the report
      loop never raises; a cycling cursor makes the script diverge.
      Whatever the service answers, every call has the shape the client
      requires, stated from the source literals: a [getList] carries
      only a truthy cursor the service returned, a report goes through
      the labeler proxy with a [RepoRef] subject whose did is a string
      the service listed (C29).
    - ReportBot (C25-C28): one run of the task relays every open review
      once; [n] runs send it [n] times; a missing channel sends nothing;
      under any faults nothing is raised, no table changes and only
      open reviews are sent; run by run, the embeds sent are a sublist
      of those of the open reviews, so each review at most once per run
      (C30).
      After dedupe has run without faults, the bot relays exactly the
      reviews dedupe left open (C35).

    ** Modelling choices

    - The server is a pure function of the request: the spec does not
      promise a consistent snapshot, and a pure server is the case in
      which its properties can hold at all.
    - A [while True] loop is a [Fixpoint] on a fuel argument; running out
      of fuel is the outcome [OutOfFuel], never a normal return, so the
      termination theorems say "enough fuel gives the result" (fuel at
      least the number of requests of the walk, [walk_requests]) and
      the divergence theorem says "every fuel runs out".  The witnesses
      use fuel 10, above the at most three requests of their walks.
    - Every database round trip consumes one entry of a fault schedule
      ([true] raises [DatabaseError]); the safety theorems quantify over
      all schedules, the functional ones take the empty schedule.
      [datetime.utcnow()] reads and advances a clock.  Closing a cursor
      or a connection is local and not modelled as a round trip.
    - A Python [set] is a stdpp [gset] and is iterated in the order of
      [elements]; CPython iterates in hash-table order, which depends on
      how the set was built.  The theorems on results built from a set
      are stated up to that order (membership, permutation, or the same
      set iterated twice).
    - JSON numbers are integers; Python's [True == 1] (equal hashes) is
      kept by hashing [JBool b] to [PInt (Z.b2z b)].  A set element is
      handed back to the API as the value it equals ([json_of_key]):
      for a boolean identifier Python would hand back the first object
      inserted, [True], where the model hands back [1].  Strings are
      [String.string]; the keyword regex is modelled with ASCII case
      folding.
    - Log lines are recorded as (level, fixed message text, arguments),
      not as formatted strings.
    - Not modelled: [logging.basicConfig], the text of exceptions in log
      lines, the internals of the atproto, discord.py and psycopg2
      libraries (only the calls the scripts make and the exceptions
      they raise), and [client.run] of the Discord bot. *)

From stdpp Require Import base list.
From Stdlib Require Import ZArith.

(** ** Python exceptions *)

Inductive exn :=
| KeyError
| TypeError
| AttributeError
| JSONDecodeError
| RequestException
| DatabaseError
| UnboundLocalError
| SystemExit (code : Z).

(** [except Exception] catches everything but [SystemExit], which
    derives from [BaseException] only. *)
Definition is_exception (e : exn) : bool :=
  match e with SystemExit _ => false | _ => true end.

#[export] Instance exn_eq_dec : EqDecision exn.
Proof. solve_decision. Defined.

(** ** Outcomes and the statement monad *)

Inductive outcome (A : Type) :=
| Ok (a : A)
| Raise (e : exn)
| OutOfFuel.
Arguments Ok {A} a.
Arguments Raise {A} e.
Arguments OutOfFuel {A}.

(** A Python expression: a value or an exception.  [outcome] is itself a
    monad, so a chain of expressions reads [x ← e1 ; e2]. *)
#[export] Instance outcome_ret : MRet outcome := fun A a => Ok a.
#[export] Instance outcome_bind : MBind outcome := fun A B k o =>
  match o with Ok a => k a | Raise e => Raise e | OutOfFuel => OutOfFuel end.

Definition M (S A : Type) : Type := S -> outcome A * S.

#[export] Instance M_ret S : MRet (M S) := fun A a s => (Ok a, s).
#[export] Instance M_bind S : MBind (M S) := fun A B k m s =>
  match m s with
  | (Ok a, s') => k a s'
  | (Raise e, s') => (Raise e, s')
  | (OutOfFuel, s') => (OutOfFuel, s')
  end.

Section Ops.
Context {S : Type}.

Definition raise {A} (e : exn) : M S A := fun s => (Raise e, s).
Definition out_of_fuel {A} : M S A := fun s => (OutOfFuel, s).
Definition gets {A} (f : S -> A) : M S A := fun s => (Ok (f s), s).
Definition modify (f : S -> S) : M S unit := fun s => (Ok tt, f s).

(** An expression that may raise, evaluated without touching the state. *)
Definition lift {A} (o : outcome A) : M S A := fun s => (o, s).

(** [try: m  except Exception as e: h e] *)
Definition try_except {A} (m : M S A) (h : exn -> M S A) : M S A :=
  fun s =>
    match m s with
    | (Raise e, s') => if is_exception e then h e s' else (Raise e, s')
    | r => r
    end.

(** [try: x = m1; k x  except Exception as e: h e  finally: fin x].
    The finally clause sees the local [x] only if its assignment ran
    ([None] when [m1] raised); it runs whatever happened before it, and
    an exception it raises replaces the outcome of the try statement. *)
Definition try_bind_finally {A B} (m1 : M S B) (k : B -> M S A) (h : exn -> M S A)
    (fin : option B -> M S unit) : M S A :=
  fun s =>
    let '(o1, s1) := m1 s in
    let x := match o1 with Ok b => Some b | _ => None end in
    let '(o2, s2) := try_except (lift o1 ≫= k) h s1 in
    let '(o3, s3) := fin x s2 in
    match o3 with
    | Ok _ => (o2, s3)
    | Raise e => (Raise e, s3)
    | OutOfFuel => (OutOfFuel, s3)
    end.

(** [exit(code)] *)
Definition py_exit {A} (code : Z) : M S A := raise (SystemExit code).

(** A [for] loop over a list, threading an accumulator. *)
Fixpoint py_for {A B} (l : list A) (acc : B) (body : B -> A -> M S B) : M S B :=
  match l with
  | [] => mret acc
  | x :: l' => acc' ← body acc x ; py_for l' acc' body
  end.
End Ops.

(** Running a statement of a component on the part of a larger state
    that holds it ([get]/[put] are the lens of that part). *)
Definition zoom {S T A} (get : T -> S) (put : S -> T -> T) (m : M S A) : M T A :=
  fun t => let '(o, s') := m (get t) in (o, put s' t).

(** Mapping an expression that may raise over a list, as a list
    comprehension does: the first exception aborts the whole list. *)
Fixpoint map_outcome {A B} (f : A -> outcome B) (l : list A) : outcome (list B) :=
  match l with
  | [] => Ok []
  | x :: l' =>
      match f x with
      | Ok y =>
          match map_outcome f l' with
          | Ok ys => Ok (y :: ys)
          | Raise e => Raise e
          | OutOfFuel => OutOfFuel
          end
      | Raise e => Raise e
      | OutOfFuel => OutOfFuel
      end
  end.

(** An expression of the scripts evaluates to a value or raises an
    [Exception]: it neither exits nor diverges. *)
Definition expr_ok {A} (o : outcome A) : Prop :=
  match o with Ok _ => True | Raise e => is_exception e = true | OutOfFuel => False end.

Lemma expr_ok_bind {A B} (o : outcome A) (k : A -> outcome B) :
  expr_ok o -> (forall a, expr_ok (k a)) -> expr_ok (o ≫= k).
Proof. destruct o; cbn; auto. Qed.

Lemma expr_ok_ret {A} (a : A) : expr_ok (mret a : outcome A).
Proof. exact I. Qed.

Lemma expr_ok_map {A B} (f : A -> outcome B) (l : list A) :
  (forall x, expr_ok (f x)) -> expr_ok (map_outcome f l).
Proof.
  intros Hf. induction l as [|x l IH]; cbn; [exact I|].
  specialize (Hf x). destruct (f x); cbn in *; auto.
  destruct (map_outcome f l); cbn in *; auto.
Qed.

Create HintDb pyexpr discriminated.
#[export] Hint Resolve expr_ok_bind expr_ok_ret expr_ok_map : pyexpr.

Declare Scope py_scope.
Delimit Scope py_scope with py.
Notation "'try:' m 'except' e '=>' h" := (try_except m (fun e => h))
  (at level 100, m at level 100, e name, h at level 200) : py_scope.
Notation "m '@@' s" := (m s) (at level 10, only parsing) : py_scope.

(** ** Run lemmas *)

Create HintDb pyrun discriminated.
Create Rewrite HintDb pyrun.

Section RunLemmas.
Context {S : Type}.

Lemma run_ret {A} (a : A) (s : S) : (mret a : M S A) s = (Ok a, s).
Proof. reflexivity. Qed.

Lemma run_bind {A B} (m : M S A) (k : A -> M S B) s :
  (m ≫= k) s =
    match m s with
    | (Ok a, s') => k a s'
    | (Raise e, s') => (Raise e, s')
    | (OutOfFuel, s') => (OutOfFuel, s')
    end.
Proof. reflexivity. Qed.

Lemma run_bind_ok {A B} (m : M S A) (k : A -> M S B) s a s' :
  m s = (Ok a, s') -> (m ≫= k) s = k a s'.
Proof. intros H. rewrite run_bind, H. reflexivity. Qed.

Lemma run_bind_raise {A B} (m : M S A) (k : A -> M S B) s e s' :
  m s = (Raise e, s') -> (m ≫= k) s = (Raise e, s').
Proof. intros H. rewrite run_bind, H. reflexivity. Qed.

Lemma run_bind_fuel {A B} (m : M S A) (k : A -> M S B) s s' :
  m s = (OutOfFuel, s') -> (m ≫= k) s = (OutOfFuel, s').
Proof. intros H. rewrite run_bind, H. reflexivity. Qed.

Lemma run_bind_ok_inv {A B} (m : M S A) (k : A -> M S B) s b s' :
  (m ≫= k) s = (Ok b, s') -> exists a s1, m s = (Ok a, s1) /\ k a s1 = (Ok b, s').
Proof. rewrite run_bind. destruct (m s) as [[a| |] s1]; [eauto|done|done]. Qed.

Lemma run_bind_fst_ok {A B} (m : M S A) (k : A -> M S B) s b :
  fst ((m ≫= k) s) = Ok b -> exists a, fst (m s) = Ok a /\ fst (k a (snd (m s))) = Ok b.
Proof. rewrite run_bind. destruct (m s) as [[a| |] s1]; cbn; [eauto|done|done]. Qed.

Lemma run_bind_snd_ok {A B} (m : M S A) (k : A -> M S B) s a :
  fst (m s) = Ok a -> snd ((m ≫= k) s) = snd (k a (snd (m s))).
Proof. rewrite run_bind. destruct (m s) as [[a'| |] s1]; cbn; [by intros [= ->]|done|done]. Qed.

Lemma run_try_ok {A} (m : M S A) h s a s' :
  m s = (Ok a, s') -> try_except m h s = (Ok a, s').
Proof. intros H. unfold try_except. rewrite H. reflexivity. Qed.

Lemma run_try_catch {A} (m : M S A) h s e s' :
  m s = (Raise e, s') -> is_exception e = true -> try_except m h s = h e s'.
Proof. intros H He. unfold try_except. rewrite H, He. reflexivity. Qed.

Lemma run_lift {A} (o : outcome A) (s : S) : lift o s = (o, s).
Proof. reflexivity. Qed.

Lemma run_gets {A} (f : S -> A) s : gets f s = (Ok (f s), s).
Proof. reflexivity. Qed.

Lemma run_modify f (s : S) : modify f s = (Ok tt, f s).
Proof. reflexivity. Qed.

(** A [for] loop whose body never fails, in states satisfying an
    invariant [P] that the body preserves, runs to the end. *)
Lemma py_for_total {A B} (P : S -> Prop) (l : list A) (acc : B) (body : B -> A -> M S B)
    (step : B -> A -> B) (eff : A -> S -> S) s :
  (forall b x s0, P s0 -> body b x s0 = (Ok (step b x), eff x s0)) ->
  (forall x s0, P s0 -> P (eff x s0)) ->
  P s ->
  py_for l acc body s = (Ok (foldl step acc l), foldl (fun s0 x => eff x s0) s l).
Proof.
  intros Hb HP. revert acc s. induction l as [|x l IH]; intros acc s Hs; [reflexivity|].
  cbn [py_for foldl]. rewrite (run_bind_ok _ _ _ _ _ (Hb acc x s Hs)). apply IH. by apply HP.
Qed.
End RunLemmas.

(** ** Statements that read the state only through a projection

    [determined_by f m v]: the outcome of [m] is [v (f s)] in every state
    [s], and [m] leaves [f s] unchanged.  It composes through [≫=], so
    the outcome of a whole function is computed from those of its
    calls. *)
Definition determined_by {S T A} (f : S -> T) (m : M S A) (v : T -> outcome A) : Prop :=
  forall s, fst (m s) = v (f s) /\ f (snd (m s)) = f s.

Section Determined.
Context {S T : Type} (f : S -> T).

Lemma determined_by_bind {A B} (m : M S A) (k : A -> M S B) v w :
  determined_by f m v -> (forall a, determined_by f (k a) (w a)) ->
  determined_by f (m ≫= k) (fun t => a ← v t ; w a t).
Proof.
  intros Hm Hk s. rewrite run_bind. destruct (Hm s) as [Hv Hf].
  destruct (m s) as [o s1]; cbn in Hv, Hf; subst o.
  destruct (v (f s)) as [a| |]; cbn; [|done|done].
  destruct (Hk a s1) as [-> ->]. by rewrite Hf.
Qed.

Lemma determined_by_ret {A} (a : A) : determined_by f (mret a) (fun _ => Ok a).
Proof. done. Qed.

Lemma determined_by_ext {A} (m : M S A) v v' :
  determined_by f m v -> (forall t, v t = v' t) -> determined_by f m v'.
Proof. intros Hm Hv s. rewrite <- Hv. apply Hm. Qed.
End Determined.

Create HintDb determined discriminated.
#[export] Hint Resolve determined_by_ret : determined.

(** ** Invariants of statements

    [preserves P m]: from a state satisfying [P], [m] ends (normally,
    by an exception or out of fuel) in a state satisfying [P]. *)
Definition preserves {S A} (P : S -> Prop) (m : M S A) : Prop :=
  forall s, P s -> P (snd (m s)).

Section Preserves.
Context {S : Type} (P : S -> Prop).

Lemma preserves_bind {A B} (m : M S A) (k : A -> M S B) :
  preserves P m -> (forall a, preserves P (k a)) -> preserves P (m ≫= k).
Proof.
  intros Hm Hk s Hs. rewrite run_bind. specialize (Hm s Hs).
  destruct (m s) as [[a| |] s1]; cbn in *; auto. by apply Hk.
Qed.

Lemma preserves_ret {A} (a : A) : preserves P (mret a).
Proof. by intros s. Qed.

Lemma preserves_lift {A} (o : outcome A) : preserves P (lift o).
Proof. by intros s. Qed.

Lemma preserves_raise {A} (e : exn) : preserves P (raise (A:=A) e).
Proof. by intros s. Qed.

Lemma preserves_try {A} (m : M S A) (h : exn -> M S A) :
  preserves P m -> (forall e, preserves P (h e)) -> preserves P (try_except m h).
Proof.
  intros Hm Hh s Hs. unfold try_except. specialize (Hm s Hs).
  destruct (m s) as [[a|e|] s1]; cbn in *; auto.
  destruct (is_exception e); cbn; auto. by apply Hh.
Qed.

Lemma preserves_for {A B} (l : list A) (acc : B) (body : B -> A -> M S B) :
  (forall b x, x ∈ l -> preserves P (body b x)) -> preserves P (py_for l acc body).
Proof.
  revert acc. induction l as [|x l IH]; intros acc Hb; [apply preserves_ret|].
  cbn [py_for]. apply preserves_bind; [apply Hb; left|].
  intros b. apply IH. intros ? ? ?. apply Hb. by right.
Qed.
Lemma preserves_try_bind_finally {A B} (m1 : M S B) (k : B -> M S A) (h : exn -> M S A)
    (fin : option B -> M S unit) :
  preserves P m1 -> (forall b, preserves P (k b)) -> (forall e, preserves P (h e)) ->
  (forall x, preserves P (fin x)) -> preserves P (try_bind_finally m1 k h fin).
Proof.
  intros H1 Hk Hh Hf s Hs. unfold try_bind_finally. specialize (H1 s Hs).
  destruct (m1 s) as [o1 s1]. cbn in H1.
  pose proof (preserves_try (lift o1 ≫= k) h (preserves_bind _ _ (preserves_lift o1) Hk) Hh s1 H1) as H2.
  destruct (try_except (lift o1 ≫= k) h s1) as [o2 s2]. cbn in H2.
  match goal with |- context [fin ?x s2] => specialize (Hf x s2 H2) end.
  destruct (fin _ s2) as [[]]; exact Hf.
Qed.
End Preserves.

(** [triple I P m Q]: from a state satisfying the invariant [I] and the
  precondition [P], [m] keeps [I] whatever its outcome, and a normal
  return [a] satisfies [Q a]. *)
Definition triple {S A} (I P : S -> Prop) (m : M S A) (Q : A -> S -> Prop) : Prop :=
forall s, I s -> P s -> I (snd (m s)) /\ forall a, fst (m s) = Ok a -> Q a (snd (m s)).

Section Triple.
Context {S : Type} (I : S -> Prop).

Lemma triple_bind {A B} P (m : M S A) Q (k : A -> M S B) R :
  triple I P m Q -> (forall a, triple I (Q a) (k a) R) -> triple I P (m ≫= k) R.
Proof.
  intros Hm Hk s HI HP. rewrite run_bind. destruct (Hm s HI HP) as [HI1 HQ].
  destruct (m s) as [[a| |] s1]; cbn in *; [|by split|by split].
  by apply Hk; [|apply HQ].
Qed.

Lemma triple_ret {A} P (a : A) : triple I P (mret a) (fun b s => b = a /\ P s).
Proof. intros s HI HP. split; [done|]. by intros ? [= <-]. Qed.

Lemma triple_try {A} P (m : M S A) Q (h : exn -> M S A) :
  triple I P m Q -> (forall e, triple I (fun _ => True) (h e) Q) -> triple I P (try_except m h) Q.
Proof.
  intros Hm Hh s HI HP. unfold try_except. destruct (Hm s HI HP) as [HI1 HQ].
  destruct (m s) as [[a|e|] s1]; cbn in *; [by split| |by split].
  destruct (is_exception e); [|by split]. by apply Hh.
Qed.

Lemma triple_weaken {A} P P' (m : M S A) Q Q' :
  triple I P m Q -> (forall s, I s -> P' s -> P s) -> (forall a s, I s -> Q a s -> Q' a s) ->
  triple I P' m Q'.
Proof.
  intros Hm HP HQ s HI HP'. destruct (Hm s HI (HP s HI HP')) as [HI1 HQ1].
  split; [done|]. intros a Ha. by apply HQ, HQ1.
Qed.

Lemma triple_of_preserves {A} (m : M S A) : preserves I m -> triple I (fun _ => True) m (fun _ _ => True).
Proof. intros Hm s HI _. split; [by apply Hm|done]. Qed.
End Triple.

Create HintDb preserve discriminated.
#[export] Hint Resolve preserves_bind preserves_ret preserves_lift preserves_raise preserves_try : preserve.

#[export] Hint Rewrite @run_ret @run_lift @run_gets @run_modify : pyrun.

Lemma map_outcome_ok {A B} (f : A -> outcome B) (l : list A) (ys : list B) :
  Forall2 (fun x y => f x = Ok y) l ys -> map_outcome f l = Ok ys.
Proof. induction 1 as [|x y l ys Hxy _ IH]; cbn; [done|]. by rewrite Hxy, IH. Qed.

Lemma map_outcome_map {A B} (f : A -> B) (l : list A) :
  map_outcome (fun x => Ok (f x)) l = Ok (map f l).
Proof. induction l as [|x l IH]; cbn; [done|]. by rewrite IH. Qed.

(** [Forall2] weakened with the knowledge that the left element is in the list. *)
Lemma Forall2_impl_in {A B} (P Q : A -> B -> Prop) (l : list A) (k : list B) :
  Forall2 P l k -> (forall x y, x ∈ l -> P x y -> Q x y) -> Forall2 Q l k.
Proof.
  induction 1 as [|x y l k Hxy _ IH]; intros HQ; constructor.
  - apply HQ; [left|done].
  - apply IH. intros x' y' Hx'. apply HQ. by right.
Qed.

(** Two [Forall2] steps compose: a row related to an intermediate row
    related to a final one. *)
Lemma Forall2_compose {A B C} (P : A -> B -> Prop) (Q : B -> C -> Prop) (R : A -> C -> Prop) l1 l2 l3 :
  (forall x y z, P x y -> Q y z -> R x z) ->
  Forall2 P l1 l2 -> Forall2 Q l2 l3 -> Forall2 R l1 l3.
Proof.
  intros HR H12. revert l3. induction H12; intros l3 H23; inversion H23; subst; constructor; eauto.
Qed.

Lemma existsb_ext {A} (f g : A -> bool) l : (forall x, f x = g x) -> existsb f l = existsb g l.
Proof. intros H. induction l; cbn; congruence. Qed.

(** Two elements of a list with the same image under a map without
    duplicates are equal (a primary key determines its row). *)
Lemma NoDup_map_same {A B} (f : A -> B) (l : list A) x y :
  NoDup (map f l) -> x ∈ l -> y ∈ l -> f x = f y -> x = y.
Proof.
  induction l as [|z l IH]; intros Hnd Hx Hy Hf; [by apply not_elem_of_nil in Hx|].
  cbn in Hnd. apply NoDup_cons in Hnd as [Hz Hnd].
  apply elem_of_cons in Hx as [->|Hx], Hy as [->|Hy]; try done.
  - destruct Hz. rewrite Hf. apply list_elem_of_In, in_map, list_elem_of_In, Hy.
  - destruct Hz. rewrite <- Hf. apply list_elem_of_In, in_map, list_elem_of_In, Hx.
  - by apply IH.
Qed.

(** [step_ok H] rewrites one bind whose head statement is known by [H]. *)
Ltac step_ok H :=
  first [ rewrite (run_bind_ok _ _ _ _ _ H)
        | rewrite (run_bind_raise _ _ _ _ _ H)
        | rewrite (run_bind_fuel _ _ _ _ H) ].

(** [py_simp] unfolds the monad and the statement combinators and
    computes, leaving the calls of the modelled functions folded. *)
Ltac py_simp :=
  cbv [mbind M_bind mret M_ret outcome_bind outcome_ret try_except lift gets modify raise py_exit out_of_fuel] in *;
  cbn in *.

