(* ===== verification/PyValue.v ===== *)
(** Python values as [response.json()] produces them, and the few
    Python operations the scripts apply to them: truthiness ([if x:]),
    [d.get(k)], [d.get(k, default)], [d[k]], iteration in a list
    comprehension, and hashing into a [set].  Every operation that may
    raise returns an [outcome]. *)

From stdpp Require Import base list gmap strings countable.
From Stdlib Require Import ZArith String Ascii.
From S2P Require Import Prelude.

Open Scope Z_scope.

(** A decoded JSON document.  An object is kept as the list of its
    members in document order, duplicates included; [json.loads] keeps
    the last binding of a duplicated key. *)
#[local] Set Warnings "-register-all".
Inductive json :=
| JNull
| JBool (b : bool)
| JInt (z : Z)
| JStr (s : string)
| JList (l : list json)
| JDict (kvs : list (string * json)).

(** Python truthiness of a decoded value ([if cursor:]). *)
Definition truthy (j : json) : bool :=
  match j with
  | JNull => false
  | JBool b => b
  | JInt z => negb (z =? 0)
  | JStr s => negb (String.eqb s "")
  | JList l => negb (bool_decide (l = []))
  | JDict kvs => negb (bool_decide (kvs = []))
  end.

(** Lookup in a decoded object: the last binding of [k] wins. *)
Fixpoint dict_lookup (kvs : list (string * json)) (k : string) : option json :=
  match kvs with
  | [] => None
  | (k', v) :: rest =>
      match dict_lookup rest k with
      | Some v' => Some v'
      | None => if String.eqb k' k then Some v else None
      end
  end.

(** The keys of a decoded object in insertion order (first occurrence). *)
Definition dict_keys (kvs : list (string * json)) : list string :=
  foldl (fun ks kv => if existsb (String.eqb kv.1) ks then ks else ks ++ [kv.1]) [] kvs.

(** [d.get(k, dflt)]: only a dict has [get]. *)
Definition py_get_default (d : json) (k : string) (dflt : json) : outcome json :=
  match d with
  | JDict kvs => Ok (default dflt (dict_lookup kvs k))
  | _ => Raise AttributeError
  end.

(** [d.get(k)] returns [None] for a missing key. *)
Definition py_get (d : json) (k : string) : outcome json := py_get_default d k JNull.

(** [d[k]]: [KeyError] on a dict without [k], [TypeError] on anything
    that is not subscriptable by a string (lists, strings, numbers,
    [None]). *)
Definition py_getitem (d : json) (k : string) : outcome json :=
  match d with
  | JDict kvs =>
      match dict_lookup kvs k with
      | Some v => Ok v
      | None => Raise KeyError
      end
  | _ => Raise TypeError
  end.

(** [for item in x]: a list yields its elements, a string its
    characters, a dict its keys; anything else is not iterable. *)
Definition py_iter (j : json) : outcome (list json) :=
  match j with
  | JList l => Ok l
  | JStr s => Ok (map (fun c => JStr (String c EmptyString)) (list_ascii_of_string s))
  | JDict kvs => Ok (map JStr (dict_keys kvs))
  | _ => Raise TypeError
  end.

(** ** Hashing: the elements of a Python [set] *)

(** The hashable values a decoded document can hold, identified up to
    Python's [==]: [True == 1] and [False == 0] hash equal. *)
Inductive pykey := PNone | PInt (z : Z) | PStr (s : string).

#[export] Instance pykey_eq_dec : EqDecision pykey.
Proof. solve_decision. Defined.

#[export] Program Instance pykey_countable : Countable pykey :=
  inj_countable'
    (fun k => match k with PNone => inl tt | PInt z => inr (inl z) | PStr s => inr (inr s) end)
    (fun x => match x with inl _ => PNone | inr (inl z) => PInt z | inr (inr s) => PStr s end) _.
Next Obligation. by intros []. Qed.

Definition key_of (j : json) : option pykey :=
  match j with
  | JNull => Some PNone
  | JBool b => Some (PInt (Z.b2z b))
  | JInt z => Some (PInt z)
  | JStr s => Some (PStr s)
  | JList _ | JDict _ => None
  end.

(** A set element handed back to the API as a request parameter. *)
Definition json_of_key (k : pykey) : json :=
  match k with PNone => JNull | PInt z => JInt z | PStr s => JStr s end.

(** [hash(x)]: lists and dicts are unhashable. *)
Definition py_hash (j : json) : outcome pykey :=
  match key_of j with Some k => Ok k | None => Raise TypeError end.

(** [set(l)] *)
Definition py_set (l : list json) : outcome (gset pykey) :=
  match map_outcome py_hash l with
  | Ok ks => Ok (list_to_set ks)
  | Raise e => Raise e
  | OutOfFuel => OutOfFuel
  end.

(** ** Lemmas *)

Lemma py_get_default_ok d k dflt : expr_ok (py_get_default d k dflt).
Proof. by destruct d. Qed.

Lemma py_get_ok d k : expr_ok (py_get d k).
Proof. apply py_get_default_ok. Qed.

Lemma py_getitem_ok d k : expr_ok (py_getitem d k).
Proof. destruct d; cbn; try done. by destruct (dict_lookup _ _). Qed.

Lemma py_iter_ok j : expr_ok (py_iter j).
Proof. by destruct j. Qed.

#[export] Hint Resolve py_get_default_ok py_get_ok py_getitem_ok py_iter_ok : pyexpr.

Lemma key_of_json_of_key k : key_of (json_of_key k) = Some k.
Proof. by destruct k. Qed.

Lemma py_hash_str s : py_hash (JStr s) = Ok (PStr s).
Proof. reflexivity. Qed.

#[export] Hint Rewrite key_of_json_of_key py_hash_str : pyrun.

Lemma map_outcome_hash_ok (l : list json) :
  Forall (fun j => is_Some (key_of j)) l ->
  exists ks, map_outcome py_hash l = Ok ks /\ Forall2 (fun j k => key_of j = Some k) l ks.
Proof.
  induction 1 as [|j l [k Hk] _ [ks [Hks Hall]]]; [by exists []|].
  exists (k :: ks). cbn. unfold py_hash at 1. rewrite Hk, Hks. split; [done|]. by constructor.
Qed.

(** [set(l)] succeeds exactly when every element is hashable, and holds
    the keys of the elements. *)
Lemma py_set_elem (l : list json) s k :
  py_set l = Ok s -> k ∈ s <-> exists j, j ∈ l /\ key_of j = Some k.
Proof.
  unfold py_set. destruct (map_outcome py_hash l) as [ks| |] eqn:E; try discriminate.
  intros [= <-]. rewrite elem_of_list_to_set. revert ks E.
  induction l as [|j l IH]; intros ks E; cbn in E.
  - injection E as <-. split; [by intros ?%not_elem_of_nil|]. intros (? & ?%not_elem_of_nil & _); done.
  - unfold py_hash at 1 in E. destruct (key_of j) as [kj|] eqn:Hj; [|discriminate].
    destruct (map_outcome py_hash l) as [ks'| |]; try discriminate. injection E as <-.
    rewrite elem_of_cons, (IH ks' eq_refl). split.
    + intros [->|(j' & Hin & Hk)]; [exists j; split; [left|]; done|].
      exists j'. split; [by right|done].
    + intros (j' & [->|Hin]%elem_of_cons & Hk); [left; congruence|right; eauto].
Qed.

Lemma py_set_ok (l : list json) :
  Forall (fun j => is_Some (key_of j)) l ->
  exists s, py_set l = Ok s.
Proof.
  intros H. destruct (map_outcome_hash_ok l H) as (ks & Hks & _).
  unfold py_set. rewrite Hks. eauto.
Qed.

Lemma py_set_unhashable (l : list json) j :
  j ∈ l -> key_of j = None -> py_set l = Raise TypeError.
Proof.
  intros Hin Hj. unfold py_set.
  enough (map_outcome py_hash l = Raise TypeError) as -> by done.
  induction l as [|j' l IH]; [by apply not_elem_of_nil in Hin|].
  cbn. unfold py_hash at 1.
  apply elem_of_cons in Hin as [<-|Hin]; [by rewrite Hj|].
  rewrite (IH Hin). by destruct (key_of j').
Qed.

(** The set of a list of strings. *)
Lemma py_set_strings (ds : list string) :
  py_set (map JStr ds) = Ok (list_to_set (map PStr ds)).
Proof.
  unfold py_set. enough (map_outcome py_hash (map JStr ds) = Ok (map PStr ds)) as -> by done.
  induction ds as [|d ds IH]; cbn; [done|]. by rewrite IH.
Qed.
