(* ===== verification/Http.v ===== *)
(** The [requests] library and [logging], as the scripts use them.

    A request is recorded in the script's trace and answered by a
    deterministic server [srv : request -> reply]; a transport failure
    ([requests.get] raising) is [Transport].  The trace and the log live
    in a [net] record that every script state carries; the [Runtime]
    class is the interface through which the shared helpers reach it,
    and [RuntimeLaws] are the lens laws the helpers' lemmas rely on. *)

From stdpp Require Import base list strings.
From Stdlib Require Import ZArith String.
From S2P Require Import Prelude PyValue.

Open Scope Z_scope.

Definition API_URL : string := "https://bsky.social/xrpc".

(** [requests.post(url, json=body)] and
    [requests.get(url, headers={"Authorization": f"Bearer {tok}"}, params=params)]. *)
Inductive request :=
| Post (url : string) (body : list (string * json))
| Get (url : string) (bearer : json) (params : list (string * json)).

(** A [requests.Response]: its [status_code] and its body, [None] when
    the body is not JSON ([response.json()] raises). *)
Record resp := Resp { status_code : Z; body : option json }.

Inductive reply :=
| Transport
| Reply (r : resp).

Inductive level := DEBUG | INFO | WARNING | ERROR.

Record log_entry := LogEntry { log_level : level; log_msg : string; log_args : list json }.

Record net := mkNet { net_trace : list request; net_log : list log_entry }.

Class Runtime (S : Type) := {
  rt_net : S -> net;
  rt_set_net : net -> S -> S
}.

Class RuntimeLaws (S : Type) `{Runtime S} := {
  rt_net_set n s : rt_net (rt_set_net n s) = n;
  rt_set_set n n' s : rt_set_net n (rt_set_net n' s) = rt_set_net n s
}.

Section Requests.
Context {S : Type} `{Runtime S} (srv : request -> reply).

Definition trace_of (s : S) : list request := net_trace (rt_net s).
Definition log_of (s : S) : list log_entry := net_log (rt_net s).

Definition record_request (rq : request) (s : S) : S :=
  rt_set_net (mkNet (trace_of s ++ [rq]) (log_of s)) s.

(** Send one request: it is recorded whatever the server answers. *)
Definition issue (rq : request) : M S resp :=
  fun s =>
    let s' := record_request rq s in
    match srv rq with
    | Transport => (Raise RequestException, s')
    | Reply r => (Ok r, s')
    end.

Definition requests_get (url : string) (bearer : json) (params : list (string * json)) : M S resp :=
  issue (Get url bearer params).

Definition requests_post (url : string) (body : list (string * json)) : M S resp :=
  issue (Post url body).

(** [response.json()] *)
Definition response_json (r : resp) : M S json :=
  lift (match body r with Some j => Ok j | None => Raise JSONDecodeError end).

(** [logging.<level>(msg)] *)
Definition log (lvl : level) (msg : string) (args : list json) : M S unit :=
  modify (fun s => rt_set_net (mkNet (trace_of s) (log_of s ++ [LogEntry lvl msg args])) s).
End Requests.

(** ** Lemmas on the runtime *)

Section RuntimeLemmas.
Context {S : Type} `{RuntimeLaws S} (srv : request -> reply).

Lemma trace_record rq (s : S) : trace_of (record_request rq s) = trace_of s ++ [rq].
Proof. unfold trace_of, record_request. by rewrite rt_net_set. Qed.

Lemma log_record rq (s : S) : log_of (record_request rq s) = log_of s.
Proof. unfold log_of, record_request. by rewrite rt_net_set. Qed.

Lemma run_issue_reply rq r (s : S) :
  srv rq = Reply r -> issue srv rq s = (Ok r, record_request rq s).
Proof. intros Hr. unfold issue. by rewrite Hr. Qed.

Lemma run_issue_transport rq (s : S) :
  srv rq = Transport -> issue srv rq s = (Raise RequestException, record_request rq s).
Proof. intros Hr. unfold issue. by rewrite Hr. Qed.

Lemma trace_log lvl msg args (s : S) :
  trace_of (snd (log lvl msg args s)) = trace_of s.
Proof. cbn. unfold trace_of at 1. by rewrite rt_net_set. Qed.

Lemma log_log lvl msg args (s : S) :
  log_of (snd (log lvl msg args s)) = log_of s ++ [LogEntry lvl msg args].
Proof. cbn. unfold log_of at 1. by rewrite rt_net_set. Qed.
End RuntimeLemmas.

#[export] Hint Rewrite @trace_record @log_record : pyrun.
