(* ===== verification/Session.v ===== *)
(** Session acquisition of the snoop scripts: [get_access_token]
    (src/mutualsnoop.py lines 16-34, repeated verbatim in
    src/dualmutualsnoop.py) and the module-global [access_token]
    (line 13) it assigns.  The script state [snoop] is that global
    together with the request trace and the log. *)

From stdpp Require Import base list strings.
From Stdlib Require Import ZArith String.
From S2P Require Import Prelude PyValue Http.

Open Scope Z_scope.

Record snoop := mkSnoop { access_token : json; snoop_net : net }.

#[export] Instance snoop_runtime : Runtime snoop :=
  {| rt_net := snoop_net; rt_set_net n s := mkSnoop (access_token s) n |}.

#[export] Instance snoop_runtime_laws : RuntimeLaws snoop.
Proof. split; by intros ? [] . Qed.

Module mutualsnoop.

Definition USERNAME : string := "your_bluesky_username".
Definition PASSWORD : string := "your_bluesky_app_password".

(** [access_token = None] at import time. *)
Definition initial_snoop : snoop := mkSnoop JNull (mkNet [] []).

Definition set_access_token (tok : json) (s : snoop) : snoop := mkSnoop tok (snoop_net s).

Definition login_request : request :=
  Post (API_URL +:+ "/com.atproto.server.createSession")
       [("identifier", JStr USERNAME); ("password", JStr PASSWORD)].

Section Session.
Context (srv : request -> reply).

Definition get_access_token : M snoop unit :=
  log INFO "Logging into Bluesky..." [] ;;
  try_except
    (response ← requests_post srv (API_URL +:+ "/com.atproto.server.createSession")
                  [("identifier", JStr USERNAME); ("password", JStr PASSWORD)] ;
     if status_code response =? 200 then
       data ← response_json response ;
       tok ← lift (py_get data "accessJwt") ;
       modify (set_access_token tok) ;;
       log INFO "Login successful." []
     else
       log ERROR "Failed to log in" [JInt (status_code response)] ;;
       py_exit 1)
    (fun e => log ERROR "Error during login" [] ;; py_exit 1).
End Session.

End mutualsnoop.
Export mutualsnoop.

(** What the login achieves, read off the server's answer: [Some tok]
    when the answer is a 200 whose body is a JSON object ([tok] is its
    [accessJwt] member, [None] when absent), [None] otherwise. *)
Definition login_token (r : reply) : option json :=
  match r with
  | Reply (Resp code (Some (JDict kvs))) =>
      if code =? 200 then Some (default JNull (dict_lookup kvs "accessJwt")) else None
  | _ => None
  end.

Lemma log_determined lvl msg args :
  determined_by access_token (log (S:=snoop) lvl msg args) (fun _ => Ok tt).
Proof. done. Qed.

#[export] Hint Resolve log_determined : determined.

(** ** Properties *)

Section SessionProps.
Context (srv : request -> reply).

(** The run of [get_access_token] against the login answer. *)
Lemma get_access_token_run (s : snoop) :
  let '(o, s') := get_access_token srv s in
  trace_of s' = trace_of s ++ [login_request] /\
  match login_token (srv login_request) with
  | Some tok => o = Ok tt /\ access_token s' = tok
  | None => o = Raise (SystemExit 1) /\ access_token s' = access_token s
  end.
Proof.
  unfold get_access_token, login_token, requests_post, issue.
  fold login_request.
  destruct (srv login_request) as [|[code [b|]]]; py_simp; try done;
    destruct (code =? 200); py_simp; try done;
    destruct b; py_simp; unfold log; py_simp; done.
Qed.

(** C5: [get_access_token] sends exactly the login request, and either
    stores the [accessJwt] of a 200 JSON-object answer in the global
    [access_token] and returns, or raises [SystemExit 1] (a transport
    error, a non-200 status, a body that is not a JSON object), leaving
    the token unchanged. *)
Theorem get_access_token_spec (s : snoop) :
  let '(o, s') := get_access_token srv s in
  trace_of s' = trace_of s ++ [login_request] /\
  match login_token (srv login_request) with
  | Some tok => o = Ok tt /\ access_token s' = tok
  | None => o = Raise (SystemExit 1) /\ access_token s' = access_token s
  end.
Proof. exact (get_access_token_run s). Qed.

(** C11: a 200 answer to the login without an [accessJwt] member is
    not fatal: the function returns normally and the global token is
    [None], so every later request is sent with [Bearer None].  The
    spec (section 7) calls a missing credential fatal. *)
Theorem get_access_token_missing_jwt (s : snoop) kvs :
  srv login_request = Reply (Resp 200 (Some (JDict kvs))) ->
  dict_lookup kvs "accessJwt" = None ->
  fst (get_access_token srv s) = Ok tt /\ access_token (snd (get_access_token srv s)) = JNull.
Proof.
  intros Hsrv Hjwt. pose proof (get_access_token_run s) as H.
  destruct (get_access_token srv s) as [o s']. rewrite Hsrv in H. cbn in H.
  rewrite Hjwt in H. cbn in H. tauto.
Qed.
End SessionProps.

(** A server whose login answers 200 with an empty object. *)
Definition no_jwt_server : request -> reply := fun _ => Reply (Resp 200 (Some (JDict []))).

Lemma get_access_token_missing_jwt_witness :
  no_jwt_server login_request = Reply (Resp 200 (Some (JDict []))) /\
  fst (get_access_token no_jwt_server initial_snoop) = Ok tt /\
  access_token (snd (get_access_token no_jwt_server initial_snoop)) = JNull.
Proof.
  split; [reflexivity|].
  exact (get_access_token_missing_jwt no_jwt_server initial_snoop [] eq_refl eq_refl).
Defined.

(** A server that refuses the login. *)
Definition refusing_server : request -> reply := fun _ => Reply (Resp 401 None).

Example login_refused :
  fst (get_access_token refusing_server initial_snoop) = Raise (SystemExit 1).
Proof. reflexivity. Qed.
