(* ===== verification/Fetcher.v ===== *)
(** RelationshipFetcher: [fetch_follows] and [fetch_followers]
    (src/mutualsnoop.py lines 37-62 and 65-90; the same text is lines
    37-90 of src/dualmutualsnoop.py).  The two functions differ only in
    the endpoint, the response field and the log text, so both are the
    one [fetch_relation] of a [direction].

    The loop [while True] is [fetch_loop], a [Fixpoint] on fuel whose
    pass [fetch_pass] is the loop body.  The abstract page producer of
    the spec is the relation [walk]: the pages a server serves from a
    cursor, ending either with a page without a truthy cursor (a
    complete walk) or with a failing request (a degraded walk). *)

From stdpp Require Import base list gmap strings.
From Stdlib Require Import ZArith String.
From S2P Require Import Prelude PyValue Http Session.

Open Scope Z_scope.

Inductive direction := Follows | Followers.

Definition endpoint_of (d : direction) : string :=
  match d with
  | Follows => "/app.bsky.graph.getFollows"
  | Followers => "/app.bsky.graph.getFollowers"
  end.

(** The response field that holds the page, also the word of the log lines. *)
Definition field_of (d : direction) : string :=
  match d with Follows => "follows" | Followers => "followers" end.

(** [params = {"actor": did}; if cursor: params["cursor"] = cursor] *)
Definition page_params (did cursor : json) : list (string * json) :=
  [("actor", did)] ++ (if truthy cursor then [("cursor", cursor)] else []).

(** How a pass of the loop ends: go on with the next cursor, or [break]. *)
Inductive loop_ctl :=
| Continue (acc : list json) (cursor : json)
| Break (acc : list json).

(** The identifiers of a page and its next cursor, from a decoded body:
    [[item["did"] for item in data.get(field, [])]] and
    [data.get("cursor")]. *)
Definition decode_page (dir : direction) (data : json) : outcome (list json * json) :=
  items ← py_get_default data (field_of dir) (JList []) ;
  its ← py_iter items ;
  page ← map_outcome (fun item => py_getitem item "did") its ;
  cursor ← py_get data "cursor" ;
  mret (page, cursor).

Module mutualsnoop.

Section Fetch.
Context (srv : request -> reply) (dir : direction) (did : json).

(** One pass of the body of [while True] (lines 45-58) under the
    [except Exception] of lines 59-60.  The [try] of the source
    encloses the whole loop; since nothing follows the loop but
    [return set(follows)], an exception in a pass ends the function
    with the [follows] accumulated before that pass, which is what
    catching around each pass and breaking does.  [tok] is the
    [headers] built once before the loop (line 40). *)
Definition fetch_pass (tok cursor : json) (acc : list json) : M snoop loop_ctl :=
  try_except
    (response ← requests_get srv (API_URL +:+ endpoint_of dir) tok (page_params did cursor) ;
     if status_code response =? 200 then
       data ← response_json response ;
       page ← lift (items ← py_get_default data (field_of dir) (JList []) ;
                    its ← py_iter items ;
                    map_outcome (fun item => py_getitem item "did") its) ;
       cursor' ← lift (py_get data "cursor") ;
       if truthy cursor' then mret (Continue (acc ++ page) cursor')
       else mret (Break (acc ++ page))
     else
       log ERROR ("Failed to fetch " +:+ field_of dir +:+ " for") [did; JInt (status_code response)] ;;
       mret (Break acc))
    (fun _ => log ERROR ("Error fetching " +:+ field_of dir +:+ " for") [did] ;;
              mret (Break acc)).

(** [while True:], with [fuel] passes at most. *)
Fixpoint fetch_loop (tok : json) (fuel : nat) (cursor : json) (acc : list json) : M snoop (list json) :=
  match fuel with
  | O => out_of_fuel
  | S fuel' =>
      ctl ← fetch_pass tok cursor acc ;
      match ctl with
      | Continue acc' cursor' => fetch_loop tok fuel' cursor' acc'
      | Break acc' => mret acc'
      end
  end.

(** The whole function: [headers] from the global token, [cursor =
    None], the loop, and [return set(follows)] outside the [try]. *)
Definition fetch_relation (fuel : nat) : M snoop (gset pykey) :=
  tok ← gets access_token ;
  follows ← fetch_loop tok fuel JNull [] ;
  lift (py_set follows).
End Fetch.

Definition fetch_follows (srv : request -> reply) (fuel : nat) (did : json) : M snoop (gset pykey) :=
  fetch_relation srv Follows did fuel.

Definition fetch_followers (srv : request -> reply) (fuel : nat) (did : json) : M snoop (gset pykey) :=
  fetch_relation srv Followers did fuel.

End mutualsnoop.
Export mutualsnoop.

(** ** The abstract page producer *)

Section Walk.
Context (srv : request -> reply) (dir : direction) (did : json).

(** The request a pass sends for a cursor. *)
Definition page_request (tok cursor : json) : request :=
  Get (API_URL +:+ endpoint_of dir) tok (page_params did cursor).

(** What one answer gives the loop: [Some (ids, next)] when it is a
    200 JSON page, [None] when the pass fails (transport error,
    non-200 status, a body that is not JSON or not a page). *)
Definition page_result (r : reply) : option (list json * json) :=
  match r with
  | Reply (Resp code (Some data)) =>
      if code =? 200 then
        match decode_page dir data with Ok p => Some p | _ => None end
      else None
  | _ => None
  end.

(** The pages served from [cursor] on, and whether the walk is complete
    (ends with a falsy cursor) or degraded (ends with a failing
    request). *)
Inductive walk (tok : json) : json -> list (list json) -> bool -> Prop :=
| walk_end cursor ids next :
    page_result (srv (page_request tok cursor)) = Some (ids, next) ->
    truthy next = false ->
    walk tok cursor [ids] true
| walk_more cursor ids next pages complete :
    page_result (srv (page_request tok cursor)) = Some (ids, next) ->
    truthy next = true ->
    walk tok next pages complete ->
    walk tok cursor (ids :: pages) complete
| walk_fail cursor :
    page_result (srv (page_request tok cursor)) = None ->
    walk tok cursor [] false.

(** The number of requests a walk issues. *)
Definition walk_requests (pages : list (list json)) (complete : bool) : nat :=
  (List.length pages + (if complete then 0 else 1))%nat.
End Walk.

(** ** One pass *)

Lemma decode_page_ok dir data : expr_ok (decode_page dir data).
Proof. unfold decode_page. eauto 10 with pyexpr. Qed.


Section PassLemmas.
Context (srv : request -> reply) (dir : direction) (did : json).

Lemma fetch_pass_served tok cursor acc ids next (s : snoop) :
  page_result dir (srv (page_request dir did tok cursor)) = Some (ids, next) ->
  fetch_pass srv dir did tok cursor acc s =
    (Ok (if truthy next then Continue (acc ++ ids) next else Break (acc ++ ids)),
     record_request (page_request dir did tok cursor) s).
Proof.
  unfold page_result, fetch_pass, requests_get, issue, decode_page.
  fold (page_request dir did tok cursor). intros Hp.
  destruct (srv (page_request dir did tok cursor)) as [|[code [data|]]]; try discriminate.
  py_simp. destruct (code =? 200); [|discriminate].
  repeat case_match; simplify_eq; congruence.
Qed.

Lemma fetch_pass_failed tok cursor acc (s : snoop) :
  page_result dir (srv (page_request dir did tok cursor)) = None ->
  exists msg args,
    fetch_pass srv dir did tok cursor acc s =
      (Ok (Break acc), snd (log ERROR msg args (record_request (page_request dir did tok cursor) s))).
Proof.
  unfold page_result, fetch_pass, requests_get, issue.
  fold (page_request dir did tok cursor). intros Hp.
  pose proof (fun data => decode_page_ok dir data) as Hok.
  destruct (srv (page_request dir did tok cursor)) as [|[code [data|]]]; py_simp;
    [eauto| |destruct (code =? 200); eauto].
  destruct (code =? 200); [|eauto].
  specialize (Hok data). unfold decode_page in Hok, Hp. py_simp.
  repeat case_match; simplify_eq; cbn in *; try congruence; try contradiction; eauto.
Qed.
End PassLemmas.

(** ** The loop *)

Section LoopLemmas.
Context (srv : request -> reply) (dir : direction) (did : json).

Lemma token_record rq (s : snoop) : access_token (record_request rq s) = access_token s.
Proof. reflexivity. Qed.

Lemma token_log lvl msg args (s : snoop) : access_token (snd (log lvl msg args s)) = access_token s.
Proof. reflexivity. Qed.

(** What a walk leaves in the state: the token is untouched, exactly
    [walk_requests] requests are appended to the trace, and the log
    gains one error line when the walk is degraded and none otherwise. *)
Definition walk_effect (pages : list (list json)) (complete : bool) (s s' : snoop) : Prop :=
  access_token s' = access_token s /\
  (exists rqs, trace_of s' = trace_of s ++ rqs /\ List.length rqs = walk_requests pages complete) /\
  (if complete then log_of s' = log_of s
   else exists e, log_of s' = log_of s ++ [e] /\ log_level e = ERROR).

Lemma fetch_loop_walk tok cursor pages complete fuel acc (s : snoop) :
  walk srv dir did tok cursor pages complete ->
  (walk_requests pages complete <= fuel)%nat ->
  exists s', fetch_loop srv dir did tok fuel cursor acc s = (Ok (acc ++ List.concat pages), s') /\
             walk_effect pages complete s s'.
Proof.
  intros Hw. revert fuel acc s.
  induction Hw as [c ids next Hp Ht|c ids next pages complete Hp Ht Hw IH|c Hp];
    intros [|fuel] acc s Hf; unfold walk_requests in *; cbn in Hf; try lia.
  - cbn [fetch_loop]. rewrite (run_bind_ok _ _ _ _ _ (fetch_pass_served _ _ _ _ _ acc _ _ s Hp)), Ht.
    eexists. split; [cbn; by rewrite ?app_nil_r|].
    split; [done|]. split; [|done]. by exists [page_request dir did tok c].
  - cbn [fetch_loop]. rewrite (run_bind_ok _ _ _ _ _ (fetch_pass_served _ _ _ _ _ acc _ _ s Hp)), Ht.
    destruct (IH fuel (acc ++ ids) (record_request (page_request dir did tok c) s))
      as (s' & Hrun & Htok & (rqs & Htr & Hlen) & Hlog); [unfold walk_requests; lia|].
    exists s'. split; [rewrite Hrun; cbn [List.concat]; by rewrite app_assoc|].
    split; [done|]. rewrite log_record in Hlog. split; [|done].
    exists (page_request dir did tok c :: rqs). rewrite Htr, trace_record, <- app_assoc.
    split; [done|]. cbn. unfold walk_requests in *. lia.
  - cbn [fetch_loop]. destruct (fetch_pass_failed srv dir did tok c acc s Hp) as (msg & args & Hpass).
    rewrite (run_bind_ok _ _ _ _ _ Hpass).
    eexists. split; [cbn; by rewrite ?app_nil_r|]. split; [done|]. split.
    + by exists [page_request dir did tok c].
    + by eexists.
Qed.

(** A pass always completes normally: every exception it meets is
    caught. *)
Lemma fetch_pass_total tok cursor acc (s : snoop) :
  exists ctl s', fetch_pass srv dir did tok cursor acc s = (Ok ctl, s').
Proof.
  destruct (page_result dir (srv (page_request dir did tok cursor))) as [[ids next]|] eqn:E.
  - rewrite (fetch_pass_served _ _ _ _ _ acc _ _ s E). eauto.
  - destruct (fetch_pass_failed _ _ _ _ _ acc s E) as (? & ? & ->). eauto.
Qed.

Lemma fetch_pass_frame tok cursor acc (s s0 : snoop) :
  fst (fetch_pass srv dir did tok cursor acc s) = fst (fetch_pass srv dir did tok cursor acc s0) /\
  access_token (snd (fetch_pass srv dir did tok cursor acc s)) = access_token s.
Proof.
  destruct (page_result dir (srv (page_request dir did tok cursor))) as [[ids next]|] eqn:E.
  - by rewrite !(fetch_pass_served _ _ _ _ _ acc _ _ _ E).
  - destruct (fetch_pass_failed _ _ _ _ _ acc s E) as (? & ? & ->).
    destruct (fetch_pass_failed _ _ _ _ _ acc s0 E) as (? & ? & ->). done.
Qed.

(** The loop reads nothing of the state: its outcome depends only on
    the server and its arguments, and it leaves the token alone. *)
Lemma fetch_loop_frame tok fuel cursor acc (s s0 : snoop) :
  fst (fetch_loop srv dir did tok fuel cursor acc s) = fst (fetch_loop srv dir did tok fuel cursor acc s0) /\
  access_token (snd (fetch_loop srv dir did tok fuel cursor acc s)) = access_token s.
Proof.
  revert cursor acc s s0. induction fuel as [|fuel IH]; intros cursor acc s s0; [done|].
  cbn [fetch_loop].
  destruct (fetch_pass_total tok cursor acc s) as (ctl & s1 & H1).
  destruct (fetch_pass_total tok cursor acc s0) as (ctl0 & s2 & H2).
  destruct (fetch_pass_frame tok cursor acc s s0) as [Hf Ht].
  rewrite H1, H2 in Hf. rewrite H1 in Ht. injection Hf as <-. cbn in Ht.
  rewrite (run_bind_ok _ _ _ _ _ H1), (run_bind_ok _ _ _ _ _ H2).
  destruct ctl as [acc' c'|acc']; [|done].
  destruct (IH c' acc' s1 s2) as [-> ->]. done.
Qed.

Lemma fetch_relation_frame fuel (s s0 : snoop) :
  access_token s0 = access_token s ->
  fst (fetch_relation srv dir did fuel s) = fst (fetch_relation srv dir did fuel s0) /\
  access_token (snd (fetch_relation srv dir did fuel s)) = access_token s.
Proof.
  intros Htok. unfold fetch_relation. rewrite !run_bind, !run_gets, Htok. cbn beta.
  rewrite !run_bind.
  destruct (fetch_loop_frame (access_token s) fuel JNull [] s s0) as [Hf Ht].
  destruct (fetch_loop srv dir did (access_token s) fuel JNull [] s) as [[r1| |] s1];
    destruct (fetch_loop srv dir did (access_token s) fuel JNull [] s0) as [[r2| |] s2];
    cbn in *; simplify_eq; done.
Qed.

(** The outcome of [fetch_relation] under token [tok]. *)
Definition fetch_value (fuel : nat) (tok : json) : outcome (gset pykey) :=
  fst (fetch_relation srv dir did fuel (mkSnoop tok (mkNet [] []))).

Lemma fetch_relation_determined fuel :
  determined_by access_token (fetch_relation srv dir did fuel) (fetch_value fuel).
Proof.
  intros s. destruct (fetch_relation_frame fuel s (mkSnoop (access_token s) (mkNet [] [])) eq_refl).
  done.
Qed.

Lemma fetch_loop_fuel_mono tok n m cursor acc (s : snoop) r s' :
  fetch_loop srv dir did tok n cursor acc s = (Ok r, s') -> (n <= m)%nat ->
  fetch_loop srv dir did tok m cursor acc s = (Ok r, s').
Proof.
  revert m cursor acc s. induction n as [|n IH]; intros [|m] cursor acc s Hrun Hle.
  1,2: done.
  1: lia.
  cbn [fetch_loop] in *. destruct (fetch_pass_total tok cursor acc s) as (ctl & s1 & Hp).
  rewrite (run_bind_ok _ _ _ _ _ Hp) in Hrun. rewrite (run_bind_ok _ _ _ _ _ Hp).
  destruct ctl; [apply IH; [done|lia]|done].
Qed.
End LoopLemmas.

(** ** Properties of the fetcher *)

Section FetchProps.
Context (srv : request -> reply) (dir : direction) (did : json).

(** C2: every run of the loop that returns follows a served walk: its
    result is what was accumulated plus the pages of the walk, and the
    walk issued no more requests than the fuel.  With [fetch_loop_walk]
    this makes [walk] an exact description of the loop. *)
Theorem fetch_loop_sound tok fuel cursor acc (s : snoop) r s' :
  fetch_loop srv dir did tok fuel cursor acc s = (Ok r, s') ->
  exists pages complete,
    walk srv dir did tok cursor pages complete /\
    r = acc ++ List.concat pages /\
    (walk_requests pages complete <= fuel)%nat.
Proof.
  revert cursor acc s. induction fuel as [|fuel IH]; intros cursor acc s Hrun; [done|].
  cbn [fetch_loop] in Hrun.
  destruct (page_result dir (srv (page_request dir did tok cursor))) as [[ids next]|] eqn:E.
  - rewrite (run_bind_ok _ _ _ _ _ (fetch_pass_served _ _ _ _ _ acc _ _ s E)) in Hrun.
    destruct (truthy next) eqn:Ht.
    + destruct (IH _ _ _ Hrun) as (pages & complete & Hw & -> & Hle).
      exists (ids :: pages), complete. split; [by eapply walk_more|].
      unfold walk_requests in *. cbn. rewrite app_assoc. split; [done|lia].
    + injection Hrun as <- _. exists [ids], true.
      split; [by eapply walk_end|]. cbn. rewrite app_nil_r. unfold walk_requests. cbn. split; [done|lia].
  - destruct (fetch_pass_failed _ _ _ _ _ acc s E) as (msg & args & Hp).
    rewrite (run_bind_ok _ _ _ _ _ Hp) in Hrun. injection Hrun as <- _.
    exists [], false. split; [by constructor|]. cbn. rewrite app_nil_r.
    unfold walk_requests. cbn. split; [done|lia].
Qed.

(** C4: no exception escapes the loop: a run either returns a list or
    runs out of fuel. *)
Theorem fetch_loop_no_exception tok fuel cursor acc (s : snoop) e :
  fst (fetch_loop srv dir did tok fuel cursor acc s) <> Raise e.
Proof.
  revert cursor acc s. induction fuel as [|fuel IH]; intros cursor acc s; [done|].
  cbn [fetch_loop]. destruct (fetch_pass_total srv dir did tok cursor acc s) as (ctl & s1 & Hp).
  rewrite (run_bind_ok _ _ _ _ _ Hp). destruct ctl; [apply IH|done].
Qed.

(** C3: the pagination loop does not terminate when the server keeps
    answering with truthy cursors: if every cursor of a set [X] is
    served with a truthy next cursor in [X], every fuel runs out from
    any cursor of [X].  The loop has no page bound and no cycle check,
    so a server that repeats a cursor makes the script hang. *)
Theorem fetch_loop_diverges tok (X : json -> Prop) :
  (forall c, X c -> exists ids next,
      page_result dir (srv (page_request dir did tok c)) = Some (ids, next) /\
      truthy next = true /\ X next) ->
  forall cursor fuel acc (s : snoop), X cursor ->
    fst (fetch_loop srv dir did tok fuel cursor acc s) = OutOfFuel.
Proof.
  intros Hclosed cursor fuel. revert cursor.
  induction fuel as [|fuel IH]; intros cursor acc s HX; [done|].
  destruct (Hclosed cursor HX) as (ids & next & Hp & Ht & HX').
  cbn [fetch_loop]. rewrite (run_bind_ok _ _ _ _ _ (fetch_pass_served _ _ _ _ _ acc _ _ s Hp)), Ht.
  by apply IH.
Qed.

(** The run of [fetch_relation] on a served walk. *)
Lemma fetch_relation_run fuel pages complete (s : snoop) :
  walk srv dir did (access_token s) JNull pages complete ->
  (walk_requests pages complete <= fuel)%nat ->
  Forall (fun j => is_Some (key_of j)) (List.concat pages) ->
  exists S s',
    fetch_relation srv dir did fuel s = (Ok S, s') /\
    (forall k, k ∈ S <-> exists j, j ∈ List.concat pages /\ key_of j = Some k) /\
    walk_effect pages complete s s'.
Proof.
  intros Hw Hf Hh.
  destruct (fetch_loop_walk srv dir did _ _ _ _ _ [] s Hw Hf) as (s' & Hrun & Heff).
  destruct (py_set_ok _ Hh) as [S HS].
  exists S, s'. unfold fetch_relation.
  rewrite run_bind, run_gets, (run_bind_ok _ _ _ _ _ Hrun), run_lift. cbn [app].
  rewrite HS. split; [done|]. split; [|done].
  intros k. by apply py_set_elem.
Qed.

(** C1: [fetch_relation] refines the page producer: when the server
    serves, from the first request (no cursor) on, a walk whose
    identifiers are hashable, and the fuel covers its requests, the
    function returns the set of the identifiers of all served pages,
    with exactly one request per page (plus the failing one of a
    degraded walk), one error line in the log for a degraded walk and
    none for a complete one, and the token untouched. *)
Theorem fetch_relation_walk fuel pages complete (s : snoop) :
  walk srv dir did (access_token s) JNull pages complete ->
  (walk_requests pages complete <= fuel)%nat ->
  Forall (fun j => is_Some (key_of j)) (List.concat pages) ->
  exists S s',
    fetch_relation srv dir did fuel s = (Ok S, s') /\
    (forall k, k ∈ S <-> exists j, j ∈ List.concat pages /\ key_of j = Some k) /\
    walk_effect pages complete s s'.
Proof. intros Hw Hf Hh. exact (fetch_relation_run fuel pages complete s Hw Hf Hh). Qed.

(** C10: an identifier that is not hashable (a JSON list or object in
    the [did] field) makes [set(follows)], which sits outside the
    [try], raise [TypeError]: the exception escapes [fetch_relation]
    and, with no handler in the callers, aborts the run. *)
Theorem fetch_relation_unhashable fuel pages complete (s : snoop) j :
  walk srv dir did (access_token s) JNull pages complete ->
  (walk_requests pages complete <= fuel)%nat ->
  j ∈ List.concat pages -> key_of j = None ->
  fst (fetch_relation srv dir did fuel s) = Raise TypeError.
Proof.
  intros Hw Hf Hj Hk.
  destruct (fetch_loop_walk srv dir did _ _ _ _ _ [] s Hw Hf) as (s' & Hrun & _).
  unfold fetch_relation. rewrite run_bind, run_gets, (run_bind_ok _ _ _ _ _ Hrun), run_lift.
  cbn. by rewrite (py_set_unhashable _ j).
Qed.

(** Each pass sends exactly one request: the page request for its cursor. *)
Lemma fetch_pass_trace tok cursor acc (s : snoop) :
  trace_of (snd (fetch_pass srv dir did tok cursor acc s)) = trace_of s ++ [page_request dir did tok cursor].
Proof.
  destruct (page_result dir (srv (page_request dir did tok cursor))) as [[ids next]|] eqn:E.
  - rewrite (fetch_pass_served _ _ _ _ _ acc _ _ s E). apply trace_record.
  - destruct (fetch_pass_failed _ _ _ _ _ acc s E) as (? & ? & ->). cbn [snd]. by rewrite trace_log, trace_record.
Qed.

Lemma fetch_loop_trace tok fuel cursor acc (s : snoop) :
  exists new, trace_of (snd (fetch_loop srv dir did tok fuel cursor acc s)) = trace_of s ++ new /\
    (List.length new <= fuel)%nat /\ Forall (fun rq => exists c, rq = page_request dir did tok c) new.
Proof.
  revert cursor acc s. induction fuel as [|fuel IH]; intros cursor acc s.
  { exists []. rewrite app_nil_r. split_and!; [done|cbn; lia|constructor]. }
  cbn [fetch_loop]. destruct (fetch_pass_total srv dir did tok cursor acc s) as (ctl & s1 & H1).
  pose proof (fetch_pass_trace tok cursor acc s) as Ht1. rewrite H1 in Ht1. cbn in Ht1.
  rewrite (run_bind_ok _ _ _ _ _ H1).
  destruct ctl as [acc' cursor'|acc'].
  - destruct (IH cursor' acc' s1) as (new & Hn & Hl & Hf). exists (page_request dir did tok cursor :: new).
    rewrite Hn, Ht1, <- app_assoc. split_and!; [done|cbn; lia|]. constructor; [by exists cursor|done].
  - exists [page_request dir did tok cursor]. split_and!; [done|cbn; lia|]. constructor; [by exists cursor|done].
Qed.

(** C38: whatever the server answers, [fetch_follows] / [fetch_followers]
    send at most [fuel] requests, one per pass of the loop, each the
    page request of the account with the stored token; nothing is
    retried and nothing else is sent. *)
Theorem fetch_relation_requests_bound fuel (s : snoop) :
  exists new, trace_of (snd (fetch_relation srv dir did fuel s)) = trace_of s ++ new /\
    (List.length new <= fuel)%nat /\
    Forall (fun rq => exists c, rq = page_request dir did (access_token s) c) new.
Proof.
  unfold fetch_relation. rewrite run_bind, run_gets. cbn beta. rewrite run_bind.
  destruct (fetch_loop_trace (access_token s) fuel JNull [] s) as (new & Hn & Hl & Hf).
  exists new. destruct (fetch_loop _ _ _ _ _ _ _ s) as [[r| |] s1]; cbn in Hn |- *; by rewrite Hn.
Qed.
End FetchProps.

(** ** Scenarios of the spec (section 8) *)

(** A server for one endpoint that serves [pages] of string identifiers,
    the page after page [i] being named by the cursor [i + 1]; the page
    [fail_at] answers 500. *)
Definition paged_server (dir : direction) (pages : list (list string)) (fail_at : option nat)
    : request -> reply :=
  fun rq =>
    match rq with
    | Get url _ params =>
        if String.eqb url (API_URL +:+ endpoint_of dir) then
          let i := match dict_lookup params "cursor" with Some (JInt z) => Z.to_nat z | _ => 0%nat end in
          if bool_decide (fail_at = Some i) then Reply (Resp 500 None)
          else
            match nth_error pages i with
            | Some ids =>
                Reply (Resp 200 (Some (JDict
                  [(field_of dir, JList (map (fun d => JDict [("did", JStr d)]) ids));
                   ("cursor", if (S i <? List.length pages)%nat then JInt (Z.of_nat (S i)) else JNull)])))
            | None => Reply (Resp 404 None)
            end
        else Reply (Resp 404 None)
    | Post _ _ => Reply (Resp 404 None)
    end.

Definition scenario_pages : list (list string) := [["a"; "b"]; ["c"; "d"]; ["e"; "f"]].

Definition alice : json := JStr "did:plc:alice".

(** Scenario C: three pages of two identifiers, the third without a
    cursor: six identifiers, three requests, nothing logged. *)
Example scenario_C :
  let '(o, s') := fetch_follows (paged_server Follows scenario_pages None) 10 alice initial_snoop in
  o = Ok (list_to_set (map PStr ["a"; "b"; "c"; "d"; "e"; "f"])) /\
  List.length (trace_of s') = 3%nat /\ log_of s' = [].
Proof. vm_compute. auto. Qed.

(** Scenario D: page 2 of 3 fails: page 1 only, two requests, one
    error line, no exception. *)
Example scenario_D :
  let '(o, s') := fetch_follows (paged_server Follows scenario_pages (Some 1%nat)) 10 alice initial_snoop in
  o = Ok (list_to_set (map PStr ["a"; "b"])) /\
  List.length (trace_of s') = 2%nat /\ map log_level (log_of s') = [ERROR].
Proof. vm_compute. auto. Qed.

(** The server that always answers with the same truthy cursor. *)
Definition cycle_server (dir : direction) : request -> reply :=
  fun _ => Reply (Resp 200 (Some (JDict [(field_of dir, JList []); ("cursor", JStr "again")]))).

(** A page whose second item has an object as its [did]. *)
Definition bad_did_server : request -> reply :=
  fun _ => Reply (Resp 200 (Some (JDict
    [("follows", JList [JDict [("did", JStr "a")]; JDict [("did", JDict [("x", JInt 1)])]])]))).

Lemma fetch_relation_unhashable_witness :
  fst (fetch_relation bad_did_server Follows alice 1 initial_snoop) = Raise TypeError.
Proof.
  apply (fetch_relation_unhashable _ _ _ _ [[JStr "a"; JDict [("x", JInt 1)]]] true _ (JDict [("x", JInt 1)])).
  - eapply walk_end; reflexivity.
  - vm_compute. lia.
  - cbn. set_solver.
  - reflexivity.
Defined.

Lemma fetch_relation_walk_witness :
  exists S s',
    fetch_relation (paged_server Follows scenario_pages None) Follows alice 3 initial_snoop = (Ok S, s') /\
    (forall k, k ∈ S <-> exists j, j ∈ List.concat (map (map JStr) scenario_pages) /\ key_of j = Some k) /\
    walk_effect (map (map JStr) scenario_pages) true initial_snoop s'.
Proof.
  apply fetch_relation_walk.
  - eapply walk_more; [reflexivity|reflexivity|].
    eapply walk_more; [reflexivity|reflexivity|].
    eapply walk_end; reflexivity.
  - vm_compute. lia.
  - repeat constructor; eexists; reflexivity.
Defined.

Lemma fetch_loop_sound_witness :
  let srv := paged_server Follows scenario_pages (Some 2%nat) in
  let run := fetch_loop srv Follows alice JNull 5 JNull [] initial_snoop in
  run = (Ok (map JStr ["a"; "b"; "c"; "d"]), snd run) /\
  exists pages complete,
    walk srv Follows alice JNull JNull pages complete /\
    map JStr ["a"; "b"; "c"; "d"] = [] ++ List.concat pages /\ (walk_requests pages complete <= 5)%nat.
Proof.
  intros srv run.
  assert (H : run = (Ok (map JStr ["a"; "b"; "c"; "d"]), snd run)) by (vm_compute; reflexivity).
  split; [exact H|]. exact (fetch_loop_sound srv Follows alice JNull 5 JNull [] initial_snoop _ _ H).
Defined.

Lemma fetch_loop_diverges_witness :
  (forall c : json, True -> exists ids next,
      page_result Follows (cycle_server Follows (page_request Follows alice JNull c)) = Some (ids, next) /\
      truthy next = true /\ True) /\
  fst (fetch_loop (cycle_server Follows) Follows alice JNull 1000 JNull [] initial_snoop) = OutOfFuel.
Proof.
  assert (H : forall c : json, True -> exists ids next,
      page_result Follows (cycle_server Follows (page_request Follows alice JNull c)) = Some (ids, next) /\
      truthy next = true /\ True) by (intros; do 2 eexists; split; [reflexivity|split; [reflexivity|exact I]]).
  split; [exact H|].
  exact (fetch_loop_diverges (cycle_server Follows) Follows alice JNull (fun _ => True) H JNull 1000 [] initial_snoop I).
Defined.
