(* ===== verification/Enricher.v ===== *)
(** ProfileEnricher: [fetch_account_details] (src/mutualsnoop.py lines
    93-112, the same text in src/dualmutualsnoop.py).  One [getProfile]
    request; a 200 JSON object gives the four [data.get] fields, any
    other answer gives [None] and one error line. *)

From stdpp Require Import base list gmap strings.
From Stdlib Require Import ZArith String.
From S2P Require Import Prelude PyValue Http Session.

Open Scope Z_scope.

(** The dict [{"handle": ..., "followersCount": ..., "followsCount": ...,
    "createdAt": ...}] of lines 101-106: each field is [data.get(k)],
    [None] when absent. *)
Record profile := Profile {
  handle : json;
  followersCount : json;
  followsCount : json;
  createdAt : json
}.

Definition profile_request (tok did : json) : request :=
  Get (API_URL +:+ "/app.bsky.actor.getProfile") tok [("actor", did)].

(** The record appended to [detailed_results] (lines 128-136). *)
Record mutual_result := MutualResult {
  mr_did : pykey;
  mr_handle : json;
  mr_followersCount : json;
  mr_followsCount : json;
  mr_createdAt : json
}.

Definition result_of (account : pykey) (details : profile) : mutual_result :=
  MutualResult account (handle details) (followersCount details)
               (followsCount details) (createdAt details).

Module mutualsnoop.

Definition fetch_account_details (srv : request -> reply) (did : json) : M snoop (option profile) :=
  tok ← gets access_token ;
  try_except
    (response ← requests_get srv (API_URL +:+ "/app.bsky.actor.getProfile") tok [("actor", did)] ;
     if status_code response =? 200 then
       data ← response_json response ;
       p ← lift (h ← py_get data "handle" ;
                 fc ← py_get data "followersCount" ;
                 fo ← py_get data "followsCount" ;
                 ca ← py_get data "createdAt" ;
                 mret (Profile h fc fo ca)) ;
       mret (Some p)
     else
       log ERROR "Failed to fetch account details for" [did; JInt (status_code response)] ;;
       mret None)
    (fun _ => log ERROR "Error fetching account details for" [did] ;; mret None).

(** [for account in mutual_connections: details = fetch_account_details(account);
    if details: detailed_results.append(...)] (lines 124-138).  A set is
    iterated in stdpp's [elements] order; Python's order is that of its
    hash table, and no property below depends on it.  [if details:] is
    [Some]: a returned dict has four keys and is always truthy. *)
Definition enrich_accounts (srv : request -> reply) (accounts : gset pykey) : M snoop (list mutual_result) :=
  py_for (elements accounts) [] (fun detailed_results account =>
    details ← fetch_account_details srv (json_of_key account) ;
    match details with
    | Some d => mret (detailed_results ++ [result_of account d])
    | None => mret detailed_results
    end).

End mutualsnoop.
Export mutualsnoop.

(** The profile an answer carries: [Some] exactly for a 200 answer whose
    body is a JSON object. *)
Definition profile_of_reply (r : reply) : option profile :=
  match r with
  | Reply (Resp code (Some (JDict kvs))) =>
      if code =? 200 then
        let get k := default JNull (dict_lookup kvs k) in
        Some (Profile (get "handle") (get "followersCount") (get "followsCount") (get "createdAt"))
      else None
  | _ => None
  end.

(** The effect of one enrichment on the state: the request is appended
    to the trace, one error line is logged when no profile comes back,
    the token is untouched. *)
Definition enrich_effect (rq : request) (found : bool) (s s' : snoop) : Prop :=
  access_token s' = access_token s /\
  trace_of s' = trace_of s ++ [rq] /\
  (if found then log_of s' = log_of s
   else exists e, log_of s' = log_of s ++ [e] /\ log_level e = ERROR).

(** The run of [fetch_account_details] against the profile answer. *)
Lemma fetch_account_details_effect srv did (s : snoop) :
  exists s',
    fetch_account_details srv did s =
      (Ok (profile_of_reply (srv (profile_request (access_token s) did))), s') /\
    enrich_effect (profile_request (access_token s) did)
      (bool_decide (is_Some (profile_of_reply (srv (profile_request (access_token s) did))))) s s'.
Proof.
  unfold fetch_account_details, requests_get, issue, profile_of_reply, enrich_effect.
  rewrite run_bind, run_gets. fold (profile_request (access_token s) did).
  destruct (srv (profile_request (access_token s) did)) as [|[code [data|]]]; py_simp;
    [| destruct (code =? 200); destruct data | destruct (code =? 200)]; py_simp;
    (eexists; split; [reflexivity|]; cbn; repeat split; eauto).
Qed.

(** C6: [fetch_account_details] sends one [getProfile] request with the
    current token and returns the profile of a 200 JSON-object answer,
    and [None], with one error line, for any other answer (transport
    error, other status, a body that is not JSON or not an object); it
    never raises. *)
Theorem fetch_account_details_spec srv did (s : snoop) :
  exists s',
    fetch_account_details srv did s =
      (Ok (profile_of_reply (srv (profile_request (access_token s) did))), s') /\
    enrich_effect (profile_request (access_token s) did)
      (bool_decide (is_Some (profile_of_reply (srv (profile_request (access_token s) did))))) s s'.
Proof. exact (fetch_account_details_effect srv did s). Qed.

(** ** The enrichment fan-out *)


(** The records the fan-out produces under token [tok], in order. *)
Definition enriched (srv : request -> reply) (tok : json) (l : list pykey) : list mutual_result :=
  omap (fun k => result_of k <$> profile_of_reply (srv (profile_request tok (json_of_key k)))) l.

Section EnrichLemmas.
Context (srv : request -> reply).

Lemma fetch_account_details_run did (s : snoop) :
  fetch_account_details srv did s =
    (Ok (profile_of_reply (srv (profile_request (access_token s) did))),
     snd (fetch_account_details srv did s)) /\
  access_token (snd (fetch_account_details srv did s)) = access_token s.
Proof. by destruct (fetch_account_details_effect srv did s) as (s' & -> & ? & _). Qed.

Lemma foldl_enrich tok (l : list pykey) acc :
  foldl (fun acc k => acc ++ option_list (result_of k <$> profile_of_reply
                            (srv (profile_request tok (json_of_key k))))) acc l =
  acc ++ enriched srv tok l.
Proof.
  revert acc. induction l as [|k l IH]; intros acc; cbn; [by rewrite app_nil_r|].
  rewrite IH, <- app_assoc. by destruct (profile_of_reply _).
Qed.

(** The fan-out returns the [enriched] records and keeps the token. *)
Lemma enrich_accounts_run (accounts : gset pykey) (s : snoop) :
  fst (enrich_accounts srv accounts s) = Ok (enriched srv (access_token s) (elements accounts)) /\
  access_token (snd (enrich_accounts srv accounts s)) = access_token s.
Proof.
  unfold enrich_accounts.
  set (tok := access_token s).
  set (eff := fun k s0 => snd (fetch_account_details srv (json_of_key k) s0)).
  assert (Heff : forall k s0, access_token s0 = tok -> access_token (eff k s0) = tok).
  { intros k s0 H. unfold eff. by rewrite (proj2 (fetch_account_details_run _ s0)). }
  rewrite (py_for_total (fun s0 => access_token s0 = tok) _ _ _
    (fun acc k => acc ++ option_list (result_of k <$> profile_of_reply
                    (srv (profile_request tok (json_of_key k))))) eff).
  - cbn [fst snd]. rewrite foldl_enrich. split; [done|].
    assert (Hgen : forall l s0, access_token s0 = tok ->
              access_token (foldl (fun s1 x => eff x s1) s0 l) = tok)
      by (induction l; cbn; auto).
    by apply Hgen.
  - intros b k s0 Hs0. rewrite run_bind, (proj1 (fetch_account_details_run _ s0)), Hs0.
    destruct (profile_of_reply (srv (profile_request tok (json_of_key k)))); cbn; by rewrite ?app_nil_r.
  - exact Heff.
  - done.
Qed.

Lemma enrich_accounts_determined (accounts : gset pykey) :
  determined_by access_token (enrich_accounts srv accounts)
    (fun tok => Ok (enriched srv tok (elements accounts))).
Proof. intros s. apply enrich_accounts_run. Qed.

Lemma elem_of_enriched tok (l : list pykey) r :
  r ∈ enriched srv tok l <->
  exists k p, k ∈ l /\ profile_of_reply (srv (profile_request tok (json_of_key k))) = Some p /\
              r = result_of k p.
Proof.
  unfold enriched. rewrite list_elem_of_omap. split.
  - intros (k & Hk & Hr). destruct (profile_of_reply _) as [p|] eqn:E; [|done].
    injection Hr as <-. eauto.
  - intros (k & p & Hk & Hp & ->). exists k. by rewrite Hp.
Qed.

(** The identifiers of the records are those of the list whose profile
    came back, in order. *)
Lemma enriched_dids tok (l : list pykey) :
  map mr_did (enriched srv tok l) =
  filter (fun k => is_Some (profile_of_reply (srv (profile_request tok (json_of_key k))))) l.
Proof.
  unfold enriched. induction l as [|k l IH]; [done|]. rewrite filter_cons. cbn.
  destruct (profile_of_reply (srv (profile_request tok (json_of_key k)))) as [p|]; cbn;
    case_decide as H; rewrite ?IH; try done; by destruct H.
Qed.
End EnrichLemmas.

(** ** Properties of the fan-out *)

(** Dropping one failing identifier from the records of a list. *)
Lemma enriched_drop_list (srv srv' : request -> reply) tok (l : list pykey) x :
  (forall k, k <> x ->
     srv' (profile_request tok (json_of_key k)) = srv (profile_request tok (json_of_key k))) ->
  profile_of_reply (srv' (profile_request tok (json_of_key x))) = None ->
  enriched srv' tok l = filter (fun r => mr_did r <> x) (enriched srv tok l).
Proof.
  intros Hagree Hx. unfold enriched. induction l as [|k l IH]; [done|]. cbn.
  destruct (decide (k = x)) as [->|Hne].
  - rewrite Hx. cbn. rewrite IH.
    destruct (profile_of_reply (srv (profile_request tok (json_of_key x)))); cbn; [|done].
    case_decide as H; [by destruct H|done].
  - rewrite (Hagree k Hne), IH.
    destruct (profile_of_reply (srv (profile_request tok (json_of_key k)))); cbn; [|done].
    case_decide as H; [done|by destruct H].
Qed.

(** C9: the enrichment loop drops a failing identifier and nothing
    else: run on the same set from the same state, if the profile
    request of [x] fails where another server answered and the two
    servers agree on every other identifier, [enrich_accounts] returns
    the records of the other server with [x]'s record removed (and no
    placeholder for it). *)
Theorem enrich_accounts_drop (srv srv' : request -> reply) (accounts : gset pykey) x (s : snoop) :
  (forall k, k <> x ->
     srv' (profile_request (access_token s) (json_of_key k)) =
     srv (profile_request (access_token s) (json_of_key k))) ->
  profile_of_reply (srv' (profile_request (access_token s) (json_of_key x))) = None ->
  exists r, fst (enrich_accounts srv accounts s) = Ok r /\
    fst (enrich_accounts srv' accounts s) = Ok (filter (fun rec => mr_did rec <> x) r).
Proof.
  intros Hagree Hx. exists (enriched srv (access_token s) (elements accounts)).
  rewrite (proj1 (enrich_accounts_run srv accounts s)), (proj1 (enrich_accounts_run srv' accounts s)).
  split; [done|]. by rewrite (enriched_drop_list srv srv' _ _ x Hagree Hx).
Qed.

(** A profile server: every actor has a profile, except [missing],
    whose request answers 500. *)
Definition profile_server (missing : list string) : request -> reply :=
  fun rq =>
    match rq with
    | Get _ _ [("actor", JStr a)] =>
        if existsb (String.eqb a) missing then Reply (Resp 500 None)
        else Reply (Resp 200 (Some (JDict [("handle", JStr (a +:+ ".bsky.social"));
                                           ("followersCount", JInt 1); ("followsCount", JInt 1);
                                           ("createdAt", JStr "2024-01-01T00:00:00Z")])))
    | _ => Transport
    end.

(** Scenario E: the intersection is [{X, Y}] and the profile of [Y]
    fails: only [X]'s record comes out. *)
Lemma enrich_accounts_drop_witness :
  (forall k, k <> PStr "Y" ->
     profile_server ["Y"] (profile_request (access_token initial_snoop) (json_of_key k)) =
     profile_server [] (profile_request (access_token initial_snoop) (json_of_key k))) /\
  profile_of_reply (profile_server ["Y"] (profile_request (access_token initial_snoop) (json_of_key (PStr "Y")))) = None /\
  exists r, fst (enrich_accounts (profile_server []) {[PStr "X"; PStr "Y"]} initial_snoop) = Ok r /\
    fst (enrich_accounts (profile_server ["Y"]) {[PStr "X"; PStr "Y"]} initial_snoop) =
      Ok (filter (fun rec => mr_did rec <> PStr "Y") r).
Proof.
  assert (H1 : forall k, k <> PStr "Y" ->
     profile_server ["Y"] (profile_request (access_token initial_snoop) (json_of_key k)) =
     profile_server [] (profile_request (access_token initial_snoop) (json_of_key k))).
  { intros [|z|a] Hne; try reflexivity. cbn.
    destruct (String.eqb a "Y") eqn:E; [|reflexivity].
    apply String.eqb_eq in E. subst. by destruct Hne. }
  assert (H2 : profile_of_reply (profile_server ["Y"] (profile_request (access_token initial_snoop)
                 (json_of_key (PStr "Y")))) = None) by reflexivity.
  split; [exact H1|]. split; [exact H2|].
  exact (enrich_accounts_drop (profile_server []) (profile_server ["Y"]) {[PStr "X"; PStr "Y"]} (PStr "Y")
           initial_snoop H1 H2).
Defined.

(** The records of scenario E: only [X]. *)
Example enrich_accounts_scenario_E :
  option_map (map mr_did) (match fst (enrich_accounts (profile_server ["Y"]) {[PStr "X"; PStr "Y"]} initial_snoop) with
                           | Ok r => Some r | _ => None end) = Some [PStr "X"].
Proof. vm_compute. reflexivity. Qed.
