(* ===== verification/MutualSnoop.v ===== *)
(** Orchestrator of src/mutualsnoop.py: [find_mutual_connections]
    (lines 115-138) and [main] (lines 141-157).  The SetIntersector of
    the single-target mode is [mutual_set], the [&] of line 121. *)

From stdpp Require Import base list gmap strings.
From Stdlib Require Import ZArith String.
From S2P Require Import Prelude PyValue Http Session Fetcher Enricher.

Open Scope Z_scope.

(** [follows & followers] *)
Definition mutual_set (follows followers : gset pykey) : gset pykey := follows ∩ followers.

Module mutualsnoop.

Section Orchestrator.
Context (srv : request -> reply) (fuel : nat).

Definition find_mutual_connections (did : json) : M snoop (list mutual_result) :=
  log INFO "Fetching data for DID:" [did] ;;
  follows ← fetch_follows srv fuel did ;
  followers ← fetch_followers srv fuel did ;
  let mutual_connections := mutual_set follows followers in
  log INFO "Found mutual connections." [JInt (Z.of_nat (size mutual_connections))] ;;
  enrich_accounts srv mutual_connections.

(** [DID = "did:plc:example"] *)
Definition DID : json := JStr "did:plc:example".

(** One log line per record (lines 153-157). *)
Definition log_connection (c : mutual_result) : M snoop unit :=
  log INFO "DID: Handle: Followers: Following: Registered:"
    [json_of_key (mr_did c); mr_handle c; mr_followersCount c; mr_followsCount c; mr_createdAt c].

Definition main : M snoop unit :=
  get_access_token srv ;;
  mutual_connections ← find_mutual_connections DID ;
  log INFO "Mutual connections:" [] ;;
  py_for mutual_connections tt (fun _ connection => log_connection connection).
End Orchestrator.

End mutualsnoop.
Export mutualsnoop.

(** ** Properties *)

Section MutualProps.
Context (srv : request -> reply) (fuel : nat).

(** The identifiers a list of served pages holds. *)
Definition served_keys (pages : list (list json)) (k : pykey) : Prop :=
  exists j, j ∈ List.concat pages /\ key_of j = Some k.

(** C7: single-target mode.  When the follows and the followers of
    [did] are served as walks (complete or degraded) of hashable
    identifiers within the fuel, [find_mutual_connections] returns
    exactly one record per identifier that appears in both walks and
    whose profile request answers a profile, built from that profile,
    and no identifier twice. *)
Theorem find_mutual_connections_spec did pf cf pr cr (s : snoop) :
  walk srv Follows did (access_token s) JNull pf cf ->
  walk srv Followers did (access_token s) JNull pr cr ->
  (walk_requests pf cf <= fuel)%nat -> (walk_requests pr cr <= fuel)%nat ->
  Forall (fun j => is_Some (key_of j)) (List.concat pf) ->
  Forall (fun j => is_Some (key_of j)) (List.concat pr) ->
  exists res s',
    find_mutual_connections srv fuel did s = (Ok res, s') /\
    (forall r, r ∈ res <->
       exists k p, served_keys pf k /\ served_keys pr k /\
         profile_of_reply (srv (profile_request (access_token s) (json_of_key k))) = Some p /\
         r = result_of k p) /\
    NoDup (map mr_did res).
Proof.
  intros Hwf Hwr Hff Hfr Hhf Hhr.
  unfold find_mutual_connections, fetch_follows, fetch_followers.
  rewrite run_bind. cbn [log modify snd fst].
  match goal with |- context [(fetch_relation srv Follows did fuel ≫= _) ?s1] =>
    destruct (fetch_relation_run srv Follows did fuel pf cf s1 Hwf Hff Hhf)
      as (F & s2 & HF & HFm & Htok2 & _) end.
  rewrite (run_bind_ok _ _ _ _ _ HF).
  destruct (fetch_relation_run srv Followers did fuel pr cr s2 ltac:(by rewrite Htok2) Hfr Hhr)
    as (G & s3 & HG & HGm & Htok3 & _).
  rewrite (run_bind_ok _ _ _ _ _ HG), run_bind. cbn [log modify].
  match goal with |- context [enrich_accounts srv ?A ?s4] =>
    destruct (enrich_accounts_run srv A s4) as [He _];
    destruct (enrich_accounts srv A s4) as [o s5]; cbn in He; subst o end.
  eexists _, _. split; [reflexivity|]. cbn in Htok2, Htok3. rewrite Htok3, Htok2. split.
  - intros r. rewrite elem_of_enriched. unfold mutual_set, served_keys.
    set_unfold. setoid_rewrite HFm. setoid_rewrite HGm.
    split; intros (k & p & Hk); exists k, p; tauto.
  - rewrite enriched_dids. apply NoDup_filter, NoDup_elements.
Qed.

(** C13: an authentication failure is fatal: when the login answer is
    not a 200 JSON object, [main] raises [SystemExit 1] after the login
    request and sends nothing else. *)
Theorem main_login_fatal (s : snoop) :
  login_token (srv login_request) = None ->
  fst (main srv fuel s) = Raise (SystemExit 1) /\
  trace_of (snd (main srv fuel s)) = trace_of s ++ [login_request].
Proof.
  intros Hnone. pose proof (get_access_token_run srv s) as Hspec.
  unfold main. rewrite run_bind.
  destruct (get_access_token srv s) as [o s']. rewrite Hnone in Hspec.
  destruct Hspec as (Htr & -> & _). done.
Qed.
End MutualProps.

(** ** Scenarios *)

(** A server for the whole run: login, two paginated lists and the
    profiles ([missing] actors answer 500). *)
Definition graph_server (follows followers : list (list string)) (missing : list string)
    : request -> reply :=
  fun rq =>
    match rq with
    | Get url _ _ =>
        if String.eqb url (API_URL +:+ endpoint_of Follows) then paged_server Follows follows None rq
        else if String.eqb url (API_URL +:+ endpoint_of Followers) then paged_server Followers followers None rq
        else profile_server missing rq
    | Post _ _ => Reply (Resp 200 (Some (JDict [("accessJwt", JStr "jwt")])))
    end.

Definition scenario_A_server : request -> reply :=
  graph_server [["X"; "Y"; "Z"]] [["X"; "W"]] [].

(** Scenario A: A follows {X, Y, Z} and is followed by {X, W}: the
    mutual set is {X}. *)
Example scenario_A :
  option_map (map mr_did) (match fst (find_mutual_connections scenario_A_server 10 alice initial_snoop) with
                           | Ok r => Some r | _ => None end) = Some [PStr "X"].
Proof. vm_compute. reflexivity. Qed.

(** The whole script: login, then one log line per record. *)
Example main_run :
  let '(o, s') := main scenario_A_server 10 initial_snoop in
  o = Ok tt /\ access_token s' = JStr "jwt" /\
  List.hd_error (List.rev (map log_args (log_of s'))) =
    Some [JStr "X"; JStr "X.bsky.social"; JInt 1; JInt 1; JStr "2024-01-01T00:00:00Z"].
Proof. vm_compute. auto. Qed.

Lemma main_login_fatal_witness :
  login_token (refusing_server login_request) = None /\
  fst (main refusing_server 10 initial_snoop) = Raise (SystemExit 1) /\
  trace_of (snd (main refusing_server 10 initial_snoop)) = trace_of initial_snoop ++ [login_request].
Proof.
  split; [reflexivity|]. exact (main_login_fatal refusing_server 10 initial_snoop eq_refl).
Defined.

Lemma find_mutual_connections_spec_witness :
  exists res s',
    find_mutual_connections scenario_A_server 10 alice initial_snoop = (Ok res, s') /\
    (forall r, r ∈ res <->
       exists k p, served_keys [map JStr ["X"; "Y"; "Z"]] k /\ served_keys [map JStr ["X"; "W"]] k /\
         profile_of_reply (scenario_A_server (profile_request (access_token initial_snoop) (json_of_key k)))
           = Some p /\
         r = result_of k p) /\
    NoDup (map mr_did res).
Proof.
  apply (find_mutual_connections_spec _ _ _ _ true _ true).
  - eapply walk_end; reflexivity.
  - eapply walk_end; reflexivity.
  - vm_compute. lia.
  - vm_compute. lia.
  - repeat constructor; eexists; reflexivity.
  - repeat constructor; eexists; reflexivity.
Defined.
