(* ===== verification/DualMutualSnoop.v ===== *)
(** src/dualmutualsnoop.py, in [Module dualmutualsnoop]: its copy of
    lines 1-113 of src/mutualsnoop.py ([get_access_token],
    [fetch_follows] / [fetch_followers], [fetch_account_details]),
    modelled as written and shown equal to the models of [Session],
    [Fetcher] and [Enricher] by [copy_*]; the orchestrator
    [find_common_accounts] (lines 115-144), whose enrichment loop is
    [enrich_accounts], and [main] (lines 147-164).  The SetIntersector
    of the dual-target mode is [common_set], line 126. *)

From stdpp Require Import base list gmap strings.
From Stdlib Require Import ZArith String.
From S2P Require Import Prelude PyValue Http Session Fetcher Enricher MutualSnoop.

Open Scope Z_scope.

Module dualmutualsnoop.

(** ** Lines 1-113: the copy of src/mutualsnoop.py

    The script repeats the login, the two relationship walks and the
    profile request of src/mutualsnoop.py word for word; its copies are
    modelled here as the script has them, and [copy_*] below shows each
    equal to the model of the original. *)

Definition USERNAME : string := "your_bluesky_username".
Definition PASSWORD : string := "your_bluesky_app_password".

Section Copies.
Context (srv : request -> reply).

Definition get_access_token : M snoop unit :=
  log INFO "Logging into Bluesky..." [] ;;
  try_except
    (response ← requests_post srv (API_URL +:+ "/com.atproto.server.createSession")
                  [("identifier", JStr USERNAME); ("password", JStr PASSWORD)] ;
     if status_code response =? 200 then
       data ← response_json response ;
       tok ← lift (py_get data "accessJwt") ;
       modify (set_access_token tok) ;;
       log INFO "Login successful." []
     else
       log ERROR "Failed to log in" [JInt (status_code response)] ;;
       py_exit 1)
    (fun e => log ERROR "Error during login" [] ;; py_exit 1).

Section Fetch.
Context (dir : direction) (did : json).

Definition fetch_pass (tok cursor : json) (acc : list json) : M snoop loop_ctl :=
  try_except
    (response ← requests_get srv (API_URL +:+ endpoint_of dir) tok (page_params did cursor) ;
     if status_code response =? 200 then
       data ← response_json response ;
       page ← lift (items ← py_get_default data (field_of dir) (JList []) ;
                    its ← py_iter items ;
                    map_outcome (fun item => py_getitem item "did") its) ;
       cursor' ← lift (py_get data "cursor") ;
       if truthy cursor' then mret (Continue (acc ++ page) cursor')
       else mret (Break (acc ++ page))
     else
       log ERROR ("Failed to fetch " +:+ field_of dir +:+ " for") [did; JInt (status_code response)] ;;
       mret (Break acc))
    (fun _ => log ERROR ("Error fetching " +:+ field_of dir +:+ " for") [did] ;;
              mret (Break acc)).

Fixpoint fetch_loop (tok : json) (fuel : nat) (cursor : json) (acc : list json) : M snoop (list json) :=
  match fuel with
  | O => out_of_fuel
  | S fuel' =>
      ctl ← fetch_pass tok cursor acc ;
      match ctl with
      | Continue acc' cursor' => fetch_loop tok fuel' cursor' acc'
      | Break acc' => mret acc'
      end
  end.

Definition fetch_relation (fuel : nat) : M snoop (gset pykey) :=
  tok ← gets access_token ;
  follows ← fetch_loop tok fuel JNull [] ;
  lift (py_set follows).
End Fetch.

Definition fetch_follows (fuel : nat) (did : json) : M snoop (gset pykey) :=
  fetch_relation Follows did fuel.

Definition fetch_followers (fuel : nat) (did : json) : M snoop (gset pykey) :=
  fetch_relation Followers did fuel.

Definition fetch_account_details (did : json) : M snoop (option profile) :=
  tok ← gets access_token ;
  try_except
    (response ← requests_get srv (API_URL +:+ "/app.bsky.actor.getProfile") tok [("actor", did)] ;
     if status_code response =? 200 then
       data ← response_json response ;
       p ← lift (h ← py_get data "handle" ;
                 fc ← py_get data "followersCount" ;
                 fo ← py_get data "followsCount" ;
                 ca ← py_get data "createdAt" ;
                 mret (Profile h fc fo ca)) ;
       mret (Some p)
     else
       log ERROR "Failed to fetch account details for" [did; JInt (status_code response)] ;;
       mret None)
    (fun _ => log ERROR "Error fetching account details for" [did] ;; mret None).

(** The loop of lines 129-142 of [find_common_accounts]. *)
Definition enrich_accounts (accounts : gset pykey) : M snoop (list mutual_result) :=
  py_for (elements accounts) [] (fun detailed_results account =>
    details ← fetch_account_details (json_of_key account) ;
    match details with
    | Some d => mret (detailed_results ++ [result_of account d])
    | None => mret detailed_results
    end).
End Copies.

(** [(follows1 & followers1) & (follows2 & followers2)] *)
Definition common_set (follows1 followers1 follows2 followers2 : gset pykey) : gset pykey :=
  (follows1 ∩ followers1) ∩ (follows2 ∩ followers2).

Section Orchestrator.
Context (srv : request -> reply) (fuel : nat).

Definition find_common_accounts (did1 did2 : json) : M snoop (list mutual_result) :=
  log INFO "Fetching data for DID1:" [did1] ;;
  follows1 ← fetch_follows srv fuel did1 ;
  followers1 ← fetch_followers srv fuel did1 ;
  log INFO "Fetching data for DID2:" [did2] ;;
  follows2 ← fetch_follows srv fuel did2 ;
  followers2 ← fetch_followers srv fuel did2 ;
  let mutual_accounts := common_set follows1 followers1 follows2 followers2 in
  log INFO "Found common accounts." [JInt (Z.of_nat (size mutual_accounts))] ;;
  enrich_accounts srv mutual_accounts.

Definition DID1 : json := JStr "did:plc:example1".
Definition DID2 : json := JStr "did:plc:example2".

Definition main : M snoop unit :=
  get_access_token srv ;;
  common_accounts ← find_common_accounts DID1 DID2 ;
  log INFO "Common accounts:" [] ;;
  py_for common_accounts tt (fun _ account => log_connection account).
End Orchestrator.

End dualmutualsnoop.
Import dualmutualsnoop.

(** The copies are the originals. *)
Lemma copy_get_access_token : dualmutualsnoop.get_access_token = Session.mutualsnoop.get_access_token.
Proof. reflexivity. Qed.

Lemma copy_fetch_relation : dualmutualsnoop.fetch_relation = Fetcher.mutualsnoop.fetch_relation.
Proof. reflexivity. Qed.

Lemma copy_enrich_accounts : dualmutualsnoop.enrich_accounts = Enricher.mutualsnoop.enrich_accounts.
Proof. reflexivity. Qed.

(** ** Properties *)

Section DualProps.
Context (srv : request -> reply) (fuel : nat).

(** The outcome of [find_common_accounts] under token [tok]: the four
    walks in the order of the source, then the fan-out. *)
Definition common_value (did1 did2 : json) (tok : json) : outcome (list mutual_result) :=
  f1 ← fetch_value srv Follows did1 fuel tok ;
  r1 ← fetch_value srv Followers did1 fuel tok ;
  f2 ← fetch_value srv Follows did2 fuel tok ;
  r2 ← fetch_value srv Followers did2 fuel tok ;
  mret (enriched srv tok (elements (common_set f1 r1 f2 r2))).

Lemma find_common_accounts_determined did1 did2 :
  determined_by access_token (find_common_accounts srv fuel did1 did2) (common_value did1 did2).
Proof.
  unfold find_common_accounts, fetch_follows, fetch_followers.
  rewrite copy_fetch_relation, copy_enrich_accounts.
  eapply determined_by_ext.
  - repeat (apply determined_by_bind; [first [apply fetch_relation_determined
                                             | apply log_determined] | intros ?]).
    apply enrich_accounts_determined.
  - intros tok. unfold common_value. cbn.
    repeat (destruct (fetch_value _ _ _ _ _); cbn; try done).
Qed.

(** C8: the dual-target result does not depend on the order of the two
    accounts: whenever [find_common_accounts did1 did2] returns a list,
    [find_common_accounts did2 did1] from the same state returns a
    permutation of it, the same records.  (CPython builds [A & B] by
    looping over the smaller operand, so the two calls may list the
    records in different orders; and when a walk fails the two orders
    may report different failures: the first failing walk decides.) *)
Theorem find_common_accounts_symmetric did1 did2 (s : snoop) r :
  fst (find_common_accounts srv fuel did1 did2 s) = Ok r ->
  exists r', fst (find_common_accounts srv fuel did2 did1 s) = Ok r' /\ r' ≡ₚ r.
Proof.
  rewrite (proj1 (find_common_accounts_determined did1 did2 s)),
          (proj1 (find_common_accounts_determined did2 did1 s)).
  unfold common_value, common_set.
  destruct (fetch_value srv Follows did1 fuel _) as [f1| |]; cbn; try done.
  destruct (fetch_value srv Followers did1 fuel _) as [r1| |]; cbn; try done.
  destruct (fetch_value srv Follows did2 fuel _) as [f2| |]; cbn; try done.
  destruct (fetch_value srv Followers did2 fuel _) as [r2| |]; cbn; try done.
  intros [= <-]. eexists. split; [reflexivity|]. by rewrite (intersection_comm_L (f2 ∩ r2)).
Qed.

(** C12: dual-target mode.  A returned list holds exactly one record
    per identifier that lies in all four fetched sets (the follows and
    followers of both accounts) and whose profile request answers a
    profile, and no identifier twice. *)
Theorem find_common_accounts_spec did1 did2 (s : snoop) r :
  fst (find_common_accounts srv fuel did1 did2 s) = Ok r ->
  exists F1 R1 F2 R2,
    fetch_value srv Follows did1 fuel (access_token s) = Ok F1 /\
    fetch_value srv Followers did1 fuel (access_token s) = Ok R1 /\
    fetch_value srv Follows did2 fuel (access_token s) = Ok F2 /\
    fetch_value srv Followers did2 fuel (access_token s) = Ok R2 /\
    (forall x, x ∈ r <->
       exists k p, k ∈ F1 /\ k ∈ R1 /\ k ∈ F2 /\ k ∈ R2 /\
         profile_of_reply (srv (profile_request (access_token s) (json_of_key k))) = Some p /\
         x = result_of k p) /\
    NoDup (map mr_did r).
Proof.
  rewrite (proj1 (find_common_accounts_determined did1 did2 s)).
  unfold common_value, common_set.
  destruct (fetch_value srv Follows did1 fuel _) as [f1| |]; cbn; try done.
  destruct (fetch_value srv Followers did1 fuel _) as [r1| |]; cbn; try done.
  destruct (fetch_value srv Follows did2 fuel _) as [f2| |]; cbn; try done.
  destruct (fetch_value srv Followers did2 fuel _) as [r2| |]; cbn; try done.
  intros [= <-]. exists f1, r1, f2, r2. do 4 (split; [done|]). split.
  - intros x. rewrite elem_of_enriched. set_unfold.
    split; intros (k & p & Hk); exists k, p; tauto.
  - rewrite enriched_dids. apply NoDup_filter, NoDup_elements.
Qed.

(** C36: the dual-target script's own copy of the login is as fatal as
    the original: when the login answer is not a 200 JSON object,
    [main] raises [SystemExit 1] after the login request and sends
    nothing else. *)
Theorem dual_main_login_fatal (s : snoop) :
  login_token (srv login_request) = None ->
  fst (dualmutualsnoop.main srv fuel s) = Raise (SystemExit 1) /\
  trace_of (snd (dualmutualsnoop.main srv fuel s)) = trace_of s ++ [login_request].
Proof.
  intros Hnone. pose proof (get_access_token_run srv s) as Hspec.
  unfold dualmutualsnoop.main. rewrite copy_get_access_token, run_bind.
  destruct (Session.mutualsnoop.get_access_token srv s) as [o s']. rewrite Hnone in Hspec.
  destruct Hspec as (Ht & -> & _). done.
Qed.
End DualProps.

(** ** Scenario B *)

Definition actor_of (params : list (string * json)) : string :=
  match dict_lookup params "actor" with Some (JStr a) => a | _ => "" end.

(** A server for several accounts, each with one page of follows and
    one of followers; other actors only have a profile. *)
Definition accounts_server (accounts : list (string * (list string * list string))) : request -> reply :=
  fun rq =>
    match rq with
    | Get _ _ params =>
        match List.find (fun e => String.eqb e.1 (actor_of params)) accounts with
        | Some (_, (fs, frs)) => graph_server [fs] [frs] [] rq
        | None => profile_server [] rq
        end
    | Post _ _ => graph_server [] [] [] rq
    end.

(** mutual(A) = {X, Q} and mutual(B) = {Q, Z}. *)
Definition scenario_B_server : request -> reply :=
  accounts_server [("A", (["X"; "Q"; "Y"], ["X"; "Q"; "W"]));
                   ("B", (["Q"; "Z"], ["Q"; "Z"; "V"]))].

Definition scenario_B_result : list mutual_result :=
  [MutualResult (PStr "Q") (JStr "Q.bsky.social") (JInt 1) (JInt 1) (JStr "2024-01-01T00:00:00Z")].

(** Scenario B, both ways: mutual_both(A, B) = mutual_both(B, A) = {Q}. *)
Lemma find_common_accounts_symmetric_witness :
  fst (find_common_accounts scenario_B_server 10 (JStr "A") (JStr "B") initial_snoop) = Ok scenario_B_result /\
  exists r', fst (find_common_accounts scenario_B_server 10 (JStr "B") (JStr "A") initial_snoop) = Ok r' /\
    r' ≡ₚ scenario_B_result.
Proof.
  assert (H : fst (find_common_accounts scenario_B_server 10 (JStr "A") (JStr "B") initial_snoop)
              = Ok scenario_B_result) by (vm_compute; reflexivity).
  split; [exact H|]. exact (find_common_accounts_symmetric scenario_B_server 10 _ _ _ _ H).
Defined.

Lemma find_common_accounts_spec_witness :
  fst (find_common_accounts scenario_B_server 10 (JStr "A") (JStr "B") initial_snoop) = Ok scenario_B_result /\
  exists F1 R1 F2 R2,
    fetch_value scenario_B_server Follows (JStr "A") 10 JNull = Ok F1 /\
    fetch_value scenario_B_server Followers (JStr "A") 10 JNull = Ok R1 /\
    fetch_value scenario_B_server Follows (JStr "B") 10 JNull = Ok F2 /\
    fetch_value scenario_B_server Followers (JStr "B") 10 JNull = Ok R2 /\
    (forall x, x ∈ scenario_B_result <->
       exists k p, k ∈ F1 /\ k ∈ R1 /\ k ∈ F2 /\ k ∈ R2 /\
         profile_of_reply (scenario_B_server (profile_request JNull (json_of_key k))) = Some p /\
         x = result_of k p) /\
    NoDup (map mr_did scenario_B_result).
Proof.
  assert (H : fst (find_common_accounts scenario_B_server 10 (JStr "A") (JStr "B") initial_snoop)
              = Ok scenario_B_result) by (vm_compute; reflexivity).
  split; [exact H|]. exact (find_common_accounts_spec scenario_B_server 10 _ _ _ _ H).
Defined.

Lemma dual_main_login_fatal_witness :
  login_token (refusing_server login_request) = None /\
  fst (dualmutualsnoop.main refusing_server 10 initial_snoop) = Raise (SystemExit 1) /\
  trace_of (snd (dualmutualsnoop.main refusing_server 10 initial_snoop)) = trace_of initial_snoop ++ [login_request].
Proof.
  assert (H : login_token (refusing_server login_request) = None) by reflexivity.
  split; [exact H|]. exact (dual_main_login_fatal refusing_server 10 initial_snoop H).
Defined.

