(* ===== verification/Database.v ===== *)
(** The PostgreSQL database of the moderation scripts (src/dedupe.py,
    src/autolabel.py, src/reportbot.py), as they use it through
    psycopg2: the table [moderation_subject_status] and the table
    [label].

    The state [mod_state] holds the two tables, a fault schedule, a
    clock and the request trace and log.  Every database round trip
    ([psycopg2.connect], [conn.cursor()], [cursor.execute] with its
    [fetch] or [commit]) consumes one entry of the fault schedule:
    [true] makes it raise a [DatabaseError], [false] or an exhausted
    schedule lets it through.  A statement and its [commit] are one
    round trip.  [datetime.utcnow()] reads the clock and advances it, so
    the ISO timestamp of a call is represented by its clock tick.  The
    [label] table's only unique key is its serial [id], which the
    scripts never supply, so [INSERT ... ON CONFLICT DO NOTHING]
    always inserts. *)

From stdpp Require Import base list strings.
From Stdlib Require Import ZArith String.
From S2P Require Import Prelude PyValue Http.

Open Scope Z_scope.

Definition REVIEW_OPEN : string := "tools.ozone.moderation.defs#reviewOpen".
Definition REVIEW_CLOSED : string := "tools.ozone.moderation.defs#reviewClosed".

(** A row of [moderation_subject_status]; nullable text columns are
    options. *)
Record status_row := StatusRow {
  sr_id : Z;
  sr_did : option string;
  sr_reviewState : string;
  sr_comment : option string;
  sr_lastReviewedAt : option Z;
  sr_updatedAt : option Z
}.

(** A row of [label]. *)
Record label_row := LabelRow {
  lb_src : string;
  lb_uri : string;
  lb_cid : string;
  lb_val : string;
  lb_neg : bool;
  lb_cts : Z
}.

Record db := DB { statuses : list status_row; labels : list label_row }.

Record mod_state := ModState {
  ms_db : db;
  ms_faults : list bool;
  ms_clock : Z;
  ms_net : net
}.

#[export] Instance mod_runtime : Runtime mod_state :=
  {| rt_net := ms_net; rt_set_net n s := ModState (ms_db s) (ms_faults s) (ms_clock s) n |}.

#[export] Instance mod_runtime_laws : RuntimeLaws mod_state.
Proof. split; by intros ? [] . Qed.

(** The record built from a selected row (lines 68-74 of src/dedupe.py). *)
Record review := Review {
  rv_id : Z;
  rv_did : option string;
  rv_reviewState : string;
  rv_comment : option string
}.

Definition review_of (r : status_row) : review :=
  Review (sr_id r) (sr_did r) (sr_reviewState r) (sr_comment r).

(** ** The SQL statements, on the tables *)

(** [SELECT id, did, "reviewState", comment FROM moderation_subject_status
     WHERE "reviewState" = 'tools.ozone.moderation.defs#reviewOpen'] *)
Definition select_open (d : db) : list status_row :=
  filter (fun r => sr_reviewState r = REVIEW_OPEN) (statuses d).

(** [SELECT 1 FROM label WHERE "src" = %s AND "uri" = %s AND "val" = %s] *)
Definition label_present (d : db) (src uri val : string) : bool :=
  existsb (fun l => String.eqb (lb_src l) src && String.eqb (lb_uri l) uri && String.eqb (lb_val l) val)
          (labels d).

(** [UPDATE moderation_subject_status SET "reviewState" = '...#reviewClosed',
     "lastReviewedAt" = %s, "updatedAt" = %s WHERE id = %s] *)
Definition close_row (id ts : Z) (r : status_row) : status_row :=
  if sr_id r =? id
  then StatusRow (sr_id r) (sr_did r) REVIEW_CLOSED (sr_comment r) (Some ts) (Some ts)
  else r.

Definition update_closed (id ts : Z) (d : db) : db :=
  DB (map (close_row id ts) (statuses d)) (labels d).

(** [INSERT INTO label (...) VALUES (...) ON CONFLICT DO NOTHING] *)
Definition insert_label (row : label_row) (d : db) : db :=
  DB (statuses d) (labels d ++ [row]).

(** ** Round trips *)

Definition set_db (d : db) (faults : list bool) (s : mod_state) : mod_state :=
  ModState d faults (ms_clock s) (ms_net s).

Definition db_step {A} (f : db -> A * db) : M mod_state A :=
  fun s =>
    match ms_faults s with
    | true :: rest => (Raise DatabaseError, set_db (ms_db s) rest s)
    | false :: rest => let '(a, d') := f (ms_db s) in (Ok a, set_db d' rest s)
    | [] => let '(a, d') := f (ms_db s) in (Ok a, set_db d' [] s)
    end.

(** [psycopg2.connect(...)] and [conn.cursor()]: round trips that
    change nothing. *)
Definition db_connect : M mod_state unit := db_step (fun d => (tt, d)).
Definition db_cursor : M mod_state unit := db_step (fun d => (tt, d)).

Definition exec_select_open : M mod_state (list status_row) := db_step (fun d => (select_open d, d)).

Definition exec_label_exists (src uri val : string) : M mod_state bool :=
  db_step (fun d => (label_present d src uri val, d)).

Definition exec_close (id ts : Z) : M mod_state unit := db_step (fun d => (tt, update_closed id ts d)).

Definition exec_insert_label (row : label_row) : M mod_state unit := db_step (fun d => (tt, insert_label row d)).

(** [datetime.utcnow().isoformat()] *)
Definition utcnow : M mod_state Z :=
  fun s => (Ok (ms_clock s), ModState (ms_db s) (ms_faults s) (ms_clock s + 1) (ms_net s)).

(** ** Lemmas *)

Lemma db_step_labels {A} (f : db -> A * db) (s : mod_state) :
  (forall d, labels (snd (f d)) = labels d) ->
  labels (ms_db (snd (db_step f s))) = labels (ms_db s).
Proof.
  intros Hf. specialize (Hf (ms_db s)). unfold db_step.
  destruct (ms_faults s) as [|[] rest]; cbn; try done; destruct (f (ms_db s)); done.
Qed.

Lemma close_row_state id ts r :
  sr_reviewState (close_row id ts r) =
    if sr_id r =? id then REVIEW_CLOSED else sr_reviewState r.
Proof. unfold close_row. by destruct (sr_id r =? id). Qed.

Lemma close_row_key id ts r :
  sr_id (close_row id ts r) = sr_id r /\ sr_did (close_row id ts r) = sr_did r.
Proof. unfold close_row. by destruct (sr_id r =? id). Qed.

Lemma label_present_extend d d' extra src uri val :
  labels d' = labels d ++ extra -> label_present d src uri val = true -> label_present d' src uri val = true.
Proof. unfold label_present. intros ->. rewrite existsb_app. by intros ->. Qed.

Lemma label_present_insert d src uri cid val neg cts :
  label_present (insert_label (LabelRow src uri cid val neg cts) d) src uri val = true.
Proof.
  unfold label_present. cbn. rewrite existsb_app. cbn. rewrite !String.eqb_refl. by destruct existsb.
Qed.

(** A statement that leaves the tables alone. *)
Definition keeps_db {A} (m : M mod_state A) : Prop := forall s, ms_db (snd (m s)) = ms_db s.

Lemma keeps_db_triple {A} (I : mod_state -> Prop) (Pd : db -> Prop) (m : M mod_state A) :
  (forall s s', ms_db s' = ms_db s -> I s -> I s') ->
  keeps_db m -> triple I (fun s => Pd (ms_db s)) m (fun _ s => Pd (ms_db s)).
Proof.
  intros HI Hk s Hs HP. split; [apply (HI s); [apply Hk|done]|]. intros _ _. by rewrite Hk.
Qed.

Lemma db_step_keeps {A} (f : db -> A * db) :
  (forall d, snd (f d) = d) -> keeps_db (db_step f).
Proof.
  intros Hf s. unfold db_step. specialize (Hf (ms_db s)).
  destruct (ms_faults s) as [|[] rest]; cbn; try done; destruct (f (ms_db s)); done.
Qed.

(** A round trip that returns normally answered from the tables it saw. *)
Lemma db_step_result {A} (f : db -> A * db) s a :
  fst (db_step f s) = Ok a -> a = fst (f (ms_db s)) /\ ms_db (snd (db_step f s)) = snd (f (ms_db s)).
Proof.
  unfold db_step. destruct (ms_faults s) as [|[] rest]; cbn; try done;
    destruct (f (ms_db s)); by intros [= ->].
Qed.

(** A round trip that fails leaves the tables alone. *)
Lemma db_step_cases {A} (f : db -> A * db) s :
  ms_db (snd (db_step f s)) = ms_db s \/ ms_db (snd (db_step f s)) = snd (f (ms_db s)).
Proof.
  unfold db_step. destruct (ms_faults s) as [|[] rest]; cbn; auto;
    destruct (f (ms_db s)); auto.
Qed.

Lemma log_keeps_db lvl msg args : keeps_db (log (S:=mod_state) lvl msg args).
Proof. done. Qed.

Lemma utcnow_keeps_db : keeps_db utcnow.
Proof. done. Qed.

Lemma connect_keeps_db : keeps_db db_connect.
Proof. by apply db_step_keeps. Qed.

Lemma cursor_keeps_db : keeps_db db_cursor.
Proof. by apply db_step_keeps. Qed.

Lemma select_keeps_db : keeps_db exec_select_open.
Proof. by apply db_step_keeps. Qed.

Lemma label_query_keeps_db src uri val : keeps_db (exec_label_exists src uri val).
Proof. by apply db_step_keeps. Qed.

Lemma ret_keeps_db {A} (a : A) : keeps_db (mret a).
Proof. done. Qed.

Lemma keeps_db_bind {A B} (m : M mod_state A) (k : A -> M mod_state B) :
  keeps_db m -> (forall a, keeps_db (k a)) -> keeps_db (m ≫= k).
Proof.
  intros Hm Hk s. rewrite run_bind. specialize (Hm s).
  destruct (m s) as [[a| |] s1]; cbn in *; [by rewrite Hk|done|done].
Qed.

Lemma keeps_db_try {A} (m : M mod_state A) (h : exn -> M mod_state A) :
  keeps_db m -> (forall e, keeps_db (h e)) -> keeps_db (try_except m h).
Proof.
  intros Hm Hh s. unfold try_except. specialize (Hm s).
  destruct (m s) as [[a|e|] s1]; cbn in *; try done.
  destruct (is_exception e); cbn; [by rewrite Hh|done].
Qed.

Lemma lift_keeps_db {A} (o : outcome A) : keeps_db (lift o).
Proof. done. Qed.

Lemma raise_keeps_db {A} e : keeps_db (raise (A:=A) e).
Proof. done. Qed.

Lemma keeps_db_if {A} (b : bool) (m1 m2 : M mod_state A) :
  keeps_db m1 -> keeps_db m2 -> keeps_db (if b then m1 else m2).
Proof. by destruct b. Qed.

Lemma py_exit_keeps_db {A} code : keeps_db (py_exit (A:=A) code).
Proof. done. Qed.

Lemma issue_keeps_db srv rq : keeps_db (issue (S:=mod_state) srv rq).
Proof. intros s. unfold issue. by destruct (srv rq). Qed.

Lemma requests_get_keeps_db srv url tok params : keeps_db (requests_get (S:=mod_state) srv url tok params).
Proof. apply issue_keeps_db. Qed.

Lemma requests_post_keeps_db srv url body : keeps_db (requests_post (S:=mod_state) srv url body).
Proof. apply issue_keeps_db. Qed.

Lemma response_json_keeps_db r : keeps_db (response_json (S:=mod_state) r).
Proof. done. Qed.

Create HintDb keepsdb discriminated.
#[export] Hint Resolve log_keeps_db utcnow_keeps_db connect_keeps_db cursor_keeps_db
  select_keeps_db label_query_keeps_db ret_keeps_db keeps_db_bind keeps_db_try
  lift_keeps_db raise_keeps_db keeps_db_if py_exit_keeps_db requests_get_keeps_db requests_post_keeps_db response_json_keeps_db : keepsdb.

(** ** Rows a script may close

    [row_rel closable r0 r]: row [r] is row [r0] with the same id and
    did, and its state is the initial one or [reviewClosed] for a
    closable row. *)

Section Closing.
Context (closable : status_row -> Prop).

Definition row_rel (r0 r : status_row) : Prop :=
  sr_id r = sr_id r0 /\ sr_did r = sr_did r0 /\
  (sr_reviewState r = sr_reviewState r0 \/ (closable r0 /\ sr_reviewState r = REVIEW_CLOSED)).

Lemma rows_rel_refl rows : Forall2 row_rel rows rows.
Proof. apply Forall_Forall2_diag, Forall_forall. intros r _. unfold row_rel. auto. Qed.

(** [UPDATE ... WHERE id = %s] on an id all of whose initial rows are
    closable keeps the relation, and touches no label. *)
Lemma exec_close_rows rows0 id ts s :
  (forall r0, r0 ∈ rows0 -> sr_id r0 = id -> closable r0) ->
  Forall2 row_rel rows0 (statuses (ms_db s)) ->
  Forall2 row_rel rows0 (statuses (ms_db (snd (exec_close id ts s)))) /\
  labels (ms_db (snd (exec_close id ts s))) = labels (ms_db s).
Proof.
  intros Hid Hrows. unfold exec_close.
  destruct (db_step_cases (fun d => (tt, update_closed id ts d)) s) as [H | H]; rewrite H; [done|].
  split; [|done]. cbn. apply Forall2_fmap_r.
  eapply Forall2_impl_in; [exact Hrows|]. intros r0 r Hr0 (Hi & Hd & Hst).
  unfold compose, row_rel, close_row. destruct (sr_id r =? id) eqn:E; cbn; [|tauto].
  apply Z.eqb_eq in E. do 2 (split; [done|]). right. split; [|done]. apply Hid; [done|congruence].
Qed.
End Closing.

(** ** The review guard, and the rows a pass over the reviews closes

    Both queue scripts skip a review [if not record_id or not did] and
    otherwise close the rows of its id when a condition on its did
    holds ([cond]: the label is present, or the handle matches). *)

(** [if not record_id or not did]: an id of 0 and a [None] or empty did
    are falsy. *)
Definition review_target (r : review) : option (Z * string) :=
  match rv_did r with
  | Some did => if (rv_id r =? 0) || String.eqb did "" then None else Some (rv_id r, did)
  | None => None
  end.

Lemma review_target_some r id did :
  review_target r = Some (id, did) -> rv_id r = id /\ rv_did r = Some did /\ id <> 0 /\ did <> "".
Proof.
  unfold review_target. destruct (rv_did r) as [d|]; [|done].
  destruct (rv_id r =? 0) eqn:E1; cbn; [done|]. destruct (String.eqb d "") eqn:E2; [done|].
  intros [= <- <-]. apply Z.eqb_neq in E1. apply String.eqb_neq in E2. done.
Qed.

Lemma elem_of_select_open d r :
  r ∈ select_open d <-> r ∈ statuses d /\ sr_reviewState r = REVIEW_OPEN.
Proof. unfold select_open. rewrite list_elem_of_filter. tauto. Qed.

(** Whether handling review [r] closes [row]. *)
Definition closes_when (cond : string -> bool) (r : review) (row : status_row) : bool :=
  match review_target r with
  | Some (id, did) => cond did && (sr_id row =? id)
  | None => false
  end.

(** Whether a pass over the open reviews closes [row]. *)
Definition closes_row (cond : string -> bool) (row : status_row) : bool :=
  bool_decide (sr_reviewState row = REVIEW_OPEN) &&
  match review_target (review_of row) with
  | Some (_, did) => cond did
  | None => false
  end.

Lemma closes_when_id cond r row row' :
  sr_id row' = sr_id row -> closes_when cond r row' = closes_when cond r row.
Proof. unfold closes_when. by intros ->. Qed.

Lemma closes_when_ext cond cond' r row :
  (forall did, cond did = cond' did) -> closes_when cond r row = closes_when cond' r row.
Proof. unfold closes_when. intros H. destruct (review_target r) as [[]|]; [by rewrite H|done]. Qed.

Lemma closes_when_review_of cond rr row :
  closes_when cond (review_of rr) row = true <->
  sr_id row = sr_id rr /\ match review_target (review_of rr) with
                          | Some (_, did) => cond did = true | None => False end.
Proof.
  unfold closes_when. destruct (review_target (review_of rr)) as [[id did]|] eqn:T; [|naive_solver].
  apply review_target_some in T as (Hid & _). cbn in Hid. subst id.
  rewrite andb_true_iff, Z.eqb_eq. naive_solver.
Qed.

(** With [id] a key, the open reviews close [row] exactly when [row]
    itself is open, passes the guard and satisfies [cond]. *)
Lemma existsb_closes_when cond d row :
  NoDup (map sr_id (statuses d)) -> row ∈ statuses d ->
  existsb (fun r => closes_when cond r row) (map review_of (select_open d)) = closes_row cond row.
Proof.
  intros Hnd Hrow. apply Bool.eq_iff_eq_true. rewrite existsb_exists.
  unfold closes_row. rewrite andb_true_iff, bool_decide_eq_true. split.
  - intros (r & Hr & Hc). rewrite <- list_elem_of_In in Hr. apply list_elem_of_fmap in Hr as (rr & -> & Hrr).
    apply elem_of_select_open in Hrr as [Hrr Hopen].
    apply closes_when_review_of in Hc as [Hid Hl].
    assert (rr = row) as -> by (apply (NoDup_map_same sr_id (statuses d)); auto).
    split; [done|]. by destruct (review_target (review_of row)) as [[]|].
  - intros [Hopen Hl]. exists (review_of row). split.
    + apply list_elem_of_In, list_elem_of_fmap. exists row. split; [done|]. by apply elem_of_select_open.
    + apply closes_when_review_of. split; [done|]. by destruct (review_target (review_of row)) as [[]|].
Qed.

(** [rows'] is [rows] after closing the rows [closes r] selects. *)
Definition closed_by (closes : status_row -> bool) (rows rows' : list status_row) : Prop :=
  Forall2 (fun row row' => sr_id row' = sr_id row /\
             sr_reviewState row' = if closes row then REVIEW_CLOSED else sr_reviewState row) rows rows'.

Lemma closed_by_none rows : closed_by (fun _ => false) rows rows.
Proof. apply Forall_Forall2_diag, Forall_forall. done. Qed.

Lemma closed_by_close_row id ts rows :
  closed_by (fun row => sr_id row =? id) rows (map (close_row id ts) rows).
Proof.
  apply Forall2_fmap_r, Forall_Forall2_diag, Forall_forall.
  intros row _. unfold compose. split; [apply close_row_key|apply close_row_state].
Qed.

(** Two passes compose; a row's id decides whether it is closed. *)
Lemma closed_by_compose (c1 c2 : status_row -> bool) rows rows1 rows2 :
  (forall row row', sr_id row' = sr_id row -> c2 row' = c2 row) ->
  closed_by c1 rows rows1 -> closed_by c2 rows1 rows2 -> closed_by (fun row => c1 row || c2 row) rows rows2.
Proof.
  intros Hc2. apply Forall2_compose.
  intros row row1 row2 [Hi1 Hs1] [Hi2 Hs2]. split; [congruence|].
  rewrite Hs2, Hs1, (Hc2 _ _ Hi1). by destruct (c1 row), (c2 row).
Qed.

Lemma closed_by_ext (c c' : status_row -> bool) rows rows' :
  (forall row, c row = c' row) -> closed_by c rows rows' -> closed_by c' rows rows'.
Proof.
  intros H Hc. eapply Forall2_impl; [exact Hc|]. intros row row' [Hi Hs]. by rewrite <- H.
Qed.

(** The open rows left after a pass are the open rows it did not close. *)
Lemma closed_by_open_ids (c : status_row -> bool) rows rows' :
  closed_by c rows rows' ->
  map sr_id (filter (fun r => sr_reviewState r = REVIEW_OPEN) rows') =
  map sr_id (filter (fun r => sr_reviewState r = REVIEW_OPEN /\ c r = false) rows).
Proof.
  induction 1 as [|row row' rows rows' [Hi Hs] _ IH]; [done|]. rewrite !filter_cons, Hs.
  destruct (c row); repeat case_decide; cbn; rewrite ?IH, ?Hi; naive_solver.
Qed.

Section ClosingLoop.
Context (P : mod_state -> Prop) (ok : review -> Prop) (cond : string -> bool)
  (body : review -> M mod_state unit).
Hypothesis body_spec : forall r s, ok r -> P s ->
  fst (body r s) = Ok tt /\ P (snd (body r s)) /\
  closed_by (closes_when cond r) (statuses (ms_db s)) (statuses (ms_db (snd (body r s)))).

(** A loop whose body closes, for each review, the rows of its id
    satisfying [cond], closes the rows some review of the list selects. *)
Lemma py_for_closes l s :
  Forall ok l -> P s ->
  fst (py_for l tt (fun _ r => body r) s) = Ok tt /\ P (snd (py_for l tt (fun _ r => body r) s)) /\
  closed_by (fun row => existsb (fun r => closes_when cond r row) l)
    (statuses (ms_db s)) (statuses (ms_db (snd (py_for l tt (fun _ r => body r) s)))).
Proof.
  intros Hok. revert s. induction Hok as [|r l Hr Hl IH]; intros s HP; [split_and!; [done|done|apply closed_by_none]|].
  destruct (body_spec r s Hr HP) as (Hok & HP1 & Hrows1).
  cbn [py_for]. rewrite run_bind. destruct (body r s) as [o s1]; cbn in Hok, HP1, Hrows1 |- *.
  subst o. destruct (IH s1 HP1) as (Hok2 & HP2 & Hrows2).
  split_and!; [done|done|].
  eapply closed_by_compose; [|exact Hrows1|exact Hrows2].
  intros row row' Hi. apply existsb_ext. intros r0. by apply closes_when_id.
Qed.
End ClosingLoop.
