(* ===== verification/Dedupe.v ===== *)
(** src/dedupe.py: close every open review whose account already
    carries the label.  [fetch_open_reviews] (lines 20-57),
    [label_exists] (60-77), [close_review] (80-97), [process_reviews]
    (100-132) and the script body (135-138), over the database of
    [Database], in [Module dedupe]. *)

From stdpp Require Import base list strings.
From Stdlib Require Import ZArith String.
From S2P Require Import Prelude PyValue Http Database.

Open Scope Z_scope.

Module dedupe.

Definition LABELER_DID : string := "foo".
Definition LABEL : string := "foo".

Definition fetch_open_reviews : M mod_state (list review) :=
  try_except
    (log INFO "Connecting to the PostgreSQL database..." [] ;;
     db_connect ;;
     db_cursor ;;
     results ← exec_select_open ;
     let records := map review_of results in
     log INFO "Fetched open reviews from the database." [JInt (Z.of_nat (List.length records))] ;;
     mret records)
    (fun _ => log ERROR "Failed to fetch open reviews from the database" [] ;; mret []).

Definition label_exists (did label : string) : M mod_state bool :=
  try_except
    (db_cursor ;;
     exists_ ← exec_label_exists LABELER_DID did label ;
     log DEBUG "Label existence check for DID" [JStr did; JStr label; JBool exists_] ;;
     mret exists_)
    (fun _ => log ERROR "Error checking label for DID" [JStr did] ;; mret false).

Definition close_review (record_id : Z) : M mod_state unit :=
  try_except
    (resolved_at ← utcnow ;
     db_cursor ;;
     exec_close record_id resolved_at ;;
     log INFO "Successfully closed review with record ID" [JInt record_id])
    (fun _ => log ERROR "Failed to close review with record ID" [JInt record_id]).

(** The body of [for review in open_reviews] (lines 116-128). *)
Definition process_review (review : review) : M mod_state unit :=
  match review_target review with
  | None => log WARNING "Skipping review with missing ID or DID" []
  | Some (record_id, did) =>
      label_exists did LABEL ≫= fun (exists_label : bool) =>
      if exists_label then
        log INFO "DID already has label. Closing review" [JStr did; JInt record_id] ;;
        close_review record_id
      else log DEBUG "DID does not have label. Skipping review" [JStr did; JInt record_id]
  end.

Definition process_reviews : M mod_state unit :=
  try_except
    (db_connect ;;
     open_reviews ← fetch_open_reviews ;
     py_for open_reviews tt (fun _ review => process_review review))
    (fun _ => log ERROR "Error processing reviews" []).

Definition main : M mod_state unit :=
  log INFO "Starting review processing..." [] ;;
  process_reviews ;;
  log INFO "Review processing completed." [].

End dedupe.
Import dedupe.

Lemma fetch_open_reviews_keeps_db : keeps_db fetch_open_reviews.
Proof. unfold fetch_open_reviews. eauto 10 with keepsdb. Qed.

(** ** Safety: a review is closed only if its account carries the label *)

Section Safety.
Context (db0 : db).
Hypothesis ids_unique : NoDup (map sr_id (statuses db0)).

(** A row the script may close: open, with a did that carries [LABEL]
    from [LABELER_DID] in the initial tables. *)
Definition closable (r0 : status_row) : Prop :=
  sr_reviewState r0 = REVIEW_OPEN /\
  exists d, sr_did r0 = Some d /\ label_present db0 LABELER_DID d LABEL = true.

Definition dedupe_inv (d : db) : Prop :=
  labels d = labels db0 /\ Forall2 (row_rel closable) (statuses db0) (statuses d).

Definition Inv (s : mod_state) : Prop := dedupe_inv (ms_db s).

Lemma Inv_db s s' : ms_db s' = ms_db s -> Inv s -> Inv s'.
Proof. unfold Inv. by intros ->. Qed.

Lemma keeps_Inv {A} (m : M mod_state A) : keeps_db m -> preserves Inv m.
Proof. intros Hk s. by apply Inv_db. Qed.

Lemma dedupe_inv_init : dedupe_inv db0.
Proof. split; [done|]. apply rows_rel_refl. Qed.

(** Closing an id all of whose initial rows are closable keeps the invariant. *)
Lemma exec_close_Inv id ts :
  (forall r0, r0 ∈ statuses db0 -> sr_id r0 = id -> closable r0) ->
  preserves Inv (exec_close id ts).
Proof.
  intros Hid s [Hl Hrows]. destruct (exec_close_rows closable _ id ts s Hid Hrows) as [H1 H2].
  split; [congruence|done].
Qed.

Lemma close_review_Inv id :
  (forall r0, r0 ∈ statuses db0 -> sr_id r0 = id -> closable r0) ->
  preserves Inv (close_review id).
Proof.
  intros Hid. unfold close_review.
  apply preserves_try; [|intros; apply keeps_Inv; eauto with keepsdb].
  apply preserves_bind; [apply keeps_Inv; eauto with keepsdb|intros ts].
  apply preserves_bind; [apply keeps_Inv; eauto with keepsdb|intros _].
  apply preserves_bind; [by apply exec_close_Inv|intros _].
  apply keeps_Inv; eauto with keepsdb.
Qed.

Lemma label_exists_triple did :
  triple Inv (fun _ => True) (label_exists did LABEL)
    (fun b _ => b = true -> label_present db0 LABELER_DID did LABEL = true).
Proof.
  unfold label_exists. apply triple_try.
  - intros s HI _. split.
    + eapply keeps_Inv; [|exact HI]. eauto 10 with keepsdb.
    + intros b Hb.
      destruct (run_bind_fst_ok _ _ _ _ Hb) as (u & Hu & Hb1).
      destruct (run_bind_fst_ok _ _ _ _ Hb1) as (b' & Hb' & Hb2).
      cbn in Hb2. injection Hb2 as <-. intros ->.
      destruct (db_step_result _ _ _ Hb') as [Hq _].
      pose proof (cursor_keeps_db s) as Hdb.
      destruct HI as [Hl _]. unfold label_present in *. by rewrite <- Hl, <- Hdb.
  - intros e s HI _. split; [eapply keeps_Inv; [|exact HI]; eauto with keepsdb|].
    intros b. rewrite run_bind. cbn. by intros [= <-].
Qed.

Lemma process_review_Inv r :
  r ∈ map review_of (select_open db0) -> preserves Inv (process_review r).
Proof.
  intros Hr. unfold process_review.
  destruct (review_target r) as [[id did]|] eqn:T; [|apply keeps_Inv; eauto with keepsdb].
  apply review_target_some in T as (Hid & Hdid & _).
  apply list_elem_of_fmap in Hr as (rr & -> & Hrr). apply elem_of_select_open in Hrr as [Hrr Hopen].
  intros s HI. destruct (label_exists_triple did s HI I) as [HI1 HQ].
  rewrite run_bind. destruct (label_exists did LABEL s) as [[b| |] s1]; cbn in *; try done.
  destruct b; [|by apply keeps_Inv; eauto with keepsdb].
  specialize (HQ true eq_refl).
  refine (preserves_bind _ _ _ _ (fun _ => close_review_Inv id _) s1 HI1);
    [apply keeps_Inv; eauto with keepsdb|].
  intros r0 Hr0 Hid0. cbn in Hid, Hdid.
  assert (r0 = rr) as -> by (apply (NoDup_map_same sr_id (statuses db0)); congruence).
  split; [done|]. eauto.
Qed.

Lemma fetch_open_reviews_triple :
  triple Inv (fun s => ms_db s = db0) fetch_open_reviews
    (fun l _ => forall r, r ∈ l -> r ∈ map review_of (select_open db0)).
Proof.
  unfold fetch_open_reviews. apply triple_try.
  - intros s HI Hdb. split; [eapply keeps_Inv; [|exact HI]; eauto 10 with keepsdb|].
    intros l Hl.
    destruct (run_bind_fst_ok _ _ _ _ Hl) as (u1 & _ & Hl1).
    destruct (run_bind_fst_ok _ _ _ _ Hl1) as (u2 & _ & Hl2).
    destruct (run_bind_fst_ok _ _ _ _ Hl2) as (u3 & _ & Hl3).
    destruct (run_bind_fst_ok _ _ _ _ Hl3) as (res & Hres & Hl4).
    destruct (run_bind_fst_ok _ _ _ _ Hl4) as (u5 & _ & Hl5).
    cbn in Hl5. injection Hl5 as <-.
    destruct (db_step_result _ _ _ Hres) as [-> _]. cbn.
    rewrite cursor_keeps_db, connect_keeps_db. cbn. rewrite Hdb. done.
  - intros e s HI _. split; [eapply keeps_Inv; [|exact HI]; eauto with keepsdb|].
    intros l Hl. rewrite run_bind in Hl. cbn in Hl. injection Hl as <-. intros r Hr.
    by apply not_elem_of_nil in Hr.
Qed.
End Safety.

(** C14: whatever database faults occur, [process_reviews] changes no
    label and closes only reviews that were open and whose did carries
    [LABEL] from [LABELER_DID]; ids and dids of the rows are unchanged.
    It relies on [id] being a key of the table. *)
Theorem process_reviews_closes_only_labelled (s : mod_state) :
  NoDup (map sr_id (statuses (ms_db s))) ->
  dedupe_inv (ms_db s) (ms_db (snd (process_reviews s))).
Proof.
  intros Hnd. set (db0 := ms_db s).
  assert (H : triple (Inv db0) (fun s0 => ms_db s0 = db0) process_reviews (fun _ _ => True)).
  { unfold process_reviews. apply triple_try.
    - eapply triple_bind.
      { apply (keeps_db_triple (Inv db0) (fun d => d = db0)); [apply Inv_db|eauto with keepsdb]. }
      intros u. eapply triple_bind; [apply fetch_open_reviews_triple|].
      intros l s0 HI Hl.
      refine (triple_of_preserves _ _ (preserves_for _ _ _ _ (fun _ r Hr => process_review_Inv db0 Hnd r (Hl r Hr))) s0 HI I).
    - intros e. apply triple_of_preserves, keeps_Inv. eauto with keepsdb. }
  apply (H s (dedupe_inv_init db0) eq_refl).
Qed.


(** ** Functional behaviour without faults *)

(** The did carries [LABEL] from [LABELER_DID] in [d]. *)
Definition has_label (d : db) (did : string) : bool := label_present d LABELER_DID did LABEL.

(** The rows [process_reviews] closes, read off the initial tables. *)
Definition dedupe_closes (d : db) (row : status_row) : bool := closes_row (has_label d) row.

Lemma has_label_labels d d' did : labels d = labels d' -> has_label d did = has_label d' did.
Proof. unfold has_label, label_present. by intros ->. Qed.

#[local] Arguments label_present : simpl never.

(** Without faults, the label query answers from the label table and
    changes nothing. *)
Lemma label_exists_nofault did label s :
  ms_faults s = [] ->
  fst (label_exists did label s) = Ok (label_present (ms_db s) LABELER_DID did label) /\
  ms_db (snd (label_exists did label s)) = ms_db s /\ ms_faults (snd (label_exists did label s)) = [].
Proof.
  destruct s as [d f c n]; cbn; intros ->.
  unfold label_exists, exec_label_exists, db_cursor, db_step, log. py_simp. done.
Qed.

(** Without faults, one review closes the rows of its id exactly when
    its did carries the label. *)
Lemma process_review_nofault r s :
  ms_faults s = [] ->
  fst (process_review r s) = Ok tt /\ ms_faults (snd (process_review r s)) = [] /\
  labels (ms_db (snd (process_review r s))) = labels (ms_db s) /\
  closed_by (closes_when (has_label (ms_db s)) r) (statuses (ms_db s)) (statuses (ms_db (snd (process_review r s)))).
Proof.
  destruct s as [[rows lbs] f c n]; cbn; intros ->.
  unfold process_review, closes_when, has_label.
  destruct (review_target r) as [[id did]|]; [|split_and!; try done; apply closed_by_none].
  unfold label_exists, close_review, exec_label_exists, exec_close, db_cursor, db_step, utcnow, log.
  py_simp.
  destruct (label_present (DB rows lbs) LABELER_DID did LABEL); cbn;
    split_and!; try done; [apply closed_by_close_row|apply closed_by_none].
Qed.

Lemma process_loop_nofault l s :
  ms_faults s = [] ->
  fst (py_for l tt (fun _ r => process_review r) s) = Ok tt /\
  ms_faults (snd (py_for l tt (fun _ r => process_review r) s)) = [] /\
  labels (ms_db (snd (py_for l tt (fun _ r => process_review r) s))) = labels (ms_db s) /\
  closed_by (fun row => existsb (fun r => closes_when (has_label (ms_db s)) r row) l)
    (statuses (ms_db s)) (statuses (ms_db (snd (py_for l tt (fun _ r => process_review r) s)))).
Proof.
  intros Hf.
  destruct (py_for_closes (fun s1 => ms_faults s1 = [] /\ labels (ms_db s1) = labels (ms_db s))
              (fun _ => True) (has_label (ms_db s)) process_review) with (l := l) (s := s)
    as (Hok & [Hfs Hl] & Hrows); [|by apply Forall_true|done|done].
  intros r s1 _ [Hf1 Hl1]. destruct (process_review_nofault r s1 Hf1) as (Hok & Hf2 & Hl2 & Hrows).
  split_and!; [done|done|congruence|].
  eapply closed_by_ext; [|exact Hrows]. intros row. apply closes_when_ext. intros did.
  by apply has_label_labels.
Qed.

Lemma fetch_open_reviews_nofault s :
  ms_faults s = [] ->
  fst (fetch_open_reviews s) = Ok (map review_of (select_open (ms_db s))) /\
  ms_faults (snd (fetch_open_reviews s)) = [] /\ ms_db (snd (fetch_open_reviews s)) = ms_db s.
Proof.
  destruct s as [d f c n]; cbn; intros ->.
  unfold fetch_open_reviews, db_connect, db_cursor, exec_select_open, db_step, log. py_simp. done.
Qed.

(** Without faults, the run of [process_reviews] (C15 and the
    composition with the bot). *)
Lemma process_reviews_nofault_run (s : mod_state) :
  ms_faults s = [] -> NoDup (map sr_id (statuses (ms_db s))) ->
  fst (process_reviews s) = Ok tt /\ ms_faults (snd (process_reviews s)) = [] /\
  labels (ms_db (snd (process_reviews s))) = labels (ms_db s) /\
  Forall2 (fun row row' => sr_id row' = sr_id row /\
             sr_reviewState row' = if dedupe_closes (ms_db s) row then REVIEW_CLOSED else sr_reviewState row)
    (statuses (ms_db s)) (statuses (ms_db (snd (process_reviews s)))).
Proof.
  intros Hf Hnd.
  assert (Hc : db_connect s = (Ok tt, set_db (ms_db s) [] s)) by (unfold db_connect, db_step; by rewrite Hf).
  destruct (fetch_open_reviews_nofault (set_db (ms_db s) [] s) eq_refl) as (Hok & Hf2 & Hdb2).
  destruct (fetch_open_reviews (set_db (ms_db s) [] s)) as [o s2] eqn:E2; cbn in Hok, Hf2, Hdb2; subst o.
  destruct (process_loop_nofault (map review_of (select_open (ms_db s))) s2 Hf2) as (Hok3 & Hf3 & Hl3 & Hrows3).
  destruct (py_for _ _ _ s2) as [o s3] eqn:E3; cbn in Hok3, Hf3, Hl3, Hrows3; subst o.
  assert (Hrun : process_reviews s = (Ok tt, s3)).
  { unfold process_reviews. apply run_try_ok.
    rewrite (run_bind_ok _ _ _ _ _ Hc), (run_bind_ok _ _ _ _ _ E2). exact E3. }
  rewrite Hrun, Hdb2 in *. cbn. split_and!; [done|done|done|].
  eapply Forall2_impl_in; [exact Hrows3|]. intros row row' Hrow [Hi Hst]. split; [done|].
  rewrite Hst. unfold dedupe_closes. by rewrite existsb_closes_when.
Qed.

(** C15: without database faults, and with [id] a key of the table,
    [process_reviews] returns normally, changes no label, and leaves
    every row with its id and with state [reviewClosed] exactly when
    the row was open, has a truthy id and did, and its did carries
    [LABEL] from [LABELER_DID]; every other row keeps its state. *)
Theorem process_reviews_closes_labelled (s : mod_state) :
  ms_faults s = [] -> NoDup (map sr_id (statuses (ms_db s))) ->
  fst (process_reviews s) = Ok tt /\
  labels (ms_db (snd (process_reviews s))) = labels (ms_db s) /\
  Forall2 (fun row row' => sr_id row' = sr_id row /\
             sr_reviewState row' = if dedupe_closes (ms_db s) row then REVIEW_CLOSED else sr_reviewState row)
    (statuses (ms_db s)) (statuses (ms_db (snd (process_reviews s)))).
Proof.
  intros Hf Hnd. destruct (process_reviews_nofault_run s Hf Hnd) as (Hok & _ & Hl & Hrows). done.
Qed.

(** ** A queue *)

Definition row (id : Z) (did : option string) (st : string) : status_row :=
  StatusRow id did st None None None.

(** Review 1 ([a], labelled), 2 ([b], not labelled), 4 ([c], labelled,
    already closed) and 0 ([d], labelled, but with a falsy id). *)
Definition queue_db : db :=
  DB [row 1 (Some "a") REVIEW_OPEN; row 2 (Some "b") REVIEW_OPEN;
      row 4 (Some "c") REVIEW_CLOSED; row 0 (Some "d") REVIEW_OPEN]
     [LabelRow LABELER_DID "a" "" LABEL false 0; LabelRow LABELER_DID "c" "" LABEL false 0;
      LabelRow LABELER_DID "d" "" LABEL false 0].

Definition queue_state (faults : list bool) : mod_state := ModState queue_db faults 100 (mkNet [] []).

Lemma process_reviews_closes_only_labelled_witness :
  NoDup (map sr_id (statuses (ms_db (queue_state [false; false; true])))) /\
  dedupe_inv (ms_db (queue_state [false; false; true]))
             (ms_db (snd (process_reviews (queue_state [false; false; true])))).
Proof.
  assert (H : NoDup (map sr_id (statuses (ms_db (queue_state [false; false; true])))))
    by (apply (bool_decide_unpack _); vm_compute; reflexivity).
  split; [exact H|]. exact (process_reviews_closes_only_labelled _ H).
Defined.

(** Without faults, review 1 is closed; 2 (no label), 4 (already
    closed) and 0 (falsy id) keep their state. *)
Example dedupe_queue_run :
  map sr_reviewState (statuses (ms_db (snd (process_reviews (queue_state [])))))
  = [REVIEW_CLOSED; REVIEW_OPEN; REVIEW_CLOSED; REVIEW_OPEN].
Proof. vm_compute. reflexivity. Qed.

Lemma process_reviews_closes_labelled_witness :
  ms_faults (queue_state []) = [] /\
  NoDup (map sr_id (statuses (ms_db (queue_state [])))) /\
  fst (process_reviews (queue_state [])) = Ok tt /\
  labels (ms_db (snd (process_reviews (queue_state [])))) = labels (ms_db (queue_state [])) /\
  Forall2 (fun row row' => sr_id row' = sr_id row /\
             sr_reviewState row' = if dedupe_closes (ms_db (queue_state [])) row
                                   then REVIEW_CLOSED else sr_reviewState row)
    (statuses (ms_db (queue_state []))) (statuses (ms_db (snd (process_reviews (queue_state []))))).
Proof.
  assert (H : NoDup (map sr_id (statuses (ms_db (queue_state [])))))
    by (apply (bool_decide_unpack _); vm_compute; reflexivity).
  split; [reflexivity|]. split; [exact H|]. exact (process_reviews_closes_labelled (queue_state []) eq_refl H).
Defined.
