(* ===== verification/Autolabel.v ===== *)
(** src/autolabel.py: label the accounts of open reviews whose handle
    matches a keyword, and close those reviews.  [get_access_token]
    (lines 26-42), [fetch_username_from_did] (85-97),
    [apply_label_to_did] (100-133), [process_reviews] (136-181) and
    [main] (184-195), over the database of [Database] and the server of
    [Http].  Its [fetch_open_reviews] (lines 45-82) is a verbatim copy
    of the one of src/dedupe.py, modelled as written and equal to
    [dedupe.fetch_open_reviews] ([copy_fetch_open_reviews]); the
    guard [not record_id or not did] (line 151) is
    [Database.review_target].  The script's definitions are in
    [Module autolabel].  Besides the safety and functional theorems of
    the script, the file shows that the login is fatal or yields the
    bearer of every later request, that labelling is idempotent, and
    that the labels it writes are the ones [dedupe.label_exists] reads
    back. *)

From stdpp Require Import base list strings.
From Stdlib Require Import ZArith String Ascii.
From S2P Require Import Prelude PyValue Http Session Database Dedupe.

Open Scope Z_scope.

Module autolabel.

Definition ADMIN_USERNAME : string := "foo".
Definition ADMIN_PASSWORD : string := "foo".
Definition LABEL : string := "foo".
Definition LABELER_DID : string := "foo".

(** ** [KEYWORD_PATTERN = re.compile(r"keyword", re.IGNORECASE)] *)

Definition KEYWORD : string := "keyword".

(** ASCII case folding. *)
Definition lower (c : ascii) : ascii :=
  let n := nat_of_ascii c in
  if (65 <=? n)%nat && (n <=? 90)%nat then ascii_of_nat (n + 32) else c.

(** The pattern matches at the start of [s], ignoring case. *)
Fixpoint prefix_ci (p s : string) : bool :=
  match p, s with
  | EmptyString, _ => true
  | String a p', String b s' => Ascii.eqb (lower a) (lower b) && prefix_ci p' s'
  | String _ _, EmptyString => false
  end.

(** [pattern.search(s) is not None]: a match at some position. *)
Fixpoint search_ci (p s : string) : bool :=
  prefix_ci p s || match s with EmptyString => false | String _ s' => search_ci p s' end.

(** [KEYWORD_PATTERN.search(username)] on a value of the JSON body:
    [re] raises [TypeError] on anything but a string. *)
Definition keyword_search (username : json) : outcome bool :=
  match username with
  | JStr u => Ok (search_ci KEYWORD u)
  | _ => Raise TypeError
  end.

(** [username and KEYWORD_PATTERN.search(username)], as a condition. *)
Definition username_matches (username : json) : outcome bool :=
  if truthy username then keyword_search username else Ok false.

(** Lines 45-82, word for word the [fetch_open_reviews] of src/dedupe.py. *)
Definition fetch_open_reviews : M mod_state (list review) :=
  try_except
    (log INFO "Connecting to the PostgreSQL database..." [] ;;
     db_connect ;;
     db_cursor ;;
     results ← exec_select_open ;
     let records := map review_of results in
     log INFO "Fetched open reviews from the database." [JInt (Z.of_nat (List.length records))] ;;
     mret records)
    (fun _ => log ERROR "Failed to fetch open reviews from the database" [] ;; mret []).

Section Autolabel.
Context (srv : request -> reply).

Definition get_access_token (api_url username password : string) : M mod_state json :=
  try_except
    (response ← requests_post srv (api_url +:+ "/com.atproto.server.createSession")
                  [("identifier", JStr username); ("password", JStr password)] ;
     if status_code response =? 200 then
       data ← response_json response ;
       log INFO "Successfully logged into Ozone." [] ;;
       lift (py_get data "accessJwt")
     else
       log ERROR "Failed to log in" [JInt (status_code response)] ;;
       py_exit 1)
    (fun _ => log ERROR "Error during login" [] ;; py_exit 1).

Definition fetch_username_from_did (api_url : string) (access_token : json) (did : string) : M mod_state json :=
  try_except
    (response ← requests_get srv (api_url +:+ "/app.bsky.actor.getProfile") access_token
                  [("actor", JStr did)] ;
     if status_code response =? 200 then
       data ← response_json response ;
       lift (py_get data "handle")
     else
       log ERROR "Failed to fetch username for DID" [JStr did; JInt (status_code response)] ;;
       mret JNull)
    (fun _ => log ERROR "Error fetching username for DID" [JStr did] ;; mret JNull).

(** The statements after [cursor = conn.cursor()] in the try block of
    [apply_label_to_did] (lines 106-129). *)
Definition apply_label_body (did label : string) : M mod_state unit :=
  exec_label_exists LABELER_DID did label ≫= fun (exists_ : bool) =>
  if exists_ then log INFO "Label already exists for DID. Skipping." [JStr label; JStr did]
  else
    resolved_at ← utcnow ;
    exec_insert_label (LabelRow LABELER_DID did "" label false resolved_at) ;;
    log INFO "Label applied to DID." [JStr label; JStr did].

(** [finally: cursor.close()]: closing is local, but reading [cursor]
    when [conn.cursor()] raised is an [UnboundLocalError]. *)
Definition close_cursor (cursor : option unit) : M mod_state unit :=
  match cursor with
  | Some _ => mret tt
  | None => raise UnboundLocalError
  end.

Definition apply_label_to_did (did label : string) : M mod_state unit :=
  try_bind_finally db_cursor
    (fun _ => apply_label_body did label)
    (fun _ => log ERROR "Failed to apply label to DID" [JStr did])
    close_cursor.

(** The body of [for review in reviews] (lines 147-178). *)
Definition process_review (access_token : json) (review : review) : M mod_state unit :=
  match review_target review with
  | None => log WARNING "Skipping review with missing ID or DID" []
  | Some (record_id, did) =>
      username ← fetch_username_from_did API_URL access_token did ;
      lift (username_matches username) ≫= fun (matches : bool) =>
      if matches then
        log DEBUG "Username matches pattern. Applying label and closing review..." [username] ;;
        apply_label_to_did did LABEL ;;
        resolved_at ← utcnow ;
        db_cursor ;;
        exec_close record_id resolved_at ;;
        log INFO "Review for record ID marked as closed." [JInt record_id]
      else
        log DEBUG "Username does not match pattern. Skipping review ID" [username; JInt record_id]
  end.

Definition process_reviews (reviews : list review) (access_token : json) : M mod_state unit :=
  try_except
    (db_connect ;;
     py_for reviews tt (fun _ review => process_review access_token review))
    (fun _ => log ERROR "Error processing reviews" []).

Definition main : M mod_state unit :=
  access_token ← get_access_token API_URL ADMIN_USERNAME ADMIN_PASSWORD ;
  reviews ← fetch_open_reviews ;
  log INFO "Processing open reviews..." [] ;;
  process_reviews reviews access_token ;;
  log INFO "Review processing completed." [].
End Autolabel.

End autolabel.
Import autolabel.

Lemma copy_fetch_open_reviews : autolabel.fetch_open_reviews = dedupe.fetch_open_reviews.
Proof. reflexivity. Qed.

(** ** The handle a did has, and whether it matches *)

Section Handles.
Context (srv : request -> reply) (tok : json).

(** The value [fetch_username_from_did] returns: the [handle] of a 200
    JSON object, [None] otherwise. *)
Definition username_of (did : string) : json :=
  match srv (Get (API_URL +:+ "/app.bsky.actor.getProfile") tok [("actor", JStr did)]) with
  | Reply r =>
      if status_code r =? 200 then
        match body r with
        | Some data => match py_get data "handle" with Ok h => h | _ => JNull end
        | None => JNull
        end
      else JNull
  | Transport => JNull
  end.

(** The review of [did] is closed and labelled. *)
Definition matched (did : string) : bool :=
  match username_matches (username_of did) with Ok b => b | _ => false end.

(** The handle of [did] is [None], falsy, or a string: the condition of
    line 159 does not raise. *)
Definition handle_ok (did : string) : bool :=
  match username_matches (username_of did) with Ok _ => true | _ => false end.

Lemma fetch_username_run did s :
  exists s', fetch_username_from_did srv API_URL tok did s = (Ok (username_of did), s') /\
    ms_db s' = ms_db s /\ ms_faults s' = ms_faults s /\ ms_clock s' = ms_clock s.
Proof.
  destruct s as [d f c n]. unfold fetch_username_from_did, username_of, requests_get, issue.
  destruct (srv _) as [|[st [data|]]]; py_simp; [eauto|..]; destruct (st =? 200); py_simp; eauto.
  destruct data; py_simp; eauto.
Qed.
End Handles.

(** ** Safety: only matching reviews are closed and labelled *)

Section Safety.
Context (srv : request -> reply) (tok : json) (db0 : db).
Hypothesis ids_unique : NoDup (map sr_id (statuses db0)).

(** A row the script may close: open, with a did whose handle matches. *)
Definition al_closable (r0 : status_row) : Prop :=
  sr_reviewState r0 = REVIEW_OPEN /\
  exists did, sr_did r0 = Some did /\ matched srv tok did = true.

(** A label the script may insert: [LABEL] from [LABELER_DID], with an
    empty cid and [neg] false, on the did of a closable row. *)
Definition new_label_ok (l : label_row) : Prop :=
  lb_src l = LABELER_DID /\ lb_val l = LABEL /\ lb_cid l = "" /\ lb_neg l = false /\
  exists r0, r0 ∈ statuses db0 /\ al_closable r0 /\ sr_did r0 = Some (lb_uri l).

Definition autolabel_inv (d : db) : Prop :=
  Forall2 (row_rel al_closable) (statuses db0) (statuses d) /\
  exists extra, labels d = labels db0 ++ extra /\ Forall new_label_ok extra.

Definition AInv (s : mod_state) : Prop := autolabel_inv (ms_db s).

Lemma keeps_AInv {A} (m : M mod_state A) : keeps_db m -> preserves AInv m.
Proof. intros Hk s. unfold AInv. by rewrite Hk. Qed.

Lemma autolabel_inv_init : autolabel_inv db0.
Proof. split; [apply rows_rel_refl|]. exists []. by rewrite app_nil_r. Qed.

(** The did of a closable row of the table. *)
Definition closable_did (did : string) : Prop :=
  exists r0, r0 ∈ statuses db0 /\ al_closable r0 /\ sr_did r0 = Some did.

Lemma exec_insert_label_AInv did ts :
  closable_did did -> preserves AInv (exec_insert_label (LabelRow LABELER_DID did "" LABEL false ts)).
Proof.
  intros Hdid s HI. unfold AInv, exec_insert_label.
  destruct (db_step_cases (fun d => (tt, insert_label (LabelRow LABELER_DID did "" LABEL false ts) d)) s)
    as [H | H]; rewrite H; [done|]. destruct HI as [Hrows (extra & Hl & Hextra)]. split; [done|].
  exists (extra ++ [LabelRow LABELER_DID did "" LABEL false ts]). cbn. rewrite Hl, app_assoc.
  split; [done|]. apply Forall_app. split; [done|]. constructor; [|done]. by split_and!.
Qed.

Lemma apply_label_to_did_AInv did :
  closable_did did -> preserves AInv (apply_label_to_did did LABEL).
Proof.
  intros Hdid. unfold apply_label_to_did.
  apply preserves_try_bind_finally; [apply keeps_AInv; eauto with keepsdb| |
    intros; apply keeps_AInv; eauto with keepsdb|intros [[]|]; apply keeps_AInv; eauto with keepsdb].
  intros _. unfold apply_label_body.
  apply preserves_bind; [apply keeps_AInv; eauto with keepsdb|intros []; [apply keeps_AInv; eauto with keepsdb|]].
  apply preserves_bind; [apply keeps_AInv; eauto with keepsdb|intros ts].
  apply preserves_bind; [by apply exec_insert_label_AInv|intros _]. apply keeps_AInv; eauto with keepsdb.
Qed.

Lemma exec_close_AInv id ts :
  (forall r0, r0 ∈ statuses db0 -> sr_id r0 = id -> al_closable r0) ->
  preserves AInv (exec_close id ts).
Proof.
  intros Hid s [Hrows Hl]. destruct (exec_close_rows al_closable _ id ts s Hid Hrows) as [H1 H2].
  split; [done|]. unfold AInv. by rewrite H2.
Qed.

Lemma process_review_AInv r :
  r ∈ map review_of (select_open db0) -> preserves AInv (process_review srv tok r).
Proof.
  intros Hr. unfold process_review.
  destruct (review_target r) as [[id did]|] eqn:T; [|apply keeps_AInv; eauto with keepsdb].
  apply review_target_some in T as (Hid & Hdid & _).
  apply list_elem_of_fmap in Hr as (rr & -> & Hrr). apply elem_of_select_open in Hrr as [Hrr Hopen].
  intros s HI. destruct (fetch_username_run srv tok did s) as (s1 & Hu & Hdb1 & _).
  rewrite (run_bind_ok _ _ _ _ _ Hu). assert (HI1 : AInv s1) by (unfold AInv; by rewrite Hdb1).
  rewrite run_bind. cbn -[apply_label_to_did log utcnow db_cursor exec_close].
  destruct (username_matches (username_of srv tok did)) as [[]| |] eqn:Hm; cbn -[apply_label_to_did log utcnow db_cursor exec_close]; try done.
  assert (Hcl : al_closable rr) by (split; [done|]; exists did; cbn in Hdid; split; [done|]; unfold matched; by rewrite Hm).
  clear Hu Hdb1. revert s1 HI1. apply preserves_bind; [apply keeps_AInv; eauto with keepsdb|intros _].
  apply preserves_bind; [apply apply_label_to_did_AInv; by exists rr|intros _].
  apply preserves_bind; [apply keeps_AInv; eauto with keepsdb|intros ts].
  apply preserves_bind; [apply keeps_AInv; eauto with keepsdb|intros _].
  apply preserves_bind; [apply exec_close_AInv|intros _; apply keeps_AInv; eauto with keepsdb].
  intros r0 Hr0 Hid0. cbn in Hid.
  assert (r0 = rr) as -> by (apply (NoDup_map_same sr_id (statuses db0)); congruence). done.
Qed.
Lemma process_reviews_AInv reviews :
  (forall r, r ∈ reviews -> r ∈ map review_of (select_open db0)) ->
  preserves AInv (process_reviews srv reviews tok).
Proof.
  intros Hr. unfold process_reviews.
  apply preserves_try; [|intros; apply keeps_AInv; eauto with keepsdb].
  apply preserves_bind; [apply keeps_AInv; eauto with keepsdb|intros _].
  apply preserves_for. intros _ r Hin. by apply process_review_AInv, Hr.
Qed.
End Safety.

Lemma get_access_token_keeps_db srv api_url username password :
  keeps_db (get_access_token srv api_url username password).
Proof. unfold get_access_token. eauto 10 with keepsdb. Qed.

(** C16: whatever database faults occur, when the login returns the
    token [tok], a run of [main] closes only reviews that were open and
    whose did's handle (fetched with [tok]) matches [KEYWORD_PATTERN],
    keeps every row's id and did, and only appends to the [label] table
    rows ([LABELER_DID], did, "", [LABEL], false, time) for dids of such
    reviews.  It relies on [id] being a key of the table. *)
Theorem main_labels_only_matching srv (s : mod_state) tok :
  NoDup (map sr_id (statuses (ms_db s))) ->
  fst (get_access_token srv API_URL ADMIN_USERNAME ADMIN_PASSWORD s) = Ok tok ->
  autolabel_inv srv tok (ms_db s) (ms_db (snd (main srv s))).
Proof.
  intros Hnd Htok. set (db0 := ms_db s). unfold main. rewrite copy_fetch_open_reviews.
  pose proof (get_access_token_keeps_db srv API_URL ADMIN_USERNAME ADMIN_PASSWORD s) as Hdb1.
  rewrite run_bind. destruct (get_access_token _ _ _ _ s) as [o s1]; cbn in Htok, Hdb1; subst o.
  destruct (fetch_open_reviews_triple db0 s1 ltac:(red; rewrite Hdb1; apply dedupe_inv_init) Hdb1) as [_ Hl].
  pose proof (fetch_open_reviews_keeps_db s1) as Hdb2.
  rewrite run_bind. destruct (dedupe.fetch_open_reviews s1) as [[l| |] s2]; cbn in Hl, Hdb2 |- *;
    [|unfold AInv; rewrite Hdb2, Hdb1; apply autolabel_inv_init..].
  specialize (Hl l eq_refl).
  assert (H : preserves (AInv srv tok db0)
                (log INFO "Processing open reviews..." [] ;; process_reviews srv l tok ;;
                 log INFO "Review processing completed." [])).
  { apply preserves_bind; [apply keeps_AInv; eauto with keepsdb|intros _].
    apply preserves_bind; [by apply process_reviews_AInv|intros _]. apply keeps_AInv; eauto with keepsdb. }
  apply (H s2). unfold AInv. rewrite Hdb2, Hdb1. apply autolabel_inv_init.
Qed.

(** ** Failures inside [apply_label_to_did] *)

(** When [conn.cursor()] raises, the except clause logs and the finally
    clause reads the unbound [cursor]: [UnboundLocalError] escapes. *)
Lemma apply_label_to_did_cursor_fault did label s fs :
  ms_faults s = true :: fs ->
  fst (apply_label_to_did did label s) = Raise UnboundLocalError /\
  ms_db (snd (apply_label_to_did did label s)) = ms_db s /\
  ms_faults (snd (apply_label_to_did did label s)) = fs.
Proof.
  destruct s as [d f c n]; cbn; intros ->.
  unfold apply_label_to_did, try_bind_finally, db_cursor, db_step, log. py_simp. done.
Qed.

(** C17: a failing [conn.cursor()] in [apply_label_to_did] abandons the
    whole batch: the [UnboundLocalError] raised by [cursor.close()] in
    the finally clause leaves the loop of [process_reviews], whose
    except clause logs it; no review of the list is closed and no label
    is written, whatever the reviews after the first one are. *)
Theorem process_reviews_cursor_fault srv tok r rs s id did fs :
  review_target r = Some (id, did) -> matched srv tok did = true ->
  ms_faults s = false :: true :: fs ->
  fst (process_reviews srv (r :: rs) tok s) = Ok tt /\
  ms_db (snd (process_reviews srv (r :: rs) tok s)) = ms_db s /\
  ms_faults (snd (process_reviews srv (r :: rs) tok s)) = fs /\
  last (log_of (snd (process_reviews srv (r :: rs) tok s))) = Some (LogEntry ERROR "Error processing reviews" []).
Proof.
  intros Ht Hm Hf. unfold matched in Hm.
  assert (Hc : db_connect s = (Ok tt, set_db (ms_db s) (true :: fs) s)) by (unfold db_connect, db_step; by rewrite Hf).
  set (s1 := set_db (ms_db s) (true :: fs) s) in Hc.
  destruct (fetch_username_run srv tok did s1) as (s2 & Hu & Hdb2 & Hf2 & _).
  destruct (username_matches (username_of srv tok did)) as [[]| |] eqn:Hmt; try done.
  set (s3 := snd (log (S:=mod_state) DEBUG "Username matches pattern. Applying label and closing review..."
                        [username_of srv tok did] s2)).
  destruct (apply_label_to_did_cursor_fault did LABEL s3 fs ltac:(unfold s3; cbn; by rewrite Hf2)) as (Ha & Hdb4 & Hf4).
  destruct (apply_label_to_did did LABEL s3) as [o s4] eqn:E4; cbn in Ha, Hdb4, Hf4; subst o.
  assert (Hrun : py_for (r :: rs) tt (fun _ review => process_review srv tok review) s1 = (Raise UnboundLocalError, s4)).
  { cbn [py_for]. apply run_bind_raise. unfold process_review. rewrite Ht.
    rewrite (run_bind_ok _ _ _ _ _ Hu), Hmt, (run_bind_ok _ _ _ _ _ (run_lift _ _)).
    assert (Hlog : log (S:=mod_state) DEBUG "Username matches pattern. Applying label and closing review..."
                     [username_of srv tok did] s2 = (Ok tt, s3)) by reflexivity.
    rewrite (run_bind_ok _ _ _ _ _ Hlog). exact (run_bind_raise _ _ _ _ _ E4). }
  unfold process_reviews, try_except. rewrite run_bind, Hc. cbn [fst snd]. rewrite Hrun. cbn.
  split_and!; [done|by rewrite Hdb4, Hdb2|done|].
  unfold log_of at 1. cbn. by rewrite last_snoc.
Qed.

(** ** A handle that is not a string *)

(** [KEYWORD_PATTERN.search(username)] raises only [TypeError]. *)
Lemma username_matches_cases u :
  username_matches u = Ok true \/ username_matches u = Ok false \/ username_matches u = Raise TypeError.
Proof.
  unfold username_matches, keyword_search. destruct (truthy u); [|auto].
  destruct u; auto. destruct (search_ci KEYWORD _); auto.
Qed.

(** [conn = psycopg2.connect(...)]: it fails or not, and changes no table. *)
Lemma db_connect_run s :
  exists o s1, db_connect s = (o, s1) /\ ms_db s1 = ms_db s /\ (o = Ok tt \/ o = Raise DatabaseError).
Proof. unfold db_connect, db_step. destruct (ms_faults s) as [|[] rest]; eauto 6. Qed.

(** The first review of a batch, whose handle makes the condition of
    line 159 raise, makes the loop raise before any table changes. *)
Lemma process_loop_type_error srv tok r rs id did s :
  review_target r = Some (id, did) -> handle_ok srv tok did = false ->
  exists s', py_for (r :: rs) tt (fun _ review => process_review srv tok review) s = (Raise TypeError, s') /\
    ms_db s' = ms_db s.
Proof.
  intros Ht Hh. unfold handle_ok in Hh.
  destruct (fetch_username_run srv tok did s) as (s2 & Hu & Hdb2 & _).
  destruct (username_matches_cases (username_of srv tok did)) as [Hm|[Hm|Hm]]; rewrite Hm in Hh; try done.
  exists s2. split; [|done]. cbn [py_for]. apply run_bind_raise. unfold process_review. rewrite Ht.
  rewrite (run_bind_ok _ _ _ _ _ Hu), Hm. reflexivity.
Qed.

(** C37: a handle that is truthy but not a string (a number, a list, an
    object in the profile JSON) makes [KEYWORD_PATTERN.search] raise
    [TypeError]; the exception leaves the loop and is logged by the
    except clause of [process_reviews], so the whole rest of the batch
    is abandoned: no review of the list is closed and no label written,
    whatever the database faults. *)
Theorem process_reviews_handle_type_error srv tok r rs id did s :
  review_target r = Some (id, did) -> handle_ok srv tok did = false ->
  fst (process_reviews srv (r :: rs) tok s) = Ok tt /\
  ms_db (snd (process_reviews srv (r :: rs) tok s)) = ms_db s /\
  last (log_of (snd (process_reviews srv (r :: rs) tok s))) = Some (LogEntry ERROR "Error processing reviews" []).
Proof.
  intros Ht Hh. unfold process_reviews.
  destruct (db_connect_run s) as (o & s1 & Hc & Hdb1 & [-> | ->]).
  - destruct (process_loop_type_error srv tok r rs id did s1 Ht Hh) as (s2 & Hrun & Hdb2).
    rewrite (run_try_catch _ _ _ TypeError s2); [|by rewrite (run_bind_ok _ _ _ _ _ Hc)|done].
    cbn. split_and!; [done|congruence|]. unfold log_of. cbn. by rewrite last_snoc.
  - rewrite (run_try_catch _ _ _ DatabaseError s1); [|by apply run_bind_raise|done].
    cbn. split_and!; [done|done|]. unfold log_of. cbn. by rewrite last_snoc.
Qed.

#[local] Arguments label_present : simpl never.


(** ** Functional behaviour without faults *)

Section NoFaults.
Context (srv : request -> reply) (tok : json).

(** The handle check of review [r] does not raise. *)
Definition review_ok (r : review) : Prop :=
  match review_target r with Some (_, did) => handle_ok srv tok did = true | None => True end.

(** [r] leads to a label on its did. *)
Definition labels_did (r : review) (did : string) : Prop :=
  exists id, review_target r = Some (id, did) /\ matched srv tok did = true.

(** The state of a fault-free run, whose label table extends [L]. *)
Definition NF (L : list label_row) (s : mod_state) : Prop :=
  ms_faults s = [] /\ exists extra, labels (ms_db s) = L ++ extra.

Lemma NF_refl s : ms_faults s = [] -> NF (labels (ms_db s)) s.
Proof. split; [done|]. exists []. by rewrite app_nil_r. Qed.

(** Without faults, [apply_label_to_did] returns normally and leaves
    the label on the did, appending it when it was missing. *)
Lemma apply_label_to_did_nofault did s :
  ms_faults s = [] ->
  exists s', apply_label_to_did did LABEL s = (Ok tt, s') /\ ms_faults s' = [] /\
    statuses (ms_db s') = statuses (ms_db s) /\
    (exists extra, labels (ms_db s') = labels (ms_db s) ++ extra) /\
    label_present (ms_db s') LABELER_DID did LABEL = true.
Proof.
  destruct s as [[rows lbs] f c n]; cbn; intros ->.
  unfold apply_label_to_did, try_bind_finally, apply_label_body, exec_label_exists, exec_insert_label,
    db_cursor, db_step, utcnow, log. py_simp.
  destruct (label_present (DB rows lbs) LABELER_DID did LABEL) eqn:E; py_simp; eexists; (split; [reflexivity|]);
    split_and!; try done.
  - exists []. by rewrite app_nil_r.
  - by eexists.
  - apply (label_present_insert (DB rows lbs)).
Qed.

Lemma al_process_review_nofault L r s :
  review_ok r -> NF L s ->
  fst (process_review srv tok r s) = Ok tt /\ NF L (snd (process_review srv tok r s)) /\
  closed_by (closes_when (matched srv tok) r) (statuses (ms_db s)) (statuses (ms_db (snd (process_review srv tok r s)))) /\
  (forall did, labels_did r did -> label_present (ms_db (snd (process_review srv tok r s))) LABELER_DID did LABEL = true).
Proof.
  intros Hok [Hf (extra & Hl)]. unfold process_review, closes_when, labels_did, review_ok in *.
  destruct (review_target r) as [[id did]|] eqn:T.
  2:{ split_and!; [done|split; [done|by exists extra]|apply closed_by_none|by intros ? (? & ? & _)]. }
  destruct (fetch_username_run srv tok did s) as (s1 & Hu & Hdb1 & Hf1 & _).
  rewrite (run_bind_ok _ _ _ _ _ Hu).
  unfold handle_ok, matched in *.
  destruct (username_matches (username_of srv tok did)) as [[]| |] eqn:Hm; try done;
    rewrite (run_bind_ok _ _ _ _ _ (run_lift _ _)).
  - set (s2 := snd (log (S:=mod_state) DEBUG "Username matches pattern. Applying label and closing review..."
                          [username_of srv tok did] s1)).
    assert (Hlog : log (S:=mod_state) DEBUG "Username matches pattern. Applying label and closing review..."
                     [username_of srv tok did] s1 = (Ok tt, s2)) by reflexivity.
    destruct (apply_label_to_did_nofault did s2 ltac:(unfold s2; cbn; congruence))
      as (s3 & Ha & Hf3 & Hst3 & (e3 & Hl3) & Hp3).
    rewrite (run_bind_ok _ _ _ _ _ Hlog), (run_bind_ok _ _ _ _ _ Ha).
    unfold s2 in Hst3, Hl3; cbn in Hst3, Hl3. rewrite Hdb1 in Hst3, Hl3.
    destruct s3 as [[rows3 lbs3] f3 c3 n3]; cbn in Hf3, Hst3, Hl3, Hp3 |- *. subst f3 rows3.
    unfold exec_close, db_cursor, db_step, utcnow, log. py_simp.
    split_and!; [done| |apply closed_by_close_row|].
    + split; [done|]. exists (extra ++ e3). cbn. by rewrite Hl3, Hl, app_assoc.
    + intros ? (? & [= <- <-] & _). exact Hp3.
  - split_and!; [done|split; [cbn; congruence|cbn; rewrite Hdb1; by exists extra]|cbn; rewrite Hdb1; apply closed_by_none|].
    intros ? (? & [= <- <-] & H). by rewrite Hm in H.
Qed.
Lemma al_process_loop_nofault L l s :
  Forall review_ok l -> NF L s ->
  fst (py_for l tt (fun _ r => process_review srv tok r) s) = Ok tt /\
  NF L (snd (py_for l tt (fun _ r => process_review srv tok r) s)) /\
  closed_by (fun row => existsb (fun r => closes_when (matched srv tok) r row) l)
    (statuses (ms_db s)) (statuses (ms_db (snd (py_for l tt (fun _ r => process_review srv tok r) s)))).
Proof.
  apply py_for_closes. intros r s0 Hr HP.
  destruct (al_process_review_nofault L r s0 Hr HP) as (? & ? & ? & _). done.
Qed.

(** Every did a review of the list leads to a label on carries it at
    the end of the loop. *)
Lemma process_loop_labels L l s :
  Forall review_ok l -> NF L s ->
  forall r did, r ∈ l -> labels_did r did ->
  label_present (ms_db (snd (py_for l tt (fun _ r => process_review srv tok r) s))) LABELER_DID did LABEL = true.
Proof.
  intros Hok. revert s. induction Hok as [|r l Hr Hl IH]; intros s HP r0 did Hin Hd;
    [by apply not_elem_of_nil in Hin|].
  destruct (al_process_review_nofault L r s Hr HP) as (Hok1 & HP1 & _ & Hlab).
  cbn [py_for]. rewrite run_bind. destruct (process_review srv tok r s) as [o s1]; cbn in Hok1, HP1, Hlab |- *.
  subst o. apply elem_of_cons in Hin as [-> | Hin]; [|by apply (IH s1 HP1 r0)].
  destruct (al_process_loop_nofault (labels (ms_db s1)) l s1 Hl (NF_refl s1 (proj1 HP1))) as (_ & [_ (e & He)] & _).
  eapply label_present_extend; [exact He|]. by apply Hlab.
Qed.
End NoFaults.

(** The login touches neither the tables nor the fault schedule. *)
Lemma get_access_token_store srv api_url username password s :
  ms_db (snd (get_access_token srv api_url username password s)) = ms_db s /\
  ms_faults (snd (get_access_token srv api_url username password s)) = ms_faults s.
Proof.
  destruct s as [d f c n]. unfold get_access_token, requests_post, issue, response_json, log.
  destruct (srv _) as [|[st [data|]]]; py_simp; [done|..]; destruct (st =? 200); py_simp; try done.
  destruct data; py_simp; done.
Qed.

Lemma closes_row_labels_did srv tok row did :
  closes_row (matched srv tok) row = true -> sr_did row = Some did -> labels_did srv tok (review_of row) did.
Proof.
  unfold closes_row, labels_did. rewrite andb_true_iff. intros [_ Hm] Hd.
  destruct (review_target (review_of row)) as [[id did']|] eqn:T; [|done].
  pose proof (review_target_some _ _ _ T) as (_ & Hd' & _). cbn in Hd'. rewrite Hd in Hd'. injection Hd' as <-.
  by exists id.
Qed.

(** C19: without database faults, when the login returns [tok], the
    ids of [moderation_subject_status] are a key and no open review's
    handle is a truthy non-string, [main] returns normally; it closes
    exactly the open rows with a truthy id and did whose handle matches
    [KEYWORD_PATTERN], keeps the state of every other row, only appends
    to the [label] table, and every did of a closed row carries [LABEL]
    from [LABELER_DID] afterwards. *)
Theorem main_closes_and_labels srv (s : mod_state) tok :
  ms_faults s = [] -> NoDup (map sr_id (statuses (ms_db s))) ->
  fst (get_access_token srv API_URL ADMIN_USERNAME ADMIN_PASSWORD s) = Ok tok ->
  (forall row, row ∈ select_open (ms_db s) -> review_ok srv tok (review_of row)) ->
  fst (main srv s) = Ok tt /\
  (exists extra, labels (ms_db (snd (main srv s))) = labels (ms_db s) ++ extra) /\
  closed_by (closes_row (matched srv tok)) (statuses (ms_db s)) (statuses (ms_db (snd (main srv s)))) /\
  (forall row did, row ∈ statuses (ms_db s) -> closes_row (matched srv tok) row = true -> sr_did row = Some did ->
     label_present (ms_db (snd (main srv s))) LABELER_DID did LABEL = true).
Proof.
  intros Hf Hnd Htok Hok. set (l := map review_of (select_open (ms_db s))).
  destruct (get_access_token_store srv API_URL ADMIN_USERNAME ADMIN_PASSWORD s) as [Hdb1 Hf1].
  destruct (get_access_token srv _ _ _ s) as [o s1] eqn:E1; cbn in Htok, Hdb1, Hf1; subst o.
  destruct (fetch_open_reviews_nofault s1 ltac:(congruence)) as (Hr2 & Hf2 & Hdb2).
  destruct (dedupe.fetch_open_reviews s1) as [o s2] eqn:E2; cbn in Hr2, Hf2, Hdb2; subst o.
  rewrite Hdb1 in E2, Hdb2. fold l in E2.
  set (s3 := snd (log (S:=mod_state) INFO "Processing open reviews..." [] s2)).
  assert (Hc : db_connect s3 = (Ok tt, set_db (ms_db s) [] s3)) by (unfold db_connect, db_step, s3; cbn; by rewrite Hf2, Hdb2).
  assert (HNF : NF (labels (ms_db s)) (set_db (ms_db s) [] s3)) by (split; [done|exists []; by rewrite app_nil_r]).
  assert (Hl : Forall (review_ok srv tok) l).
  { apply Forall_forall. intros r Hr. apply list_elem_of_fmap in Hr as (row & -> & Hrow). by apply Hok. }
  destruct (al_process_loop_nofault srv tok _ l _ Hl HNF) as (Hok4 & [_ (extra & Hl4)] & Hrows4).
  pose proof (process_loop_labels srv tok _ l _ Hl HNF) as Hlab4.
  destruct (py_for l tt _ (set_db (ms_db s) [] s3)) as [o s4] eqn:E4; cbn in Hok4, Hl4, Hrows4, Hlab4; subst o.
  assert (Hrun : main srv s = log (S:=mod_state) INFO "Review processing completed." [] s4).
  { unfold main. rewrite copy_fetch_open_reviews, (run_bind_ok _ _ _ _ _ E1), (run_bind_ok _ _ _ _ _ E2).
    assert (Hlog : log (S:=mod_state) INFO "Processing open reviews..." [] s2 = (Ok tt, s3)) by reflexivity.
    assert (Hpr : process_reviews srv l tok s3 = (Ok tt, s4)).
    { unfold process_reviews. apply run_try_ok. rewrite (run_bind_ok _ _ _ _ _ Hc). exact E4. }
    by rewrite (run_bind_ok _ _ _ _ _ Hlog), (run_bind_ok _ _ _ _ _ Hpr). }
  rewrite Hrun. cbn. split_and!; [done|by exists extra| |].
  - eapply Forall2_impl_in; [exact Hrows4|]. intros row row' Hrow [Hi Hst]. split; [done|].
    rewrite Hst. unfold l. by rewrite existsb_closes_when.
  - intros row did Hrow Hc' Hd. apply (Hlab4 (review_of row)); [|by apply closes_row_labels_did].
    apply list_elem_of_fmap. exists row. split; [done|]. apply elem_of_select_open.
    split; [done|]. unfold closes_row in Hc'. apply andb_true_iff in Hc' as [Ho _]. by apply bool_decide_eq_true in Ho.
Qed.

(** ** The login and the requests that follow it *)

(** The request of lines 28-31. *)
Definition al_login_request : request :=
  Post (API_URL +:+ "/com.atproto.server.createSession")
       [("identifier", JStr ADMIN_USERNAME); ("password", JStr ADMIN_PASSWORD)].

(** The login returns the [accessJwt] of a 200 JSON object ([None]
    when absent), and exits otherwise; it makes no database round
    trip. *)
Lemma al_get_access_token_run srv s :
  exists s', get_access_token srv API_URL ADMIN_USERNAME ADMIN_PASSWORD s =
    (match login_token (srv al_login_request) with Some tok => Ok tok | None => Raise (SystemExit 1) end, s') /\
    trace_of s' = trace_of s ++ [al_login_request] /\ ms_db s' = ms_db s /\ ms_faults s' = ms_faults s.
Proof.
  destruct s as [d f c n].
  unfold get_access_token, login_token, requests_post, issue, response_json, log. fold al_login_request.
  destruct (srv al_login_request) as [|[st [data|]]]; py_simp; [eauto|..]; destruct (st =? 200); py_simp; eauto;
    destruct data; py_simp; eauto.
Qed.

(** A statement that sends no request. *)
Definition keeps_trace {A} (m : M mod_state A) : Prop := forall s, trace_of (snd (m s)) = trace_of s.

Lemma db_step_trace {A} (f : db -> A * db) : keeps_trace (db_step f).
Proof. intros [d fs c n]. unfold db_step. cbn. destruct fs as [|[] fs]; cbn; [destruct (f d)|done|destruct (f d)]; done. Qed.

Lemma utcnow_trace : keeps_trace utcnow.
Proof. by intros []. Qed.

Lemma log_trace lvl msg args : keeps_trace (log (S:=mod_state) lvl msg args).
Proof. intros s. apply trace_log. Qed.

Section Requests.
Context (srv : request -> reply) (tok : json) (s0 : mod_state).

(** [requests.get(f"{api_url}/app.bsky.actor.getProfile", headers=..., params={"actor": did})]
    with the bearer [tok]. *)
Definition bearer_profile_request (rq : request) : Prop :=
  exists did, rq = Get (API_URL +:+ "/app.bsky.actor.getProfile") tok [("actor", JStr did)].

(** Since [s0], only profile requests with the bearer [tok]. *)
Definition requests_after (s : mod_state) : Prop :=
  exists new, trace_of s = trace_of s0 ++ new /\ Forall bearer_profile_request new.

Lemma keeps_trace_req {A} (m : M mod_state A) : keeps_trace m -> preserves requests_after m.
Proof. intros Hm s (new & Hs & Hn). exists new. by rewrite Hm. Qed.

Lemma db_step_req {A} (f : db -> A * db) : preserves requests_after (db_step f).
Proof. apply keeps_trace_req, db_step_trace. Qed.

Lemma utcnow_req : preserves requests_after utcnow.
Proof. apply keeps_trace_req, utcnow_trace. Qed.

Lemma log_req lvl msg args : preserves requests_after (log lvl msg args).
Proof. apply keeps_trace_req, log_trace. Qed.

#[local] Hint Resolve db_step_req utcnow_req log_req : preserve.

Lemma profile_get_req url params :
  bearer_profile_request (Get url tok params) -> preserves requests_after (requests_get srv url tok params).
Proof.
  intros Hp s (new & Hs & Hn). exists (new ++ [Get url tok params]).
  assert (Hr : snd (requests_get srv url tok params s) = record_request (Get url tok params) s)
    by (unfold requests_get, issue; by destruct (srv _)).
  rewrite Hr, trace_record, Hs, app_assoc. split; [done|]. apply Forall_app. by split; [|constructor].
Qed.

Lemma fetch_username_req did : preserves requests_after (fetch_username_from_did srv API_URL tok did).
Proof.
  unfold fetch_username_from_did, response_json. apply preserves_try; [|eauto with preserve].
  apply preserves_bind; [apply profile_get_req; by exists did|intros r].
  destruct (_ =? 200); eauto with preserve.
Qed.

Lemma apply_label_req did label : preserves requests_after (apply_label_to_did did label).
Proof.
  unfold apply_label_to_did, apply_label_body, exec_label_exists, exec_insert_label, db_cursor.
  apply preserves_try_bind_finally; [eauto with preserve| |eauto with preserve|].
  - intros _. apply preserves_bind; [eauto with preserve|intros []; eauto 6 with preserve].
  - intros [[]|]; eauto with preserve.
Qed.

Lemma process_review_req r : preserves requests_after (process_review srv tok r).
Proof.
  unfold process_review. destruct (review_target r) as [[id did]|]; [|apply log_req].
  apply preserves_bind; [apply fetch_username_req|intros username].
  apply preserves_bind; [apply preserves_lift|intros []]; unfold db_cursor, exec_close;
    eauto 8 using apply_label_req with preserve.
Qed.

Lemma process_reviews_req reviews : preserves requests_after (process_reviews srv reviews tok).
Proof.
  unfold process_reviews, db_connect. apply preserves_try; [|eauto with preserve].
  apply preserves_bind; [eauto with preserve|intros _]. apply preserves_for. intros. apply process_review_req.
Qed.

Lemma fetch_open_reviews_req : preserves requests_after dedupe.fetch_open_reviews.
Proof. unfold dedupe.fetch_open_reviews, db_connect, db_cursor, exec_select_open. eauto 10 with preserve. Qed.
End Requests.

(** C33: a failed login (a transport error, a non-200 status, a body
    that is not a JSON object) is fatal: [main] raises [SystemExit 1]
    after the login request alone, with no database round trip and no
    table changed. *)
Theorem autolabel_login_fatal srv (s : mod_state) :
  login_token (srv al_login_request) = None ->
  fst (main srv s) = Raise (SystemExit 1) /\ trace_of (snd (main srv s)) = trace_of s ++ [al_login_request] /\
  ms_db (snd (main srv s)) = ms_db s /\ ms_faults (snd (main srv s)) = ms_faults s.
Proof.
  intros Hl. destruct (al_get_access_token_run srv s) as (s1 & H1 & Ht & Hdb & Hf). rewrite Hl in H1.
  unfold main. by rewrite (run_bind_raise _ _ _ _ _ H1).
Qed.

(** C34: whatever the database faults, once the login answers with a
    JSON object, [main] sends nothing but profile requests, each with
    the bearer the login returned; when the answer lacks [accessJwt]
    that bearer is [None], and the script goes on regardless. *)
Theorem main_requests_profiles srv (s : mod_state) tok :
  login_token (srv al_login_request) = Some tok ->
  exists new, trace_of (snd (main srv s)) = trace_of s ++ al_login_request :: new /\
    Forall (bearer_profile_request tok) new.
Proof.
  intros Hl. destruct (al_get_access_token_run srv s) as (s1 & H1 & Ht & _ & _). rewrite Hl in H1.
  unfold main. rewrite copy_fetch_open_reviews, (run_bind_ok _ _ _ _ _ H1).
  assert (Hrest : preserves (requests_after tok s1)
    (reviews ← dedupe.fetch_open_reviews ; log INFO "Processing open reviews..." [] ;;
     process_reviews srv reviews tok ;; log INFO "Review processing completed." [])).
  { apply preserves_bind; [apply fetch_open_reviews_req|intros reviews].
    eauto using log_req, process_reviews_req with preserve. }
  destruct (Hrest s1 ltac:(exists []; by rewrite app_nil_r)) as (new & Hs & Hn).
  exists new. rewrite Hs, Ht, <- app_assoc. by split.
Qed.

(** ** Labelling twice *)

(** Without faults, labelling a did that already carries the label
    changes no table: the existence check skips the insert. *)
Lemma apply_label_to_did_present did s :
  ms_faults s = [] -> label_present (ms_db s) LABELER_DID did LABEL = true ->
  fst (apply_label_to_did did LABEL s) = Ok tt /\ ms_db (snd (apply_label_to_did did LABEL s)) = ms_db s.
Proof.
  destruct s as [d f c n]; cbn; intros -> Hp.
  unfold apply_label_to_did, try_bind_finally, apply_label_body, exec_label_exists, db_cursor, db_step, log.
  py_simp. rewrite Hp. by py_simp.
Qed.

(** C32: without database faults, [apply_label_to_did] is idempotent:
    labelling a did a second time leaves the tables as the first time
    left them, so a did is never labelled twice however many of its
    reviews match. *)
Theorem apply_label_idempotent (did : string) (s : mod_state) :
  ms_faults s = [] ->
  fst ((apply_label_to_did did LABEL ;; apply_label_to_did did LABEL) s) = Ok tt /\
  ms_db (snd ((apply_label_to_did did LABEL ;; apply_label_to_did did LABEL) s)) =
    ms_db (snd (apply_label_to_did did LABEL s)).
Proof.
  intros Hf. destruct (apply_label_to_did_nofault did s Hf) as (s1 & H1 & Hf1 & _ & _ & Hp1).
  destruct (apply_label_to_did_present did s1 Hf1 Hp1) as [Hok2 Hdb2].
  rewrite (run_bind_ok _ _ _ _ _ H1), H1. cbn. split; [done|]. exact Hdb2.
Qed.

(** The label autolabel applies is the label dedupe looks for, from the
    same labeler. *)
Lemma labels_agree : autolabel.LABELER_DID = dedupe.LABELER_DID /\ autolabel.LABEL = dedupe.LABEL.
Proof. split; reflexivity. Qed.

(** ** What autolabel writes, dedupe reads *)

(** C31: a label written by autolabel's [apply_label_to_did] is read
    back by dedupe's [label_exists]: without database faults, the query
    for the did answers [True] right after the labelling, whether the
    label was inserted or already there, and the query changes no
    table. *)
Theorem label_roundtrip (did : string) (s : mod_state) :
  ms_faults s = [] ->
  fst ((autolabel.apply_label_to_did did autolabel.LABEL ;; dedupe.label_exists did dedupe.LABEL) s) = Ok true /\
  ms_db (snd ((autolabel.apply_label_to_did did autolabel.LABEL ;; dedupe.label_exists did dedupe.LABEL) s)) =
    ms_db (snd (autolabel.apply_label_to_did did autolabel.LABEL s)).
Proof.
  intros Hf. destruct (apply_label_to_did_nofault did s Hf) as (s1 & H1 & Hf1 & _ & _ & Hp1).
  destruct (label_exists_nofault did dedupe.LABEL s1 Hf1) as (Hq & Hdb & _).
  destruct labels_agree as [Hsrc Hval]. rewrite Hsrc, Hval in Hp1.
  rewrite (run_bind_ok _ _ _ _ _ H1), H1. cbn. rewrite Hq, Hp1. split; [done|exact Hdb].
Qed.

(** ** A queue and a server *)

(** Handles by did; other dids answer 404. *)
Definition handle_server (handles : list (string * json)) : request -> reply :=
  fun rq =>
    match rq with
    | Post _ _ => Reply (Resp 200 (Some (JDict [("accessJwt", JStr "jwt")])))
    | Get _ _ params =>
        match dict_lookup params "actor" with
        | Some (JStr did) =>
            match List.find (fun e => String.eqb e.1 did) handles with
            | Some (_, h) => Reply (Resp 200 (Some (JDict [("handle", h)])))
            | None => Reply (Resp 404 None)
            end
        | _ => Reply (Resp 404 None)
        end
    end.

(** Review 1 ([a], handle "MyKeyWord.bsky.social"), review 2 ([b],
    handle "bob.bsky.social"), review 3 ([c], no profile). *)
Definition al_db : db :=
  DB [row 1 (Some "a") REVIEW_OPEN; row 2 (Some "b") REVIEW_OPEN; row 3 (Some "c") REVIEW_OPEN] [].

Definition al_server : request -> reply :=
  handle_server [("a", JStr "MyKeyWord.bsky.social"); ("b", JStr "bob.bsky.social")].

Definition al_state (faults : list bool) : mod_state := ModState al_db faults 100 (mkNet [] []).

Example autolabel_run :
  let s' := snd (main al_server (al_state [])) in
  map sr_reviewState (statuses (ms_db s')) = [REVIEW_CLOSED; REVIEW_OPEN; REVIEW_OPEN] /\
  map lb_uri (labels (ms_db s')) = ["a"].
Proof. vm_compute. auto. Qed.

Lemma main_labels_only_matching_witness :
  NoDup (map sr_id (statuses (ms_db (al_state [false; false; true; false])))) /\
  fst (get_access_token al_server API_URL ADMIN_USERNAME ADMIN_PASSWORD (al_state [false; false; true; false]))
    = Ok (JStr "jwt") /\
  autolabel_inv al_server (JStr "jwt") (ms_db (al_state [false; false; true; false]))
    (ms_db (snd (main al_server (al_state [false; false; true; false])))).
Proof.
  assert (H1 : NoDup (map sr_id (statuses (ms_db (al_state [false; false; true; false])))))
    by (apply (bool_decide_unpack _); vm_compute; reflexivity).
  assert (H2 : fst (get_access_token al_server API_URL ADMIN_USERNAME ADMIN_PASSWORD (al_state [false; false; true; false]))
               = Ok (JStr "jwt")) by (vm_compute; reflexivity).
  split; [exact H1|]. split; [exact H2|]. exact (main_labels_only_matching al_server _ _ H1 H2).
Defined.

(** The connection goes through, the cursor of [apply_label_to_did]
    fails for review 1: review 4 ([d], handle "keyword") stays open
    although it matches. *)
Definition al_server2 : request -> reply :=
  handle_server [("a", JStr "MyKeyWord.bsky.social"); ("d", JStr "keyword")].

Lemma process_reviews_cursor_fault_witness :
  review_target (review_of (row 1 (Some "a") REVIEW_OPEN)) = Some (1, "a") /\
  matched al_server2 (JStr "jwt") "a" = true /\
  ms_faults (al_state [false; true]) = false :: true :: [] /\
  fst (process_reviews al_server2 [review_of (row 1 (Some "a") REVIEW_OPEN); review_of (row 4 (Some "d") REVIEW_OPEN)]
         (JStr "jwt") (al_state [false; true])) = Ok tt /\
  ms_db (snd (process_reviews al_server2 [review_of (row 1 (Some "a") REVIEW_OPEN); review_of (row 4 (Some "d") REVIEW_OPEN)]
         (JStr "jwt") (al_state [false; true]))) = ms_db (al_state [false; true]) /\
  ms_faults (snd (process_reviews al_server2 [review_of (row 1 (Some "a") REVIEW_OPEN); review_of (row 4 (Some "d") REVIEW_OPEN)]
         (JStr "jwt") (al_state [false; true]))) = [] /\
  last (log_of (snd (process_reviews al_server2 [review_of (row 1 (Some "a") REVIEW_OPEN); review_of (row 4 (Some "d") REVIEW_OPEN)]
         (JStr "jwt") (al_state [false; true])))) = Some (LogEntry ERROR "Error processing reviews" []).
Proof.
  assert (H1 : review_target (review_of (row 1 (Some "a") REVIEW_OPEN)) = Some (1, "a")) by reflexivity.
  assert (H2 : matched al_server2 (JStr "jwt") "a" = true) by (vm_compute; reflexivity).
  assert (H3 : ms_faults (al_state [false; true]) = false :: true :: []) by reflexivity.
  split; [exact H1|]. split; [exact H2|]. split; [exact H3|].
  exact (process_reviews_cursor_fault al_server2 (JStr "jwt") _ _ _ _ _ _ H1 H2 H3).
Defined.


Lemma main_closes_and_labels_witness :
  ms_faults (al_state []) = [] /\
  NoDup (map sr_id (statuses (ms_db (al_state [])))) /\
  fst (get_access_token al_server API_URL ADMIN_USERNAME ADMIN_PASSWORD (al_state [])) = Ok (JStr "jwt") /\
  (forall row, row ∈ select_open (ms_db (al_state [])) -> review_ok al_server (JStr "jwt") (review_of row)) /\
  let s' := snd (main al_server (al_state [])) in
  fst (main al_server (al_state [])) = Ok tt /\
  (exists extra, labels (ms_db s') = labels (ms_db (al_state [])) ++ extra) /\
  closed_by (closes_row (matched al_server (JStr "jwt"))) (statuses (ms_db (al_state []))) (statuses (ms_db s')) /\
  (forall row did, row ∈ statuses (ms_db (al_state [])) -> closes_row (matched al_server (JStr "jwt")) row = true ->
     sr_did row = Some did -> label_present (ms_db s') LABELER_DID did LABEL = true).
Proof.
  assert (H1 : ms_faults (al_state []) = []) by reflexivity.
  assert (H2 : NoDup (map sr_id (statuses (ms_db (al_state []))))) by (apply (bool_decide_unpack _); vm_compute; reflexivity).
  assert (H3 : fst (get_access_token al_server API_URL ADMIN_USERNAME ADMIN_PASSWORD (al_state [])) = Ok (JStr "jwt"))
    by (vm_compute; reflexivity).
  assert (H4 : forall row, row ∈ select_open (ms_db (al_state [])) -> review_ok al_server (JStr "jwt") (review_of row)).
  { apply Forall_forall. vm_compute. repeat constructor. }
  split; [exact H1|]. split; [exact H2|]. split; [exact H3|]. split; [exact H4|].
  exact (main_closes_and_labels al_server (al_state []) (JStr "jwt") H1 H2 H3 H4).
Defined.

Lemma apply_label_idempotent_witness :
  ms_faults (al_state []) = [] /\
  fst ((apply_label_to_did "b" LABEL ;; apply_label_to_did "b" LABEL) (al_state [])) = Ok tt /\
  ms_db (snd ((apply_label_to_did "b" LABEL ;; apply_label_to_did "b" LABEL) (al_state []))) =
    ms_db (snd (apply_label_to_did "b" LABEL (al_state []))).
Proof. split; [reflexivity|]. exact (apply_label_idempotent "b" (al_state []) eq_refl). Defined.

(** A server that refuses every request. *)
Definition al_refusing_server : request -> reply := fun _ => Reply (Resp 401 None).

Lemma autolabel_login_fatal_witness :
  login_token (al_refusing_server al_login_request) = None /\
  fst (main al_refusing_server (al_state [])) = Raise (SystemExit 1) /\
  trace_of (snd (main al_refusing_server (al_state []))) = trace_of (al_state []) ++ [al_login_request] /\
  ms_db (snd (main al_refusing_server (al_state []))) = ms_db (al_state []) /\
  ms_faults (snd (main al_refusing_server (al_state []))) = ms_faults (al_state []).
Proof.
  assert (H : login_token (al_refusing_server al_login_request) = None) by reflexivity.
  split; [exact H|]. exact (autolabel_login_fatal al_refusing_server (al_state []) H).
Defined.

(** A server whose login answer is a JSON object without [accessJwt]
    and which refuses every profile request. *)
Definition al_no_jwt_server : request -> reply :=
  fun rq => match rq with
            | Post _ _ => Reply (Resp 200 (Some (JDict [])))
            | Get _ _ _ => Reply (Resp 401 None)
            end.

Lemma main_requests_profiles_witness :
  login_token (al_no_jwt_server al_login_request) = Some JNull /\
  exists new, trace_of (snd (main al_no_jwt_server (al_state []))) = trace_of (al_state []) ++ al_login_request :: new /\
    Forall (bearer_profile_request JNull) new.
Proof.
  assert (H : login_token (al_no_jwt_server al_login_request) = Some JNull) by reflexivity.
  split; [exact H|]. exact (main_requests_profiles al_no_jwt_server (al_state []) JNull H).
Defined.

Definition empty_queue_state : mod_state := ModState (DB [] []) [] 0 (mkNet [] []).

Lemma label_roundtrip_witness :
  ms_faults empty_queue_state = [] /\
  fst ((autolabel.apply_label_to_did "a" autolabel.LABEL ;; dedupe.label_exists "a" dedupe.LABEL) empty_queue_state)
    = Ok true /\
  ms_db (snd ((autolabel.apply_label_to_did "a" autolabel.LABEL ;; dedupe.label_exists "a" dedupe.LABEL)
                empty_queue_state)) =
    ms_db (snd (autolabel.apply_label_to_did "a" autolabel.LABEL empty_queue_state)).
Proof. split; [reflexivity|]. exact (label_roundtrip "a" empty_queue_state eq_refl). Defined.

(** The handle of "a" is a number; "b" would match. *)
Definition al_server3 : request -> reply :=
  handle_server [("a", JInt 5); ("b", JStr "keyword")].

Lemma process_reviews_handle_type_error_witness :
  review_target (review_of (row 1 (Some "a") REVIEW_OPEN)) = Some (1, "a") /\
  handle_ok al_server3 (JStr "jwt") "a" = false /\
  fst (process_reviews al_server3 [review_of (row 1 (Some "a") REVIEW_OPEN); review_of (row 2 (Some "b") REVIEW_OPEN)]
         (JStr "jwt") (al_state [])) = Ok tt /\
  ms_db (snd (process_reviews al_server3 [review_of (row 1 (Some "a") REVIEW_OPEN); review_of (row 2 (Some "b") REVIEW_OPEN)]
         (JStr "jwt") (al_state []))) = ms_db (al_state []) /\
  last (log_of (snd (process_reviews al_server3 [review_of (row 1 (Some "a") REVIEW_OPEN); review_of (row 2 (Some "b") REVIEW_OPEN)]
         (JStr "jwt") (al_state [])))) = Some (LogEntry ERROR "Error processing reviews" []).
Proof.
  assert (H1 : review_target (review_of (row 1 (Some "a") REVIEW_OPEN)) = Some (1, "a")) by reflexivity.
  assert (H2 : handle_ok al_server3 (JStr "jwt") "a" = false) by (vm_compute; reflexivity).
  split; [exact H1|]. split; [exact H2|].
  exact (process_reviews_handle_type_error al_server3 (JStr "jwt") _ _ _ _ _ H1 H2).
Defined.
