(* ===== verification/Reporter.v ===== *)
(** src/reporter.py: a module-level script over the atproto client.  It
    logs in (lines 7-15), walks the pages of a moderation list with a
    cursor (lines 17-51, fatal on any error, unlike the degraded walk of
    [Fetcher]), and files one report per listed did through the
    labeler proxy (lines 53-83).

    The atproto [Client] is a library: its calls are the inductive
    [xrpc_call], answered by a deterministic service
    [api : xrpc_call -> reply]; a call is recorded in the state whatever
    the answer, and the client raises on a transport error, a non-200
    status or a body that is not JSON.  A response object is modelled by
    its JSON body: [hasattr(response, a)] holds when the member [a] is
    present, and attribute access is member access.  The session the
    client keeps after [login] is internal to the library and not
    modelled.  The script's definitions are in [Module reporter]; the
    theorems show the walk, its failures and divergence, the report
    loop, and that every call the script makes is well typed
    ([call_typed]). *)

From stdpp Require Import base list strings.
From Stdlib Require Import ZArith String.
From S2P Require Import Prelude PyValue Http.

Open Scope Z_scope.

(** ** The atproto client *)

Inductive xrpc_call :=
| Login (identifier password : string)
| GetList (params : list (string * json))
| CreateReport (service_type proxy_did : string) (data : list (string * json)).

Record reporter := Reporter { rep_calls : list xrpc_call; rep_net : net }.

#[export] Instance reporter_runtime : Runtime reporter :=
  {| rt_net := rep_net; rt_set_net n s := Reporter (rep_calls s) n |}.

#[export] Instance reporter_runtime_laws : RuntimeLaws reporter.
Proof. split; by intros ? [] . Qed.

Definition initial_reporter : reporter := Reporter [] (mkNet [] []).

(** The value a call returns, or the exception the client raises. *)
Definition xrpc_value (r : reply) : outcome json :=
  match r with
  | Transport => Raise RequestException
  | Reply r =>
      if status_code r =? 200 then
        match body r with Some j => Ok j | None => Raise JSONDecodeError end
      else Raise RequestException
  end.

(** [hasattr(o, a)] and [o.a] on a response object. *)
Definition hasattr (o : json) (a : string) : bool :=
  match o with JDict kvs => bool_decide (is_Some (dict_lookup kvs a)) | _ => false end.

Definition py_getattr (o : json) (a : string) : outcome json :=
  match o with
  | JDict kvs => match dict_lookup kvs a with Some v => Ok v | None => Raise AttributeError end
  | _ => Raise AttributeError
  end.

Module reporter.

Section Script.
Context (api : xrpc_call -> reply).

Definition xrpc (c : xrpc_call) : M reporter json :=
  fun s => (xrpc_value (api c), Reporter (rep_calls s ++ [c]) (rep_net s)).

(** ** Step 2: the list walk *)

Definition list_uri : string := "at://did:plc:foo".

(** [params = {'list': list_uri}; if cursor: params['cursor'] = cursor] *)
Definition list_params (cursor : json) : list (string * json) :=
  [("list", JStr list_uri)] ++ (if truthy cursor then [("cursor", cursor)] else []).

(** [item.subject.did] *)
Definition item_did (item : json) : outcome json :=
  subject ← py_getattr item "subject" ; py_getattr subject "did".

(** Lines 37-41 on a response: the dids of its members and its cursor. *)
Definition list_page (response : json) : outcome (list json * json) :=
  members ← (if hasattr response "items" then py_getattr response "items" else Ok (JList [])) ;
  cursor ← (if hasattr response "cursor" then py_getattr response "cursor" else Ok JNull) ;
  items ← py_iter members ;
  dids ← map_outcome item_did items ;
  mret (dids, cursor).

(** The [while True] loop, with fuel. *)
Fixpoint fetch_members (fuel : nat) (cursor : json) (did_list : list json) : M reporter (list json) :=
  match fuel with
  | O => out_of_fuel
  | S fuel' =>
      response ← xrpc (GetList (list_params cursor)) ;
      log DEBUG "Raw response:" [response] ;;
      page ← lift (list_page response) ;
      let '(dids, cursor') := page in
      let did_list' := did_list ++ dids in
      log DEBUG "Fetched members. Total so far:"
        [JInt (Z.of_nat (List.length dids)); JInt (Z.of_nat (List.length did_list'))] ;;
      if truthy cursor' then fetch_members fuel' cursor' did_list' else mret did_list'
  end.

(** ** Step 4: the report loop *)

Definition reason_type : string := "com.atproto.moderation.defs#reasonOther".
Definition reason : string := "Right-wing account flagged for moderation.".

(** [models.ComAtprotoModerationCreateReport.Data(...)]: the model
    validates that the did is a string. *)
Definition report_data (did : json) : outcome (list (string * json)) :=
  match did with
  | JStr _ =>
      Ok [("reasonType", JStr reason_type);
          ("subject", JDict [("did", did); ("$type", JStr "com.atproto.admin.defs#repoRef")]);
          ("reason", JStr reason)]
  | _ => Raise TypeError
  end.

Definition report_did (did : json) : M reporter unit :=
  try_except
    (data ← lift (report_data did) ;
     response ← xrpc (CreateReport "atproto_labeler" "did:plc:foo" data) ;
     log INFO "Successfully reported" [did; response])
    (fun _ => log ERROR "Failed to report" [did]).

(** ** The script *)

Definition login_call : xrpc_call := Login "bluesky username" "application password".

(** Step 1 (lines 9-15). *)
Definition login : M reporter unit :=
  log INFO "Logging into Bluesky..." [] ;;
  try_except
    (xrpc login_call ;;
     log INFO "Login successful." [])
    (fun _ => log ERROR "Login failed" [] ;; py_exit 1).

(** Step 2 (lines 22-51). *)
Definition fetch_list (fuel : nat) : M reporter (list json) :=
  log INFO "Fetching members from list" [JStr list_uri] ;;
  try_except
    (did_list ← fetch_members fuel JNull [] ;
     log INFO "Successfully fetched DIDs from the list." [JInt (Z.of_nat (List.length did_list))] ;;
     mret did_list)
    (fun _ => log ERROR "Failed to fetch list data" [] ;; py_exit 1).

(** Step 4 (lines 58-83). *)
Definition report_all (did_list : list json) : M reporter unit :=
  log INFO "Starting the reporting process..." [] ;;
  py_for did_list tt (fun _ did => report_did did) ;;
  log INFO "Reporting process completed." [].

Definition main (fuel : nat) : M reporter unit :=
  login ;;
  did_list ← fetch_list fuel ;
  report_all did_list.
End Script.

End reporter.
Import reporter.

(** ** The served list walk *)

Section Walk.
Context (api : xrpc_call -> reply).

(** What the request for the page at [cursor] yields: the dids of its
    members and the next cursor, or the exception of the client or of
    lines 37-41. *)
Definition list_page_result (cursor : json) : outcome (list json * json) :=
  response ← xrpc_value (api (GetList (list_params cursor))) ; list_page response.

(** [list_walk cursor pages]: from [cursor] on, the service serves the
    pages [pages] (each with the cursor it was requested with), the last
    one without a cursor. *)
Inductive list_walk : json -> list (json * list json) -> Prop :=
| list_walk_end cursor dids cursor' :
    list_page_result cursor = Ok (dids, cursor') -> truthy cursor' = false ->
    list_walk cursor [(cursor, dids)]
| list_walk_more cursor dids cursor' rest :
    list_page_result cursor = Ok (dids, cursor') -> truthy cursor' = true -> list_walk cursor' rest ->
    list_walk cursor ((cursor, dids) :: rest).

(** [list_walk_fails cursor pages]: the pages [pages] are served, then a
    request fails. *)
Inductive list_walk_fails : json -> list (json * list json) -> Prop :=
| list_walk_fail cursor e :
    list_page_result cursor = Raise e -> list_walk_fails cursor []
| list_walk_fail_later cursor dids cursor' rest :
    list_page_result cursor = Ok (dids, cursor') -> truthy cursor' = true -> list_walk_fails cursor' rest ->
    list_walk_fails cursor ((cursor, dids) :: rest).

Definition walk_calls (pages : list (json * list json)) : list xrpc_call :=
  map (fun p => GetList (list_params p.1)) pages.

Definition walk_dids (pages : list (json * list json)) : list json := List.concat (map snd pages).

Definition is_get_list (c : xrpc_call) : Prop := match c with GetList _ => True | _ => False end.

(** The calls the report loop makes: one per did that is a string. *)
Definition report_calls (dids : list json) : list xrpc_call :=
  omap (fun did => match report_data did with
                   | Ok data => Some (CreateReport "atproto_labeler" "did:plc:foo" data)
                   | _ => None
                   end) dids.

Lemma xrpc_value_ok r : expr_ok (xrpc_value r).
Proof. destruct r as [|[st [j|]]]; cbn; [done|..]; by destruct (st =? 200). Qed.

Lemma py_getattr_ok o a : expr_ok (py_getattr o a).
Proof. destruct o; cbn; try done. by destruct (dict_lookup _ _). Qed.

Lemma item_did_ok item : expr_ok (item_did item).
Proof. unfold item_did. eauto using py_getattr_ok with pyexpr. Qed.

Lemma list_page_ok response : expr_ok (list_page response).
Proof.
  unfold list_page.
  apply expr_ok_bind; [destruct (hasattr _ _); [apply py_getattr_ok|done]|intros members].
  apply expr_ok_bind; [destruct (hasattr _ _); [apply py_getattr_ok|done]|intros cursor].
  apply expr_ok_bind; [apply py_iter_ok|intros items].
  eauto using item_did_ok with pyexpr.
Qed.

Lemma page_result_exn cursor e : list_page_result cursor = Raise e -> is_exception e = true.
Proof.
  intros H. assert (Hok : expr_ok (list_page_result cursor)).
  { apply expr_ok_bind; [apply xrpc_value_ok|intros; apply list_page_ok]. }
  by rewrite H in Hok.
Qed.

(** One pass of the loop on a page that is served. *)
Lemma fetch_members_served fuel cursor acc s dids cursor' :
  list_page_result cursor = Ok (dids, cursor') ->
  exists s1, rep_calls s1 = rep_calls s ++ [GetList (list_params cursor)] /\
    fetch_members api (S fuel) cursor acc s =
      if truthy cursor' then fetch_members api fuel cursor' (acc ++ dids) s1 else (Ok (acc ++ dids), s1).
Proof.
  unfold list_page_result. intros Hp.
  destruct (xrpc_value (api (GetList (list_params cursor)))) as [resp| |] eqn:E; cbn in Hp; try done.
  cbn [fetch_members]. rewrite run_bind. unfold xrpc at 1. cbv beta. rewrite E. cbv beta iota.
  rewrite run_bind. cbn [log modify]. cbv beta iota. rewrite Hp.
  unfold log, modify, lift. cbv [mbind M_bind mret M_ret]. cbn -[fetch_members].
  destruct (truthy cursor'); (eexists; split; [|reflexivity]); done.
Qed.
(** A pass of the loop on a page whose request fails. *)
Lemma fetch_members_failed fuel cursor acc s e :
  list_page_result cursor = Raise e ->
  exists s1, rep_calls s1 = rep_calls s ++ [GetList (list_params cursor)] /\
    fetch_members api (S fuel) cursor acc s = (Raise e, s1).
Proof.
  unfold list_page_result. intros Hp.
  cbn [fetch_members]. rewrite run_bind. unfold xrpc at 1. cbv beta.
  destruct (xrpc_value (api (GetList (list_params cursor)))) as [resp| |] eqn:E; cbn in Hp; try done.
  - cbv beta iota. rewrite run_bind. cbn [log modify]. cbv beta iota. rewrite Hp.
    unfold log, modify, lift. cbv [mbind M_bind mret M_ret]. cbn -[fetch_members].
    eexists. split; [|reflexivity]. done.
  - injection Hp as <-. cbn. eexists. split; [|reflexivity]. done.
Qed.

(** The loop refines the walk: on a complete walk within the fuel it
    returns the dids of all pages in order, one request per page. *)
Lemma fetch_members_walk cursor pages :
  list_walk cursor pages ->
  forall fuel acc s, (List.length pages <= fuel)%nat ->
  exists s', fetch_members api fuel cursor acc s = (Ok (acc ++ walk_dids pages), s') /\
    rep_calls s' = rep_calls s ++ walk_calls pages.
Proof.
  induction 1 as [cursor dids cursor' Hp Ht|cursor dids cursor' rest Hp Ht Hw IH];
    intros [|fuel] acc s Hf; cbn in Hf; try lia.
  - destruct (fetch_members_served fuel cursor acc s _ _ Hp) as (s1 & Hc & ->). rewrite Ht.
    exists s1. unfold walk_dids. cbn. rewrite !app_nil_r. split; [done|exact Hc].
  - destruct (fetch_members_served fuel cursor acc s _ _ Hp) as (s1 & Hc & ->). rewrite Ht.
    destruct (IH fuel (acc ++ dids) s1 ltac:(lia)) as (s' & -> & Hc').
    exists s'. unfold walk_dids, walk_calls in *. cbn. rewrite Hc', Hc. split; [by rewrite app_assoc|by rewrite <- app_assoc].
Qed.

(** A walk that fails makes the loop raise an exception after requests
    that are all [getList] calls. *)
Lemma fetch_members_fails cursor pages :
  list_walk_fails cursor pages ->
  forall fuel acc s, (List.length pages < fuel)%nat ->
  exists e s' new, fetch_members api fuel cursor acc s = (Raise e, s') /\ is_exception e = true /\
    rep_calls s' = rep_calls s ++ new /\ Forall is_get_list new.
Proof.
  induction 1 as [cursor e Hp|cursor dids cursor' rest Hp Ht Hw IH];
    intros [|fuel] acc s Hf; cbn in Hf; try lia.
  - destruct (fetch_members_failed fuel cursor acc s e Hp) as (s1 & Hc & ->).
    exists e, s1, [GetList (list_params cursor)]. split_and!; [done|by apply (page_result_exn cursor)|done|].
    by repeat constructor.
  - destruct (fetch_members_served fuel cursor acc s _ _ Hp) as (s1 & Hc & ->). rewrite Ht.
    destruct (IH fuel (acc ++ dids) s1 ltac:(lia)) as (e & s' & new & -> & He & Hc' & Hnew).
    exists e, s', (GetList (list_params cursor) :: new). split_and!; [done|done| |by constructor].
    rewrite Hc', Hc, <- app_assoc. done.
Qed.

(** A service that keeps sending a truthy cursor (here: every cursor of
    a set [X] is served with a next cursor in [X]) makes every fuel run
    out. *)
Lemma fetch_members_diverges (X : json -> Prop) :
  (forall c, X c -> exists dids c', list_page_result c = Ok (dids, c') /\ truthy c' = true /\ X c') ->
  forall fuel cursor acc s, X cursor -> fst (fetch_members api fuel cursor acc s) = OutOfFuel.
Proof.
  intros HX. induction fuel as [|fuel IH]; intros cursor acc s Hc; [done|].
  destruct (HX cursor Hc) as (dids & c' & Hp & Ht & Hc').
  destruct (fetch_members_served fuel cursor acc s _ _ Hp) as (s1 & _ & ->). rewrite Ht. by apply IH.
Qed.

(** One report: a call when the did is a string, and no exception. *)
Lemma report_did_run did s :
  exists s', report_did api did s = (Ok tt, s') /\ rep_calls s' = rep_calls s ++ report_calls [did].
Proof.
  unfold report_did, report_calls. cbn [omap].
  destruct (report_data did) as [data|e|] eqn:Hd.
  - pose proof (xrpc_value_ok (api (CreateReport "atproto_labeler" "did:plc:foo" data))) as Hok.
    unfold try_except. rewrite run_bind, run_lift. cbn [mbind M_bind]. cbv beta iota.
    rewrite run_bind. unfold xrpc at 1. cbv beta.
    destruct (xrpc_value (api _)) as [r|e|] eqn:E; cbn in Hok |- *; try done; [|rewrite Hok];
      (eexists; split; [reflexivity|]); cbn; rewrite ?Hd; reflexivity.
  - assert (He : e = TypeError) by (destruct did; cbn in Hd; congruence). subst e.
    unfold try_except. rewrite run_bind, run_lift. cbn. eexists. split; [reflexivity|]. cbn. by rewrite Hd, app_nil_r.
  - by destruct did.
Qed.
End Walk.

(** ** The script *)

Section Props.
Context (api : xrpc_call -> reply).

(** The login call answers. *)
Definition login_ok : bool := match xrpc_value (api login_call) with Ok _ => true | _ => false end.

Lemma report_calls_cons did dids : report_calls (did :: dids) = report_calls [did] ++ report_calls dids.
Proof. unfold report_calls. cbn. by destruct (report_data did). Qed.

Lemma report_loop_run dids s :
  exists s', py_for dids tt (fun _ did => report_did api did) s = (Ok tt, s') /\
    rep_calls s' = rep_calls s ++ report_calls dids.
Proof.
  revert s. induction dids as [|did dids IH]; intros s.
  { exists s. split; [done|]. by rewrite app_nil_r. }
  destruct (report_did_run api did s) as (s1 & H1 & Hc1). destruct (IH s1) as (s2 & H2 & Hc2).
  exists s2. cbn [py_for]. rewrite (run_bind_ok _ _ _ _ _ H1). split; [done|].
  rewrite Hc2, Hc1, (report_calls_cons did dids). by rewrite app_assoc.
Qed.

Lemma login_run s :
  exists s', login api s = (if login_ok then Ok tt else Raise (SystemExit 1), s') /\
    rep_calls s' = rep_calls s ++ [login_call].
Proof.
  pose proof (xrpc_value_ok (api login_call)) as Hok. unfold login, login_ok, try_except.
  rewrite run_bind. cbn [log modify]. cbv beta iota.
  rewrite run_bind. unfold xrpc at 1. cbv beta.
  destruct (xrpc_value (api login_call)) as [j|e|] eqn:E; cbn in Hok |- *; try done; [|rewrite Hok];
    (eexists; split; [reflexivity|]); cbn; reflexivity.
Qed.

Lemma fetch_list_walk fuel pages s :
  list_walk api JNull pages -> (List.length pages <= fuel)%nat ->
  exists s', fetch_list api fuel s = (Ok (walk_dids pages), s') /\ rep_calls s' = rep_calls s ++ walk_calls pages.
Proof.
  intros Hw Hf. unfold fetch_list. rewrite run_bind. cbn [log modify]. cbv beta iota.
  set (s1 := rt_set_net _ s).
  destruct (fetch_members_walk api JNull pages Hw fuel [] s1 Hf) as (s2 & Hrun & Hc).
  eexists. split.
  - apply run_try_ok. rewrite (run_bind_ok _ _ _ _ _ Hrun). reflexivity.
  - cbn. exact Hc.
Qed.
Lemma fetch_list_fails fuel pages s :
  list_walk_fails api JNull pages -> (List.length pages < fuel)%nat ->
  exists s' new, fetch_list api fuel s = (Raise (SystemExit 1), s') /\
    rep_calls s' = rep_calls s ++ new /\ Forall is_get_list new.
Proof.
  intros Hw Hf. unfold fetch_list. rewrite run_bind. cbn [log modify]. cbv beta iota.
  set (s1 := rt_set_net _ s).
  destruct (fetch_members_fails api JNull pages Hw fuel [] s1 Hf) as (e & s2 & new & Hrun & He & Hc & Hnew).
  unfold try_except. rewrite (run_bind_raise _ _ _ _ _ Hrun), He. cbn.
  exists (rt_set_net (mkNet (trace_of s2) (log_of s2 ++ [LogEntry ERROR "Failed to fetch list data" []])) s2), new.
  split_and!; [reflexivity| |done]. cbn. exact Hc.
Qed.

Lemma fetch_list_diverges (X : json -> Prop) fuel s :
  (forall c, X c -> exists dids c', list_page_result api c = Ok (dids, c') /\ truthy c' = true /\ X c') ->
  X JNull -> fst (fetch_list api fuel s) = OutOfFuel.
Proof.
  intros HX H0. unfold fetch_list. rewrite run_bind. cbn [log modify]. cbv beta iota.
  set (s1 := rt_set_net _ s).
  pose proof (fetch_members_diverges api X HX fuel JNull [] s1 H0) as Hd.
  unfold try_except. rewrite run_bind. destruct (fetch_members api fuel JNull [] s1) as [[] s2]; cbn in Hd |- *;
    congruence.
Qed.

Lemma report_all_run dids s :
  exists s', report_all api dids s = (Ok tt, s') /\ rep_calls s' = rep_calls s ++ report_calls dids.
Proof.
  unfold report_all. rewrite run_bind. cbn [log modify]. cbv beta iota.
  rewrite run_bind.
  match goal with |- context [py_for dids tt _ ?s0] =>
    destruct (report_loop_run dids s0) as (s1 & H1 & Hc1) end.
  rewrite H1. cbn. eexists. split; [reflexivity|]. cbn. exact Hc1.
Qed.
End Props.

Section Theorems.
Context (api : xrpc_call -> reply).

(** C20: when the login answers and the list is served as a complete
    walk within the fuel, the script returns normally after exactly the
    login, one [getList] request per page (in order, each with the
    cursor of the previous page), and one [createReport] call per did of
    the pages that is a string, in list order (a did listed twice is
    reported twice). *)
Theorem reporter_main_walk fuel pages s :
  login_ok api = true -> list_walk api JNull pages -> (List.length pages <= fuel)%nat ->
  fst (main api fuel s) = Ok tt /\
  rep_calls (snd (main api fuel s)) = rep_calls s ++ [login_call] ++ walk_calls pages ++ report_calls (walk_dids pages).
Proof.
  intros Hl Hw Hf. unfold main.
  destruct (login_run api s) as (s1 & H1 & Hc1). rewrite Hl in H1.
  destruct (fetch_list_walk api fuel pages s1 Hw Hf) as (s2 & H2 & Hc2).
  destruct (report_all_run api (walk_dids pages) s2) as (s3 & H3 & Hc3).
  rewrite (run_bind_ok _ _ _ _ _ H1), (run_bind_ok _ _ _ _ _ H2), H3. cbn.
  split; [done|]. rewrite Hc3, Hc2, Hc1, <- !app_assoc. reflexivity.
Qed.

(** C21: a failing page request (or a malformed page) is fatal: the
    script raises [SystemExit 1] after the login and [getList] requests
    only, and files no report at all. *)
Theorem reporter_list_failure_fatal fuel pages s :
  login_ok api = true -> list_walk_fails api JNull pages -> (List.length pages < fuel)%nat ->
  fst (main api fuel s) = Raise (SystemExit 1) /\
  exists new, rep_calls (snd (main api fuel s)) = rep_calls s ++ login_call :: new /\ Forall is_get_list new.
Proof.
  intros Hl Hw Hf. unfold main.
  destruct (login_run api s) as (s1 & H1 & Hc1). rewrite Hl in H1.
  destruct (fetch_list_fails api fuel pages s1 Hw Hf) as (s2 & new & H2 & Hc2 & Hnew).
  rewrite (run_bind_ok _ _ _ _ _ H1), (run_bind_raise _ _ _ _ _ H2). cbn.
  split; [done|]. exists new. split; [|done]. by rewrite Hc2, Hc1, <- app_assoc.
Qed.

(** C22: the report loop never raises and files exactly one report per
    did of the list that is a string, in order, whatever the labeler
    answers: a failed report is logged and the loop goes on. *)
Theorem report_all_reports_each dids s :
  fst (report_all api dids s) = Ok tt /\
  rep_calls (snd (report_all api dids s)) = rep_calls s ++ report_calls dids.
Proof. destruct (report_all_run api dids s) as (s' & -> & Hc). done. Qed.

(** C23: a failed login is fatal: [SystemExit 1] after the login call
    and nothing else. *)
Theorem reporter_login_fatal fuel s :
  login_ok api = false ->
  fst (main api fuel s) = Raise (SystemExit 1) /\ rep_calls (snd (main api fuel s)) = rep_calls s ++ [login_call].
Proof.
  intros Hl. unfold main. destruct (login_run api s) as (s1 & H1 & Hc1). rewrite Hl in H1.
  rewrite (run_bind_raise _ _ _ _ _ H1). done.
Qed.

(** C24: the list walk has no page bound: a service that keeps sending
    a truthy cursor (every cursor of a set [X] containing the first
    request's is answered with a next cursor in [X]) makes the script
    run out of any fuel, before any report. *)
Theorem reporter_main_diverges (X : json -> Prop) fuel s :
  login_ok api = true ->
  (forall c, X c -> exists dids c', list_page_result api c = Ok (dids, c') /\ truthy c' = true /\ X c') ->
  X JNull ->
  fst (main api fuel s) = OutOfFuel.
Proof.
  intros Hl HX H0. unfold main. destruct (login_run api s) as (s1 & H1 & _). rewrite Hl in H1.
  rewrite (run_bind_ok _ _ _ _ _ H1), run_bind.
  pose proof (fetch_list_diverges api X fuel s1 HX H0) as Hd.
  destruct (fetch_list api fuel s1) as [[] s2]; cbn in Hd |- *; congruence.
Qed.
End Theorems.

(** ** The calls the script sends are well formed

    The atproto client validates the models it sends: a report's
    subject is a [RepoRef] whose did is a string.  [call_ok api c] is
    the shape each call must have, written from the literals of the
    source, not from the model's helpers: the login with the script's
    credentials; a [getList] for [list_uri] whose cursor, when present,
    is truthy and was returned by the service for some page; a
    [createReport] through the labeler proxy whose subject is a
    [RepoRef] with a string did that the service listed on some page,
    with the script's reason. *)
Definition listed (api : xrpc_call -> reply) (j : json) : Prop :=
  exists cursor dids c', list_page_result api cursor = Ok (dids, c') /\ j ∈ dids.

Definition next_cursor (api : xrpc_call -> reply) (c : json) : Prop :=
  exists cursor dids, list_page_result api cursor = Ok (dids, c).

Definition call_ok (api : xrpc_call -> reply) (c : xrpc_call) : Prop :=
  match c with
  | Login ident pw => ident = "bluesky username" /\ pw = "application password"
  | GetList params =>
      dict_lookup params "list" = Some (JStr "at://did:plc:foo") /\
      match dict_lookup params "cursor" with
      | None => True
      | Some cur => truthy cur = true /\ next_cursor api cur
      end
  | CreateReport st pd data =>
      st = "atproto_labeler" /\ pd = "did:plc:foo" /\
      exists d : string, listed api (JStr d) /\
        data = [("reasonType", JStr "com.atproto.moderation.defs#reasonOther");
                ("subject", JDict [("did", JStr d); ("$type", JStr "com.atproto.admin.defs#repoRef")]);
                ("reason", JStr "Right-wing account flagged for moderation.")]
  end.

Section Typing.
Context (api : xrpc_call -> reply) (s0 : reporter).

(** Since [s0], only well-formed calls. *)
Definition typed_after (s : reporter) : Prop :=
  exists new, rep_calls s = rep_calls s0 ++ new /\ Forall (call_ok api) new.

Lemma typed_after_app s s' cs :
  typed_after s -> rep_calls s' = rep_calls s ++ cs -> Forall (call_ok api) cs -> typed_after s'.
Proof.
  intros (new & Hs & Hn) Hs' Hcs. exists (new ++ cs).
  rewrite Hs', Hs, app_assoc. split; [done|]. by apply Forall_app.
Qed.

Lemma list_page_result_ok cursor : expr_ok (list_page_result api cursor).
Proof. apply expr_ok_bind; [apply xrpc_value_ok|intros; apply list_page_ok]. Qed.

Lemma list_params_ok cursor :
  cursor = JNull \/ next_cursor api cursor -> call_ok api (GetList (list_params cursor)).
Proof.
  unfold list_params. intros Hc. destruct (truthy cursor) eqn:Ht; cbn; [|done].
  split; [done|]. destruct Hc as [->|Hc]; [done|by split].
Qed.

(** The walk requests well-formed pages and returns listed dids only. *)
Lemma fetch_members_ok fuel : forall cursor acc s,
  cursor = JNull \/ next_cursor api cursor -> Forall (listed api) acc -> typed_after s ->
  typed_after (snd (fetch_members api fuel cursor acc s)) /\
  forall r, fst (fetch_members api fuel cursor acc s) = Ok r -> Forall (listed api) r.
Proof.
  induction fuel as [|fuel IH]; intros cursor acc s Hc Hacc Hs; [done|].
  assert (Hcall : Forall (call_ok api) [GetList (list_params cursor)]) by (constructor; [by apply list_params_ok|done]).
  pose proof (list_page_result_ok cursor) as Hok.
  destruct (list_page_result api cursor) as [[dids c']|e|] eqn:E; [| |done].
  - destruct (fetch_members_served api fuel cursor acc s dids c' E) as (s1 & Hc1 & ->).
    assert (Hs1 : typed_after s1) by exact (typed_after_app s s1 _ Hs Hc1 Hcall).
    assert (Hl : Forall (listed api) (acc ++ dids)).
    { apply Forall_app. split; [done|]. apply Forall_forall. intros j Hj. by exists cursor, dids, c'. }
    destruct (truthy c'); [apply IH; [right; by exists cursor, dids|done|done]|].
    split; [done|]. by intros r [= <-].
  - destruct (fetch_members_failed api fuel cursor acc s e E) as (s1 & Hc1 & ->).
    split; [exact (typed_after_app s s1 _ Hs Hc1 Hcall)|done].
Qed.

Lemma fetch_list_ok fuel s :
  typed_after s ->
  typed_after (snd (fetch_list api fuel s)) /\
  forall r, fst (fetch_list api fuel s) = Ok r -> Forall (listed api) r.
Proof.
  intros Hs. unfold fetch_list. rewrite run_bind. cbn [log modify]. cbv beta iota.
  set (s1 := rt_set_net _ s).
  destruct (fetch_members_ok fuel JNull [] s1 (or_introl eq_refl) (Forall_nil_2 _) Hs) as [Hs2 Hr2].
  unfold try_except. rewrite run_bind.
  destruct (fetch_members api fuel JNull [] s1) as [[r|e|] s2]; cbn in Hs2, Hr2 |- *.
  - split; [done|]. intros ? [= <-]. by apply Hr2.
  - by destruct (is_exception e).
  - done.
Qed.

Lemma report_calls_ok dids : Forall (listed api) dids -> Forall (call_ok api) (report_calls dids).
Proof.
  induction 1 as [|did dids Hd _ IH]; [constructor|]. rewrite report_calls_cons.
  apply Forall_app. split; [|done]. unfold report_calls. cbn [omap].
  destruct did as [| | |d| |]; cbn; repeat constructor. by exists d.
Qed.

Lemma main_ok fuel : typed_after s0 -> typed_after (snd (main api fuel s0)).
Proof.
  intros H0. unfold main. destruct (login_run api s0) as (s1 & H1 & Hc1).
  assert (Hs1 : typed_after s1) by (apply (typed_after_app s0 s1 _ H0 Hc1); by repeat constructor).
  rewrite run_bind, H1. destruct (login_ok api); cbn; [|done].
  destruct (fetch_list_ok fuel s1 Hs1) as [Hs2 Hr2].
  rewrite run_bind. destruct (fetch_list api fuel s1) as [[r| |] s2]; cbn in Hs2, Hr2 |- *; [|done..].
  destruct (report_all_run api r s2) as (s3 & -> & Hc3).
  exact (typed_after_app s2 s3 _ Hs2 Hc3 (report_calls_ok r (Hr2 r eq_refl))).
Qed.
End Typing.

(** C29: whatever the service answers and whatever the fuel, every call
    the script makes is well formed in the sense of [call_ok]: the
    login with the script's credentials, [getList] requests for
    [list_uri] that carry only a truthy cursor the service returned,
    and [createReport] calls through the labeler proxy, with the
    script's reason, whose subject is a [RepoRef] with a string did the
    service listed; a member whose did is not a string is never sent. *)
Theorem reporter_calls_typed (api : xrpc_call -> reply) fuel s :
  exists new, rep_calls (snd (main api fuel s)) = rep_calls s ++ new /\ Forall (call_ok api) new.
Proof. apply (main_ok api s fuel). exists []. by rewrite app_nil_r. Qed.

(** ** A list service *)

(** Pages keyed by the cursor they are requested with (the first by
    ""); a page lists its dids and its next cursor. *)
Definition list_api (pages : list (string * (list string * option string))) : xrpc_call -> reply :=
  fun c =>
    match c with
    | Login _ _ => Reply (Resp 200 (Some (JDict [("accessJwt", JStr "jwt")])))
    | GetList params =>
        let key := match dict_lookup params "cursor" with Some (JStr k) => k | _ => "" end in
        match List.find (fun e => String.eqb e.1 key) pages with
        | Some (_, (dids, next)) =>
            Reply (Resp 200 (Some (JDict
              ([("items", JList (map (fun d => JDict [("subject", JDict [("did", JStr d)])]) dids))] ++
               match next with Some n => [("cursor", JStr n)] | None => [] end))))
        | None => Reply (Resp 500 None)
        end
    | CreateReport _ _ _ => Reply (Resp 200 (Some (JDict [])))
    end.

(** Two pages, "a" on both. *)
Definition two_pages : xrpc_call -> reply :=
  list_api [("", (["a"; "b"], Some "p2")); ("p2", (["c"; "a"], None))].

Example reporter_two_pages :
  map (fun c => match c with CreateReport _ _ data => dict_lookup data "subject" | _ => None end)
      (rep_calls (snd (main two_pages 10 initial_reporter)))
  = [None; None; None;
     Some (JDict [("did", JStr "a"); ("$type", JStr "com.atproto.admin.defs#repoRef")]);
     Some (JDict [("did", JStr "b"); ("$type", JStr "com.atproto.admin.defs#repoRef")]);
     Some (JDict [("did", JStr "c"); ("$type", JStr "com.atproto.admin.defs#repoRef")]);
     Some (JDict [("did", JStr "a"); ("$type", JStr "com.atproto.admin.defs#repoRef")])].
Proof. vm_compute. reflexivity. Qed.

Definition two_pages_walk : list (json * list json) :=
  [(JNull, [JStr "a"; JStr "b"]); (JStr "p2", [JStr "c"; JStr "a"])].

Lemma reporter_main_walk_witness :
  login_ok two_pages = true /\ list_walk two_pages JNull two_pages_walk /\
  (List.length two_pages_walk <= 10)%nat /\
  fst (main two_pages 10 initial_reporter) = Ok tt /\
  rep_calls (snd (main two_pages 10 initial_reporter)) =
    rep_calls initial_reporter ++ [login_call] ++ walk_calls two_pages_walk ++
    report_calls (walk_dids two_pages_walk).
Proof.
  assert (H1 : login_ok two_pages = true) by reflexivity.
  assert (H2 : list_walk two_pages JNull two_pages_walk).
  { eapply list_walk_more; [vm_compute; reflexivity|reflexivity|].
    eapply list_walk_end; [vm_compute; reflexivity|reflexivity]. }
  assert (H3 : (List.length two_pages_walk <= 10)%nat) by (cbn; lia).
  split; [exact H1|]. split; [exact H2|]. split; [exact H3|].
  exact (reporter_main_walk two_pages 10 two_pages_walk initial_reporter H1 H2 H3).
Defined.

(** The second page answers 500. *)
Definition broken_pages : xrpc_call -> reply := list_api [("", (["a"; "b"], Some "p2"))].

Lemma reporter_list_failure_fatal_witness :
  login_ok broken_pages = true /\ list_walk_fails broken_pages JNull [(JNull, [JStr "a"; JStr "b"])] /\
  (List.length [(JNull, [JStr "a"; JStr "b"])] < 10)%nat /\
  fst (main broken_pages 10 initial_reporter) = Raise (SystemExit 1) /\
  exists new, rep_calls (snd (main broken_pages 10 initial_reporter)) = rep_calls initial_reporter ++ login_call :: new /\
    Forall is_get_list new.
Proof.
  assert (H1 : login_ok broken_pages = true) by reflexivity.
  assert (H2 : list_walk_fails broken_pages JNull [(JNull, [JStr "a"; JStr "b"])]).
  { eapply list_walk_fail_later; [vm_compute; reflexivity|reflexivity|].
    eapply list_walk_fail. vm_compute. reflexivity. }
  assert (H3 : (List.length [(JNull, [JStr "a"; JStr "b"])] < 10)%nat) by (cbn; lia).
  split; [exact H1|]. split; [exact H2|]. split; [exact H3|].
  exact (reporter_list_failure_fatal broken_pages 10 _ initial_reporter H1 H2 H3).
Defined.

(** The login answers 401. *)
Definition refusing_api : xrpc_call -> reply := fun _ => Reply (Resp 401 None).

Lemma reporter_login_fatal_witness :
  login_ok refusing_api = false /\
  fst (main refusing_api 10 initial_reporter) = Raise (SystemExit 1) /\
  rep_calls (snd (main refusing_api 10 initial_reporter)) = rep_calls initial_reporter ++ [login_call].
Proof.
  assert (H1 : login_ok refusing_api = false) by reflexivity.
  split; [exact H1|]. exact (reporter_login_fatal refusing_api 10 initial_reporter H1).
Defined.

(** The page at cursor "p" sends cursor "p" again. *)
Definition cycling_pages : xrpc_call -> reply := list_api [("", (["a"], Some "p")); ("p", (["b"], Some "p"))].

Lemma reporter_main_diverges_witness :
  login_ok cycling_pages = true /\
  (forall c, (c = JNull \/ c = JStr "p") ->
     exists dids c', list_page_result cycling_pages c = Ok (dids, c') /\ truthy c' = true /\ (c' = JNull \/ c' = JStr "p")) /\
  (JNull = JNull \/ JNull = JStr "p") /\
  fst (main cycling_pages 10 initial_reporter) = OutOfFuel.
Proof.
  assert (H1 : login_ok cycling_pages = true) by reflexivity.
  assert (H2 : forall c, (c = JNull \/ c = JStr "p") ->
     exists dids c', list_page_result cycling_pages c = Ok (dids, c') /\ truthy c' = true /\ (c' = JNull \/ c' = JStr "p")).
  { intros c [-> | ->].
    - do 2 eexists. split; [vm_compute; reflexivity|split; [reflexivity|by right]].
    - do 2 eexists. split; [vm_compute; reflexivity|split; [reflexivity|by right]]. }
  assert (H3 : JNull = JNull \/ JNull = JStr "p") by (left; reflexivity).
  split; [exact H1|]. split; [exact H2|]. split; [exact H3|].
  exact (reporter_main_diverges cycling_pages (fun c => c = JNull \/ c = JStr "p") 10 initial_reporter H1 H2 H3).
Defined.
