(* ===== verification/ReportBot.v ===== *)
(** src/reportbot.py: a Discord bot that relays the open reviews of the
    moderation queue.  Its own [fetch_open_reviews] (lines 25-67, which
    differs from the one of the queue scripts: an early return on an
    empty result and a default comment), [send_report_to_discord]
    (70-87), the periodic task [check_new_reviews] (90-95) and
    [on_ready] (98-102).

    The discord.py client is a library: the state [bot] holds the
    database side ([mod_state] of [Database]), whether
    [client.get_channel] finds the channel, a fault schedule for
    [channel.send] ([true] makes it raise) and the embeds the channel
    received.  [tasks.loop(seconds=60)] runs [check_new_reviews] once a
    minute for as long as the bot runs; [run_ticks n] is its first [n]
    runs.  [client.run] (the connection to Discord, lines 105-109) is
    not modelled.  The script's definitions are in [Module reportbot];
    the last theorem composes the bot with src/dedupe.py on one
    queue. *)

From stdpp Require Import base list strings.
From Stdlib Require Import ZArith String.
From S2P Require Import Prelude PyValue Http Database Dedupe.

Open Scope Z_scope.

Module reportbot.

(** The record [fetch_open_reviews] builds for a row (lines 53-59). *)
Record report := Report {
  rp_id : Z;
  rp_did : option string;
  rp_reviewState : string;
  rp_comment : string
}.

(** [comment or "No comment provided"] *)
Definition comment_or_default (c : option string) : string :=
  match c with
  | Some c => if String.eqb c "" then "No comment provided" else c
  | None => "No comment provided"
  end.

Definition report_of (r : status_row) : report :=
  Report (sr_id r) (sr_did r) (sr_reviewState r) (comment_or_default (sr_comment r)).

(** [discord.Embed(title=..., description=f"**DID**: {did}\n**Comment**: {comment}")]
    with its footer [Review ID: {id}]. *)
Record embed := Embed {
  em_title : string;
  em_did : option string;
  em_comment : string;
  em_footer_id : Z
}.

Record bot := Bot {
  bot_ms : mod_state;
  bot_channel : bool;
  bot_send_faults : list bool;
  bot_sent : list embed
}.

#[export] Instance bot_runtime : Runtime bot :=
  {| rt_net b := ms_net (bot_ms b);
     rt_set_net n b := Bot (rt_set_net n (bot_ms b)) (bot_channel b) (bot_send_faults b) (bot_sent b) |}.

#[export] Instance bot_runtime_laws : RuntimeLaws bot.
Proof. split; by intros ? [[]] . Qed.

Definition on_db {A} (m : M mod_state A) : M bot A :=
  zoom bot_ms (fun ms b => Bot ms (bot_channel b) (bot_send_faults b) (bot_sent b)) m.

Definition fetch_open_reviews : M mod_state (list report) :=
  try_except
    (log INFO "Connecting to the PostgreSQL database..." [] ;;
     db_connect ;;
     db_cursor ;;
     results ← exec_select_open ;
     if bool_decide (results = []) then
       log INFO "No open reviews found." [] ;;
       mret []
     else
       let records := map report_of results in
       log INFO "Fetched open reviews from the database." [JInt (Z.of_nat (List.length records))] ;;
       mret records)
    (fun _ => log ERROR "Failed to fetch open reviews from the database" [] ;; mret []).

(** [await channel.send(embed=embed)]: one entry of the fault schedule. *)
Definition channel_send (e : embed) : M bot unit :=
  fun b =>
    match bot_send_faults b with
    | true :: rest => (Raise RequestException, Bot (bot_ms b) (bot_channel b) rest (bot_sent b))
    | false :: rest => (Ok tt, Bot (bot_ms b) (bot_channel b) rest (bot_sent b ++ [e]))
    | [] => (Ok tt, Bot (bot_ms b) (bot_channel b) [] (bot_sent b ++ [e]))
    end.

Definition embed_of (r : report) : embed := Embed "New Ozone Review" (rp_did r) (rp_comment r) (rp_id r).

Definition send_report_to_discord (r : report) : M bot unit :=
  channel ← gets bot_channel ;
  if negb channel then log ERROR "Discord channel not found!" []
  else
    try_except
      (channel_send (embed_of r) ;;
       log INFO "Sent review to Discord." [JInt (rp_id r)])
      (fun _ => log ERROR "Failed to send review to Discord" [JInt (rp_id r)]).

Definition check_new_reviews : M bot unit :=
  new_reviews ← on_db fetch_open_reviews ;
  py_for new_reviews tt (fun _ review => send_report_to_discord review).

(** The first [n] runs of the periodic task. *)
Fixpoint run_ticks (n : nat) : M bot unit :=
  match n with
  | O => mret tt
  | S n' => check_new_reviews ;; run_ticks n'
  end.

Definition on_ready (n : nat) : M bot unit :=
  log INFO "Bot logged in" [] ;;
  run_ticks n.

End reportbot.
Import reportbot.

(** ** A queue *)

Definition bot_db : db :=
  DB [StatusRow 1 (Some "a") REVIEW_OPEN (Some "spam") None None;
      StatusRow 2 (Some "b") REVIEW_CLOSED None None None;
      StatusRow 3 None REVIEW_OPEN None None None] [].

Definition bot_state (channel : bool) (faults : list bool) : bot :=
  Bot (ModState bot_db [] 0 (mkNet [] [])) channel faults [].

Example reportbot_two_ticks :
  bot_sent (snd (run_ticks 2 (bot_state true [])))
  = [Embed "New Ozone Review" (Some "a") "spam" 1; Embed "New Ozone Review" None "No comment provided" 3;
     Embed "New Ozone Review" (Some "a") "spam" 1; Embed "New Ozone Review" None "No comment provided" 3].
Proof. vm_compute. reflexivity. Qed.

(** ** Lemmas *)

Lemma on_db_run {A} (m : M mod_state A) b :
  on_db m b = (fst (m (bot_ms b)), Bot (snd (m (bot_ms b))) (bot_channel b) (bot_send_faults b) (bot_sent b)).
Proof. unfold on_db, zoom. by destruct (m (bot_ms b)). Qed.

(** [fetch_open_reviews] never raises and changes no table; it returns
    the open rows, or nothing when a round trip failed; without faults
    it returns the open rows. *)
Lemma fetch_open_reviews_run s :
  (fst (fetch_open_reviews s) = Ok [] \/
   fst (fetch_open_reviews s) = Ok (map report_of (select_open (ms_db s)))) /\
  ms_db (snd (fetch_open_reviews s)) = ms_db s /\
  (ms_faults s = [] ->
   fst (fetch_open_reviews s) = Ok (map report_of (select_open (ms_db s))) /\
   ms_faults (snd (fetch_open_reviews s)) = []).
Proof.
  destruct s as [d f c n].
  unfold fetch_open_reviews, db_connect, db_cursor, exec_select_open, db_step, log.
  destruct f as [|[] [|[] [|[] f]]]; py_simp; auto;
    destruct (bool_decide (select_open d = [])) eqn:E; py_simp;
    try (apply bool_decide_eq_true in E; rewrite E);
    (split; [auto|split; [done|intros Hf; try discriminate; auto]]).
Qed.

(** One relay: no exception, no table touched; the channel receives the
    embed, or nothing when it is missing or the send fails. *)
Lemma send_run r b :
  exists b', send_report_to_discord r b = (Ok tt, b') /\
    ms_db (bot_ms b') = ms_db (bot_ms b) /\ ms_faults (bot_ms b') = ms_faults (bot_ms b) /\
    bot_channel b' = bot_channel b /\
    (bot_sent b' = bot_sent b \/ bot_sent b' = bot_sent b ++ [embed_of r]) /\
    (bot_channel b = false -> bot_sent b' = bot_sent b) /\
    (bot_channel b = true -> bot_send_faults b = [] ->
     bot_sent b' = bot_sent b ++ [embed_of r] /\ bot_send_faults b' = []).
Proof.
  destruct b as [ms [] fs sent]; unfold send_report_to_discord, channel_send, log; py_simp;
    [destruct fs as [|[] fs]; py_simp|];
    (eexists; split; [reflexivity|]); cbn; split_and!; auto; intros; try discriminate; auto.
Qed.

(** The relay loop over a list of reports. *)
Lemma send_loop_run l b :
  exists b', py_for l tt (fun _ r => send_report_to_discord r) b = (Ok tt, b') /\
    ms_db (bot_ms b') = ms_db (bot_ms b) /\ ms_faults (bot_ms b') = ms_faults (bot_ms b) /\
    bot_channel b' = bot_channel b /\
    (exists l', bot_sent b' = bot_sent b ++ l' /\ sublist l' (map embed_of l)) /\
    (bot_channel b = false -> bot_sent b' = bot_sent b) /\
    (bot_channel b = true -> bot_send_faults b = [] ->
     bot_sent b' = bot_sent b ++ map embed_of l /\ bot_send_faults b' = []).
Proof.
  revert b. induction l as [|r l IH]; intros b.
  { exists b. split_and!; try done; [exists []; rewrite app_nil_r; split; [done|constructor]|].
    intros. cbn. by rewrite app_nil_r. }
  destruct (send_run r b) as (b1 & H1 & Hdb1 & Hf1 & Hc1 & Hs1 & Hno1 & Hyes1).
  destruct (IH b1) as (b2 & H2 & Hdb2 & Hf2 & Hc2 & (l2 & Hs2 & Hsub2) & Hno2 & Hyes2).
  exists b2. cbn [py_for]. rewrite (run_bind_ok _ _ _ _ _ H1). split_and!; [done|congruence|congruence|congruence| | |].
  - destruct Hs1 as [Hs1|Hs1]; rewrite Hs2, Hs1.
    + exists l2. split; [done|]. cbn. by apply sublist_cons.
    + exists (embed_of r :: l2). rewrite <- app_assoc. split; [done|]. cbn. by apply sublist_skip.
  - intros Hch. rewrite Hno2, Hno1; congruence.
  - intros Hch Hf. destruct (Hyes1 Hch Hf) as [Hs Hf1']. destruct (Hyes2 ltac:(congruence) Hf1') as [Hs' Hf2'].
    rewrite Hs', Hs, <- app_assoc. by split.
Qed.

(** The embeds one run of the task sends for the open rows of [d]. *)
Definition relayed (d : db) : list embed := map (fun r => embed_of (report_of r)) (select_open d).

Lemma check_run b :
  exists b', check_new_reviews b = (Ok tt, b') /\
    ms_db (bot_ms b') = ms_db (bot_ms b) /\ bot_channel b' = bot_channel b /\
    (exists l', bot_sent b' = bot_sent b ++ l' /\ sublist l' (relayed (ms_db (bot_ms b)))) /\
    (bot_channel b = false -> bot_sent b' = bot_sent b) /\
    (ms_faults (bot_ms b) = [] -> bot_channel b = true -> bot_send_faults b = [] ->
     bot_sent b' = bot_sent b ++ relayed (ms_db (bot_ms b)) /\
     ms_faults (bot_ms b') = [] /\ bot_send_faults b' = []).
Proof.
  unfold check_new_reviews. rewrite run_bind, on_db_run.
  destruct (fetch_open_reviews_run (bot_ms b)) as (Hres & Hdb & Hnf).
  destruct (fetch_open_reviews (bot_ms b)) as [o ms1] eqn:E. cbn [fst snd] in Hres, Hdb, Hnf |- *.
  assert (Hl : exists l, o = Ok l /\ (l = [] \/ l = map report_of (select_open (ms_db (bot_ms b))))).
  { destruct Hres as [-> | ->]; eauto. }
  destruct Hl as (l & -> & Hl).
  destruct (send_loop_run l (Bot ms1 (bot_channel b) (bot_send_faults b) (bot_sent b)))
    as (b2 & H2 & Hdb2 & Hf2 & Hc2 & (l2 & Hs2 & Hsub2) & Hno2 & Hyes2).
  cbn in Hdb2, Hf2, Hc2, Hs2, Hno2, Hyes2. exists b2. rewrite H2. split_and!; [done|congruence|done| |done|].
  - exists l2. split; [done|]. destruct Hl as [-> | ->].
    + apply sublist_nil_r in Hsub2. subst l2. apply sublist_nil_l.
    + unfold relayed. by rewrite <- map_map.
  - intros Hf Hch Hsf. destruct (Hnf Hf) as [Ho Hf1]. injection Ho as ->.
    destruct (Hyes2 Hch Hsf) as [Hs Hsf2]. split_and!; [|congruence|done].
    rewrite Hs. unfold relayed. by rewrite map_map.
Qed.

(** ** Properties *)

(** C25: without database or Discord faults and with the channel
    found, one run of [check_new_reviews] returns normally, changes no
    table, and sends exactly one embed per open review, in table order,
    carrying its did, its comment ("No comment provided" when it has
    none) and its id. *)
Theorem check_new_reviews_relays_open (b : bot) :
  ms_faults (bot_ms b) = [] -> bot_channel b = true -> bot_send_faults b = [] ->
  fst (check_new_reviews b) = Ok tt /\
  ms_db (bot_ms (snd (check_new_reviews b))) = ms_db (bot_ms b) /\
  bot_sent (snd (check_new_reviews b)) = bot_sent b ++ relayed (ms_db (bot_ms b)).
Proof.
  intros Hf Hch Hsf. destruct (check_run b) as (b' & -> & Hdb & _ & _ & _ & Hyes).
  destruct (Hyes Hf Hch Hsf) as (Hs & _). done.
Qed.

(** Several runs of the task, with the invariants that make the next
    run start where the last one ended. *)
Lemma run_ticks_run n b :
  exists b', run_ticks n b = (Ok tt, b') /\
    ms_db (bot_ms b') = ms_db (bot_ms b) /\ bot_channel b' = bot_channel b /\
    (exists new, bot_sent b' = bot_sent b ++ new /\ Forall (fun e => e ∈ relayed (ms_db (bot_ms b))) new) /\
    (bot_channel b = false -> bot_sent b' = bot_sent b) /\
    (ms_faults (bot_ms b) = [] -> bot_channel b = true -> bot_send_faults b = [] ->
     bot_sent b' = bot_sent b ++ List.concat (repeat (relayed (ms_db (bot_ms b))) n)).
Proof.
  revert b. induction n as [|n IH]; intros b.
  { exists b. split_and!; try done; [exists []; by rewrite app_nil_r|]. intros. cbn. by rewrite app_nil_r. }
  destruct (check_run b) as (b1 & H1 & Hdb1 & Hc1 & (l1 & Hs1 & Hsub1) & Hno1 & Hyes1).
  destruct (IH b1) as (b2 & H2 & Hdb2 & Hc2 & (new & Hs2 & Hnew) & Hno2 & Hyes2).
  exists b2. cbn [run_ticks]. rewrite (run_bind_ok _ _ _ _ _ H1). split_and!; [done|congruence|congruence| | |].
  - exists (l1 ++ new). rewrite Hs2, Hs1, <- app_assoc. split; [done|]. apply Forall_app. split.
    + apply Forall_forall. intros e He. by apply (elem_of_sublist _ _ _ He Hsub1).
    + by rewrite Hdb1 in Hnew.
  - intros Hch. rewrite Hno2, Hno1; congruence.
  - intros Hf Hch Hsf. destruct (Hyes1 Hf Hch Hsf) as (Hs & Hf1 & Hsf1).
    rewrite (Hyes2 Hf1 ltac:(congruence) Hsf1), Hs, Hdb1, <- app_assoc. done.
Qed.

(** C26: the task has no memory of what it already sent: without
    faults, [n] runs on an unchanged queue send every open review [n]
    times, although the task's docstring says it sends the new
    reviews. *)
Theorem run_ticks_resends (n : nat) (b : bot) :
  ms_faults (bot_ms b) = [] -> bot_channel b = true -> bot_send_faults b = [] ->
  fst (run_ticks n b) = Ok tt /\
  bot_sent (snd (run_ticks n b)) = bot_sent b ++ List.concat (repeat (relayed (ms_db (bot_ms b))) n).
Proof.
  intros Hf Hch Hsf. destruct (run_ticks_run n b) as (b' & -> & _ & _ & _ & _ & Hyes). split; [done|].
  by apply Hyes.
Qed.

(** C27: when [client.get_channel] does not find the channel, the runs
    of the task log an error per review, send nothing and raise
    nothing, whatever the database faults. *)
Theorem run_ticks_no_channel (n : nat) (b : bot) :
  bot_channel b = false ->
  fst (run_ticks n b) = Ok tt /\ bot_sent (snd (run_ticks n b)) = bot_sent b.
Proof.
  intros Hch. destruct (run_ticks_run n b) as (b' & -> & _ & _ & _ & Hno & _). split; [done|]. by apply Hno.
Qed.

(** C28: whatever the database and Discord faults, the runs of the task
    raise nothing, change no table, and send only embeds of reviews that
    are open in the queue. *)
Theorem run_ticks_sends_only_open (n : nat) (b : bot) :
  fst (run_ticks n b) = Ok tt /\
  ms_db (bot_ms (snd (run_ticks n b))) = ms_db (bot_ms b) /\
  exists new, bot_sent (snd (run_ticks n b)) = bot_sent b ++ new /\
    Forall (fun e => e ∈ relayed (ms_db (bot_ms b))) new.
Proof. destruct (run_ticks_run n b) as (b' & -> & Hdb & _ & Hnew & _). done. Qed.

(** What the runs of the task send, run by run, whatever the faults. *)
Lemma run_ticks_chunks n b :
  exists runs, List.length runs = n /\ bot_sent (snd (run_ticks n b)) = bot_sent b ++ List.concat runs /\
    Forall (fun sent => sublist sent (relayed (ms_db (bot_ms b)))) runs.
Proof.
  revert b. induction n as [|n IH]; intros b.
  { exists []. rewrite app_nil_r. split_and!; [done|done|constructor]. }
  destruct (check_run b) as (b1 & H1 & Hdb1 & _ & (l1 & Hs1 & Hsub1) & _).
  destruct (IH b1) as (runs & Hlen & Hs2 & Hsub2).
  cbn [run_ticks]. rewrite (run_bind_ok _ _ _ _ _ H1).
  exists (l1 :: runs). rewrite Hs2, Hs1, <- app_assoc. split_and!; [cbn; lia|done|].
  constructor; [done|]. by rewrite Hdb1 in Hsub2.
Qed.

(** C30: whatever the database and Discord faults, the embeds [n] runs
    of the task send split into [n] runs, each of which sends a sublist
    of the embeds of the open reviews in table order: one run sends
    each open review at most once (so [n] runs at most [n] times) and
    nothing else. *)
Theorem run_ticks_sent_bound (n : nat) (b : bot) :
  exists runs, List.length runs = n /\
    bot_sent (snd (run_ticks n b)) = bot_sent b ++ List.concat runs /\
    Forall (fun sent => sublist sent (relayed (ms_db (bot_ms b)))) runs.
Proof. exact (run_ticks_chunks n b). Qed.

(** ** After dedupe *)

Lemma relayed_ids d : map em_footer_id (relayed d) = map sr_id (select_open d).
Proof. unfold relayed. rewrite map_map. done. Qed.

(** C35: the bot after dedupe.  When src/dedupe.py has run on the queue
    without database faults (with [id] a key of the table), one run of
    the task with the channel found and no Discord fault relays, in
    table order, exactly the reviews that were open and that dedupe did
    not close. *)
Theorem dedupe_then_relay (s : mod_state) (sent : list embed) :
  ms_faults s = [] -> NoDup (map sr_id (statuses (ms_db s))) ->
  fst (check_new_reviews (Bot (snd (dedupe.process_reviews s)) true [] sent)) = Ok tt /\
  map em_footer_id (bot_sent (snd (check_new_reviews (Bot (snd (dedupe.process_reviews s)) true [] sent)))) =
    map em_footer_id sent ++
    map sr_id (filter (fun r => sr_reviewState r = REVIEW_OPEN /\ dedupe_closes (ms_db s) r = false)
                 (statuses (ms_db s))).
Proof.
  intros Hf Hnd. destruct (process_reviews_nofault_run s Hf Hnd) as (_ & Hf1 & _ & Hrows).
  destruct (check_run (Bot (snd (dedupe.process_reviews s)) true [] sent)) as (b' & -> & _ & _ & _ & _ & Hyes).
  destruct (Hyes Hf1 eq_refl eq_refl) as (Hs & _). cbn in Hs |- *. split; [done|].
  rewrite Hs, map_app, relayed_ids. f_equal. exact (closed_by_open_ids _ _ _ Hrows).
Qed.

(** Dedupe closes review 1 (labelled) of [queue_db]; review 2 (not
    labelled) and review 0 (falsy id) stay open and are relayed. *)
Example dedupe_then_bot_queue :
  map em_footer_id (bot_sent (snd (check_new_reviews (Bot (snd (dedupe.process_reviews (queue_state []))) true [] []))))
  = [2; 0]%Z.
Proof. vm_compute. reflexivity. Qed.

Lemma check_new_reviews_relays_open_witness :
  ms_faults (bot_ms (bot_state true [])) = [] /\ bot_channel (bot_state true []) = true /\
  bot_send_faults (bot_state true []) = [] /\
  fst (check_new_reviews (bot_state true [])) = Ok tt /\
  ms_db (bot_ms (snd (check_new_reviews (bot_state true [])))) = ms_db (bot_ms (bot_state true [])) /\
  bot_sent (snd (check_new_reviews (bot_state true []))) =
    bot_sent (bot_state true []) ++ relayed (ms_db (bot_ms (bot_state true []))).
Proof.
  split; [reflexivity|]. split; [reflexivity|]. split; [reflexivity|].
  exact (check_new_reviews_relays_open (bot_state true []) eq_refl eq_refl eq_refl).
Defined.

Lemma run_ticks_resends_witness :
  ms_faults (bot_ms (bot_state true [])) = [] /\ bot_channel (bot_state true []) = true /\
  bot_send_faults (bot_state true []) = [] /\
  fst (run_ticks 3 (bot_state true [])) = Ok tt /\
  bot_sent (snd (run_ticks 3 (bot_state true []))) =
    bot_sent (bot_state true []) ++ List.concat (repeat (relayed (ms_db (bot_ms (bot_state true [])))) 3).
Proof.
  split; [reflexivity|]. split; [reflexivity|]. split; [reflexivity|].
  exact (run_ticks_resends 3 (bot_state true []) eq_refl eq_refl eq_refl).
Defined.

Lemma run_ticks_no_channel_witness :
  bot_channel (bot_state false []) = false /\
  fst (run_ticks 2 (bot_state false [])) = Ok tt /\
  bot_sent (snd (run_ticks 2 (bot_state false []))) = bot_sent (bot_state false []).
Proof. split; [reflexivity|]. exact (run_ticks_no_channel 2 (bot_state false []) eq_refl). Defined.

Lemma dedupe_then_relay_witness :
  ms_faults (queue_state []) = [] /\ NoDup (map sr_id (statuses (ms_db (queue_state [])))) /\
  fst (check_new_reviews (Bot (snd (dedupe.process_reviews (queue_state []))) true [] [])) = Ok tt /\
  map em_footer_id (bot_sent (snd (check_new_reviews (Bot (snd (dedupe.process_reviews (queue_state []))) true [] [])))) =
    map em_footer_id [] ++
    map sr_id (filter (fun r => sr_reviewState r = REVIEW_OPEN /\ dedupe_closes (ms_db (queue_state [])) r = false)
                 (statuses (ms_db (queue_state [])))).
Proof.
  assert (H1 : ms_faults (queue_state []) = []) by reflexivity.
  assert (H2 : NoDup (map sr_id (statuses (ms_db (queue_state []))))) by (apply (bool_decide_unpack _); vm_compute; reflexivity).
  split; [exact H1|]. split; [exact H2|]. exact (dedupe_then_relay (queue_state []) [] H1 H2).
Defined.

